(** * CASE / Manifest backend: the generic CRUD query engine and the entity loader

    A shallow embedding of
      - [CrudService] (the second class of
        packages/core/manifest/src/crud/services/database.service.ts):
        [findAll], [store], [delete], [getVisibleProps], [loadRelations],
        [filterQuery];
      - [EntityLoaderService.loadEntities] (unnamed/part_003);
      - [propTypeColumnTypes]
        (packages/core/manifest/src/entity/records/prop-type-column-types.ts).

    Conventions.
      - A JavaScript string is a [string]; only the ASCII range is modelled.
      - A JavaScript number that the code only uses as an integer is a [Z];
        [NaN] is [None].
      - A thrown exception is [Throw e]; a normal return is [Ok v].
      - The recursion of [loadRelations] has no bound in the source, so it is
        modelled with fuel: [None] means that the given recursion depth was
        not enough.
      - TypeORM's [SelectQueryBuilder] is a mutable object; each of its
        methods is a function on the record [SelectQueryBuilder] and the
        service threads that record through its calls. *)

From Stdlib Require Import ZArith Lia Bool Ascii.
From Stdlib Require DecimalString DecimalPos.
From stdpp Require Import gmap strings list fin_maps.

Local Open Scope Z_scope.

(* ===================================================================== *)
(** ** JavaScript strings *)
(* ===================================================================== *)

Module Js.

(** [s.startsWith(p)] *)
Fixpoint startsWith (p s : string) : bool :=
  match p, s with
  | EmptyString, _ => true
  | String _ _, EmptyString => false
  | String a p', String b s' => if Ascii.eqb a b then startsWith p' s' else false
  end.

(** [s.includes(p)] *)
Fixpoint includes (p s : string) : bool :=
  startsWith p s ||
  match s with
  | EmptyString => false
  | String _ s' => includes p s'
  end.

(** [s.slice(n)] for [0 <= n] *)
Fixpoint drop (n : nat) (s : string) : string :=
  match n, s with
  | O, _ => s
  | S _, EmptyString => EmptyString
  | S n', String _ s' => drop n' s'
  end.

(** [s.replace(p, '')] with a string pattern: only the first occurrence of
    [p] is removed. *)
Fixpoint removeFirst (p s : string) : string :=
  if startsWith p s then drop (String.length p) s
  else match s with
       | EmptyString => EmptyString
       | String c s' => String c (removeFirst p s')
       end.

(** [s.split(sep)] for a one-character separator: never the empty list. *)
Fixpoint split (sep : ascii) (s : string) : list string :=
  match s with
  | EmptyString => [EmptyString]
  | String c s' =>
      if Ascii.eqb c sep then EmptyString :: split sep s'
      else match split sep s' with
           | [] => [String c EmptyString]
           | w :: ws => String c w :: ws
           end
  end.

(** [a.join(sep)] *)
Fixpoint join (sep : string) (l : list string) : string :=
  match l with
  | [] => EmptyString
  | [x] => x
  | x :: rest => x +:+ sep +:+ join sep rest
  end.

(** A template literal `${v}` where [v] may be [undefined]. *)
Definition interpolate (v : option string) : string :=
  match v with
  | Some s => s
  | None => "undefined"
  end.

(** White space that [parseInt] skips (ASCII part of StrWhiteSpaceChar). *)
Definition isWhiteSpace (c : ascii) : bool :=
  let n := nat_of_ascii c in
  (Nat.eqb n 9 || Nat.eqb n 10 || Nat.eqb n 11 || Nat.eqb n 12
   || Nat.eqb n 13 || Nat.eqb n 32)%bool.

Fixpoint skipWhiteSpace (s : string) : string :=
  match s with
  | String c s' => if isWhiteSpace c then skipWhiteSpace s' else s
  | EmptyString => s
  end.

Definition digit (c : ascii) : option Z :=
  let n := nat_of_ascii c in
  if (Nat.leb 48 n && Nat.leb n 57)%bool then Some (Z.of_nat n - 48) else None.

(** The value of the longest prefix of decimal digits; [None] when there is
    no digit at all. [acc] is [None] until the first digit is read. *)
Fixpoint digits (acc : option Z) (s : string) : option Z :=
  match s with
  | EmptyString => acc
  | String c s' =>
      match digit c with
      | Some d => digits (Some (10 * default 0 acc + d)) s'
      | None => acc
      end
  end.

(** [parseInt(s, 10)]: leading white space, an optional sign, then the
    longest run of digits; [None] is [NaN]. The result is the integer the
    digits denote (JavaScript rounds it to a double above 2^53; sign and
    zero-ness, which is all the callers look at, are not affected). *)
Definition parseInt (s : string) : option Z :=
  match skipWhiteSpace s with
  | String "-" s' => Z.opp <$> digits None s'
  | String "+" s' => digits None s'
  | s' => digits None s'
  end.

(** [n || d] for a number [n]: [NaN] and [0] are falsy. *)
Definition orDefault (n : option Z) (d : Z) : Z :=
  match n with
  | Some v => if Z.eqb v 0 then d else v
  | None => d
  end.

End Js.

(* ===================================================================== *)
(** ** Exceptions and results *)
(* ===================================================================== *)

(** class-validator's [ValidationError] (validation-error.interface.ts);
    [target] and [value] are left out, the engine never reads them. *)
#[warnings="-register-all"]
Inductive ValidationError : Type :=
  | MkValidationError
      (property : string)
      (constraints : list (string * string))
      (children : list ValidationError).

Inductive Exception : Type :=
  | NotFoundException (message : string)
  | BadRequest (message : string)              (* HttpException(msg, 400) *)
  | BadRequestErrors (errors : list ValidationError) (* HttpException(errors, 400) *)
  | TypeError (message : string)
  | SyntaxError (message : string)
  | ServiceError (message : string).           (* thrown by a collaborator *)

Inductive res (A : Type) : Type :=
  | Ok (a : A)
  | Throw (e : Exception).
Arguments Ok {A} a.
Arguments Throw {A} e.

Definition bind {A B} (r : res A) (k : A -> res B) : res B :=
  match r with
  | Ok a => k a
  | Throw e => Throw e
  end.

Notation "'let!' x ':=' r 'in' k" := (bind r (fun x => k))
  (at level 10, x name, r at level 100, k at level 200).

(** [l.forEach(f)] where [f] updates the state [s] and may throw. *)
Fixpoint forEach {A S} (f : S -> A -> res S) (l : list A) (s : S) : res S :=
  match l with
  | [] => Ok s
  | a :: l' => let! s' := f s a in forEach f l' s'
  end.

(** The same loop when the body may also run out of recursion depth. *)
Fixpoint forEachFuel {A S} (f : S -> A -> option (res S)) (l : list A) (s : S)
  : option (res S) :=
  match l with
  | [] => Some (Ok s)
  | a :: l' =>
      match f s a with
      | Some (Ok s') => forEachFuel f l' s'
      | other => other
      end
  end.

(* ===================================================================== *)
(** ** The manifest model (@repo/types) *)
(* ===================================================================== *)

Module Manifest.

(** The property types that [propTypeColumnTypes] enumerates. *)
Inductive PropType : Type :=
  | String_ | Number | Link | Text | RichText | Money | Date | Timestamp
  | Email | Boolean | Password | Choice | Location | File | Image.

(** The fields of a property that the engine and the loader read. Other
    declared options (validation rules and the like) are read by neither. *)
Record PropertyManifest : Type := {
  prop_name : string;
  prop_type : PropType;
  prop_hidden : bool
}.

Inductive RelationshipType : Type := OneToMany | ManyToOne | ManyToMany.

Record RelationshipManifest : Type := {
  rel_name : string;
  rel_type : RelationshipType;
  rel_eager : bool;
  rel_owningSide : bool;
  rel_entity : string
}.

Record EntityManifest : Type := {
  className : string;
  slug : string;
  mainProp : string;
  properties : list PropertyManifest;
  relationships : list RelationshipManifest;
  authenticable : bool;
  single : bool
}.

(** TypeORM's [RelationMetadata]: [propertyName] and
    [inverseEntityMetadata.targetName]. *)
Record RelationMetadata : Type := {
  propertyName : string;
  inverseTargetName : string
}.

(** TypeORM's [EntityMetadata]: the relations of one entity. *)
Record EntityMetadata : Type := {
  targetName : string;
  relations : list RelationMetadata
}.

End Manifest.
Export Manifest.

(* ===================================================================== *)
(** ** Query parameters *)
(* ===================================================================== *)

(** A value of the query-parameter object: [string | string[]]. *)
Inductive QueryValue : Type :=
  | QString (s : string)
  | QArray (l : list string).

(** [v.toString()] *)
Definition toString (v : QueryValue) : string :=
  match v with
  | QString s => s
  | QArray l => Js.join "," l
  end.

(** [String(v)] where [v] may be [undefined], as [parseInt] applies it. *)
Definition toStringU (v : option QueryValue) : string :=
  match v with
  | Some v => toString v
  | None => "undefined"
  end.

(** Truthiness of a value: only the empty string is falsy (an array is an
    object, hence truthy). *)
Definition truthy (v : option QueryValue) : bool :=
  match v with
  | None => false
  | Some (QString s) => negb (String.eqb s "")
  | Some (QArray _) => true
  end.

(** The query-parameter object, as [Object.entries] lists it; a key occurs
    once. *)
Definition QueryParams : Type := list (string * QueryValue).

(** [queryParams[key]] *)
Fixpoint param (key : string) (q : QueryParams) : option QueryValue :=
  match q with
  | [] => None
  | (k, v) :: q' => if String.eqb k key then Some v else param key q'
  end.

(* ===================================================================== *)
(** ** TypeORM's SelectQueryBuilder *)
(* ===================================================================== *)

Inductive Order : Type := ASC | DESC.

(** A value bound to a named parameter of the query. *)
Inductive ParamValue (Json : Type) : Type :=
  | PValue (v : QueryValue)
  | PJson (j : Json).
Arguments PValue {Json} v.
Arguments PJson {Json} j.

(** The part of the builder's expression map that the service touches. *)
Record SelectQueryBuilder (Json : Type) : Type := {
  mainAlias : string;
  selects : list string;
  joins : list (string * string);       (* leftJoin(property, alias) *)
  wheres : list string;                 (* conditions, ANDed by the builder *)
  parameters : gmap string (ParamValue Json);
  orderBys : list (string * Order)
}.
Arguments mainAlias {Json} _.
Arguments selects {Json} _.
Arguments joins {Json} _.
Arguments wheres {Json} _.
Arguments parameters {Json} _.
Arguments orderBys {Json} _.

Module QB.
Section QB.
Context {Json : Type}.
Local Abbreviation SQB := (SelectQueryBuilder Json).

(** [repository.createQueryBuilder(alias)] *)
Definition createQueryBuilder (alias : string) : SQB :=
  {| mainAlias := alias; selects := []; joins := []; wheres := [];
     parameters := ∅; orderBys := [] |}.

(** [select(cols)] replaces the selection. *)
Definition select (cols : list string) (q : SQB) : SQB :=
  {| mainAlias := mainAlias q; selects := cols; joins := joins q;
     wheres := wheres q; parameters := parameters q; orderBys := orderBys q |}.

(** [addSelect(cols)] extends it. *)
Definition addSelect (cols : list string) (q : SQB) : SQB :=
  {| mainAlias := mainAlias q; selects := selects q ++ cols; joins := joins q;
     wheres := wheres q; parameters := parameters q; orderBys := orderBys q |}.

Definition leftJoin (property alias : string) (q : SQB) : SQB :=
  {| mainAlias := mainAlias q; selects := selects q;
     joins := joins q ++ [(property, alias)];
     wheres := wheres q; parameters := parameters q; orderBys := orderBys q |}.

(** [where(cond, params)]: "Sets WHERE condition in the query builder. If
    you had previously WHERE expression defined, calling this function
    will override previously set WHERE conditions." It resets the list
    of conditions to [cond] alone and then merges [params] into the
    parameters, key by key. *)
Definition where_ (cond : string) (name : string) (v : ParamValue Json)
    (q : SQB) : SQB :=
  {| mainAlias := mainAlias q; selects := selects q; joins := joins q;
     wheres := [cond]; parameters := <[name := v]> (parameters q);
     orderBys := orderBys q |}.

(** [orderBy(col, order)] replaces the ordering. *)
Definition orderBy (col : string) (o : Order) (q : SQB) : SQB :=
  {| mainAlias := mainAlias q; selects := selects q; joins := joins q;
     wheres := wheres q; parameters := parameters q;
     orderBys := [(col, o)] |}.
End QB.
End QB.

(* ===================================================================== *)
(** ** Constants of @repo/types and ../../constants *)
(* ===================================================================== *)

(** Modelled from the spec: the enum [WhereOperator] of @repo/types, which
    is not part of the sources at hand. The operators are the ones the SDK's
    [where] clause accepts. *)
Inductive WhereOperator : Type :=
  | Equal | GreaterThan | GreaterThanOrEqual | LessThan | LessThanOrEqual
  | NotEqual | Like | In_.

(** The value of each enum member, as it is printed into the condition. *)
Definition operatorSymbol (o : WhereOperator) : string :=
  match o with
  | Equal => "="
  | GreaterThan => ">"
  | GreaterThanOrEqual => ">="
  | LessThan => "<"
  | LessThanOrEqual => "<="
  | NotEqual => "!="
  | Like => "like"
  | In_ => "in"
  end.

Definition WhereOperator_values : list WhereOperator :=
  [Equal; GreaterThan; GreaterThanOrEqual; LessThan; LessThanOrEqual;
   NotEqual; Like; In_].

(** Modelled from the spec: the record [whereOperatorKeySuffix] of
    @repo/types: "a fixed set of operator suffixes (e.g. _eq, _gt, _gte,
    _lt, _lte, _ne, _like, _in)". *)
Definition whereOperatorKeySuffix (o : WhereOperator) : string :=
  match o with
  | Equal => "_eq"
  | GreaterThan => "_gt"
  | GreaterThanOrEqual => "_gte"
  | LessThan => "_lt"
  | LessThanOrEqual => "_lte"
  | NotEqual => "_ne"
  | Like => "_like"
  | In_ => "_in"
  end.

(** Modelled from the spec: [Object.values(WhereKeySuffix)], the suffixes in
    the order of the enum's declaration, which is the order the spec lists
    them in. *)
Definition WhereKeySuffix_values : list string :=
  map whereOperatorKeySuffix WhereOperator_values.

(** Modelled from the spec: the helper [getRecordKeyByValue] of
    @repo/helpers applied to [whereOperatorKeySuffix]: the operator whose
    suffix is the given one. *)
Definition getRecordKeyByValue (suffix : string) : option WhereOperator :=
  find (fun o => String.eqb (whereOperatorKeySuffix o) suffix)
       WhereOperator_values.

(** Modelled from the spec: [QUERY_PARAMS_RESERVED_WORDS] of ../../constants:
    "reserved word (page, perPage, orderBy, order, relations)". *)
Definition QUERY_PARAMS_RESERVED_WORDS : list string :=
  ["page"; "perPage"; "orderBy"; "order"; "relations"].

(** [a.includes(x)] on an array of strings *)
Definition arrayIncludes (x : string) (a : list string) : bool :=
  existsb (String.eqb x) a.

(** What [findAll] hands to [PaginationService.paginate]. *)
Record PaginateArgs (Json : Type) : Type := {
  query : SelectQueryBuilder Json;
  currentPage : Z;
  resultsPerPage : Z
}.
Arguments query {Json} _.
Arguments currentPage {Json} _.
Arguments resultsPerPage {Json} _.

(* ===================================================================== *)
(** ** CrudService: the read path *)
(* ===================================================================== *)

Module CrudService.
Section Read.

(** The collaborators whose code is not at hand are parameters:
    [ManifestService.getEntityManifest] (by slug, and by class name),
    [EntityService.getEntityMetadata], the helper [camelize],
    [JSON.parse] and the constant [DEFAULT_RESULTS_PER_PAGE]. *)
Context {Json : Type}.
Variable JSON_parse : string -> res Json.
Variable camelize : list string -> string.
Variable getEntityManifest : string -> bool -> res EntityManifest.
Variable getEntityManifestByClassName : string -> res EntityManifest.
Variable getEntityMetadata : string -> res EntityMetadata.
Variable DEFAULT_RESULTS_PER_PAGE : Z.

Local Abbreviation SQB := (SelectQueryBuilder Json).

(** `${alias}.${name}` *)
Definition column (alias name : string) : string := alias +:+ "." +:+ name.

Definition getVisibleProps (props : list PropertyManifest) (alias : string)
    (fullVersion : bool) : list string :=
  (* Id is always visible. *)
  let visibleProps := [column alias "id"] in
  let shown :=
    List.filter (fun prop => fullVersion || negb (prop_hidden prop))
      (List.filter (fun prop => negb (String.eqb (prop_name prop) "password"))
         props) in
  visibleProps ++ map (fun prop => column alias (prop_name prop)) shown.

(** The requested relations handed to the recursive call: the relation
    just joined is removed, and its name followed by a dot is removed
    from the remaining paths (first occurrence). *)
Definition pruneRequested (name : string) (requestedRelations : option (list string))
    : option (list string) :=
  (fun l =>
     map (Js.removeFirst (name +:+ "."))
       (List.filter (fun r => negb (String.eqb r name)) l))
  <$> requestedRelations.

(** [requestedRelations?.includes(name)], read as a condition. *)
Definition isRequested (name : string) (requestedRelations : option (list string))
    : bool :=
  match requestedRelations with
  | Some l => arrayIncludes name l
  | None => false
  end.

Fixpoint loadRelations (fuel : nat) (query : SQB)
    (entityMetadata : EntityMetadata)
    (relationships : list RelationshipManifest)
    (requestedRelations : option (list string))
    (alias : string) {struct fuel} : option (res SQB) :=
  match fuel with
  | O => None
  | S fuel' =>
    forEachFuel
      (fun (query : SQB) (relationMetadata : RelationMetadata) =>
         match find (fun relationship =>
                       String.eqb (rel_name relationship)
                                  (propertyName relationMetadata))
                    relationships with
         | None =>
             (* relationshipManifest.eager on undefined *)
             Some (Throw (TypeError "Cannot read properties of undefined (reading 'eager')"))
         | Some relationshipManifest =>
           (* Only eager or requested relations are loaded. *)
           if negb (rel_eager relationshipManifest)
              && negb (isRequested (propertyName relationMetadata) requestedRelations)
           then Some (Ok query)
           else
             let aliasName := camelize [alias; propertyName relationMetadata] in
             let query :=
               QB.leftJoin (column alias (propertyName relationMetadata))
                           aliasName query in
             match getEntityManifestByClassName (inverseTargetName relationMetadata) with
             | Throw e => Some (Throw e)
             | Ok relationEntityManifest =>
               let query :=
                 QB.addSelect
                   (getVisibleProps (properties relationEntityManifest) aliasName false)
                   query in
               (* Load relations of relations. *)
               match getEntityMetadata (inverseTargetName relationMetadata) with
               | Throw e => Some (Throw e)
               | Ok relationEntityMetadata =>
                 match relations relationEntityMetadata with
                 | [] => Some (Ok query)
                 | _ :: _ =>
                   loadRelations fuel' query relationEntityMetadata
                     (Manifest.relationships relationEntityManifest)
                     (pruneRequested (propertyName relationMetadata) requestedRelations)
                     aliasName
                 end
               end
             end
         end)
      (relations entityMetadata) query
  end.

(** The operator suffix of a key: the first suffix, in reversed
    declaration order, that the key includes. *)
Definition findSuffix (key : string) : option string :=
  find (fun suffix => Js.includes suffix key) (rev WhereKeySuffix_values).

(** `${operator}` where [operator] may be [undefined]. *)
Definition printOperator (o : option WhereOperator) : string :=
  Js.interpolate (operatorSymbol <$> o).

Definition isIn (o : option WhereOperator) : bool :=
  match o with
  | Some In_ => true
  | _ => false
  end.

(** The body of the loop of [filterQuery], for one entry. *)
Definition filterEntry (entityManifest : EntityManifest)
    (query : SQB) (entry : string * QueryValue) : res SQB :=
  let '(key, value) := entry in
  match findSuffix key with
  | None => Throw (BadRequest "Query param key should include an operator suffix")
  | Some suffix =>
    let operator := getRecordKeyByValue suffix in
    let propName := Js.removeFirst suffix key in
    let prop :=
      find (fun prop => String.eqb (prop_name prop) propName
                        && negb (prop_hidden prop))
           (properties entityManifest) in
    let relation :=
      find (fun relationship =>
              String.eqb (rel_name relationship)
                         (default "" (head (Js.split "." propName))))
           (relationships entityManifest) in
    match prop, relation with
    | None, None =>
        Throw (BadRequest ("Property " +:+ propName +:+ " does not exist in "
                           +:+ className entityManifest))
    | _, _ =>
      let whereKey :=
        match relation with
        | Some relation =>
            let aliasName := camelize ["entity"; rel_name relation] in
            column aliasName (Js.interpolate (Js.split "." propName !! 1%nat))
        | None => column "entity" propName
        end in
      (* Allow "true" and "false" to be used for boolean props. *)
      let value :=
        match prop with
        | Some {| prop_type := Boolean |} =>
            match value with
            | QString "true" => QString "1"
            | QString "false" => QString "0"
            | _ => value
            end
        | _ => value
        end in
      if isIn operator then
        let! parsed := JSON_parse ("[" +:+ toString value +:+ "]") in
        Ok (QB.where_ (whereKey +:+ " " +:+ printOperator operator +:+ " (:...value)")
                      "value" (PJson parsed) query)
      else
        Ok (QB.where_ (whereKey +:+ " " +:+ printOperator operator +:+ " :value")
                      "value" (PValue value) query)
    end
  end.

Definition filterQuery (query : SQB) (queryParams : option QueryParams)
    (entityManifest : EntityManifest) : res SQB :=
  forEach (filterEntry entityManifest)
    (List.filter
       (fun entry => negb (arrayIncludes (fst entry) QUERY_PARAMS_RESERVED_WORDS))
       (default [] queryParams))
    query.

(** The ordering step of [findAll]. *)
Definition applyOrdering (entitySlug : string) (entityManifest : EntityManifest)
    (queryParams : option QueryParams) (query : SQB) : res SQB :=
  let orderBy := queryParams ≫= param "orderBy" in
  if truthy orderBy then
    match find (fun prop =>
                  match orderBy with
                  | Some (QString s) => String.eqb (prop_name prop) s
                  | _ => false
                  end && negb (prop_hidden prop))
               (properties entityManifest) with
    | None =>
        Throw (BadRequest ("Property " +:+ toStringU orderBy +:+ " does not exist in "
                           +:+ entitySlug +:+ " and thus cannot be used for ordering"))
    | Some _ =>
        Ok (QB.orderBy (column "entity" (toStringU orderBy))
              (match queryParams ≫= param "order" with
               | Some (QString "DESC") => DESC
               | _ => ASC
               end)
              query)
    end
  else Ok (QB.orderBy "entity.id" DESC query).

(** The arguments of the final [paginate] call; reading a property of an
    omitted [queryParams] throws. *)
Definition paginateArgs (queryParams : option QueryParams) (query : SQB)
    : res (PaginateArgs Json) :=
  match queryParams with
  | None => Throw (TypeError "Cannot read properties of undefined (reading 'page')")
  | Some queryParams =>
      Ok {| query := query;
            currentPage :=
              Js.orDefault (Js.parseInt (toStringU (param "page" queryParams))) 1;
            resultsPerPage :=
              Js.orDefault (Js.parseInt (toStringU (param "perPage" queryParams)))
                           DEFAULT_RESULTS_PER_PAGE |}
  end.

(** [findAll] up to its last statement: the result is the call
    [paginationService.paginate(...)] that it returns. *)
Definition findAll (fuel : nat) (entitySlug : string)
    (queryParams : option QueryParams) (fullVersion : bool)
    : option (res (PaginateArgs Json)) :=
  match getEntityManifest entitySlug fullVersion with
  | Throw e => Some (Throw e)
  | Ok entityManifest =>
    match getEntityMetadata (className entityManifest) with
    | Throw e => Some (Throw e)
    | Ok entityMetadata =>
      let query := QB.createQueryBuilder "entity" in
      (* Select only visible props. *)
      let query :=
        QB.select (getVisibleProps (properties entityManifest) "entity" fullVersion)
                  query in
      (* Load relations. *)
      match loadRelations fuel query entityMetadata
              (relationships entityManifest)
              ((fun v => Js.split "," (toString v))
                 <$> (queryParams ≫= param "relations"))
              "entity" with
      | None => None
      | Some (Throw e) => Some (Throw e)
      | Some (Ok query) =>
        Some (
          (* Apply filters. *)
          let! query := filterQuery query queryParams entityManifest in
          (* Apply ordering. *)
          let! query := applyOrdering entitySlug entityManifest queryParams query in
          (* Paginate. *)
          paginateArgs queryParams query)
      end
    end
  end.

End Read.
End CrudService.

(* ===================================================================== *)
(** ** The storage engine, as the write path uses it *)
(* ===================================================================== *)

(** A stored row or a DTO: a JavaScript object, from the name of a field to
    its value. [Value] is the type of these values. *)
Abbreviation BaseEntity Value := (gmap string Value).

(** The tables of the database, by entity slug; a table maps the primary
    key [id] to its row. *)
Abbreviation Database Value := (gmap string (gmap Z (BaseEntity Value))).

(** An item as [repository.findOne({ where, relations })] returns it: the
    row, and under the name of each requested relation the array of the
    related items. *)
Record LoadedItem (Value : Type) : Type := {
  row : BaseEntity Value;
  loaded : list (string * list (BaseEntity Value))
}.
Arguments row {Value} _.
Arguments loaded {Value} _.

(** TypeORM's [DeleteResult]: the number of affected rows. *)
Record DeleteResult : Type := { affected : Z }.

Module Repository.
Section Repository.
Context {Value : Type}.

(** The storage engine's relation loader: the items that are related to
    row [id] of [entitySlug] through relation [name]. *)
Variable related : Database Value -> string -> Z -> string -> list (BaseEntity Value).

Definition findOne (db : Database Value) (entitySlug : string) (id : Z)
    (relations : list string) : option (LoadedItem Value) :=
  table ← db !! entitySlug;
  r ← table !! id;
  Some {| row := r;
          loaded := map (fun name => (name, related db entitySlug id name)) relations |}.

(** [repository.delete(id)]: removes the row with that primary key. *)
Definition delete (db : Database Value) (entitySlug : string) (id : Z)
    : Database Value * DeleteResult :=
  match db !! entitySlug with
  | Some table =>
      (<[entitySlug := base.delete id table]> db,
       {| affected := match table !! id with Some _ => 1 | None => 0 end |})
  | None => (db, {| affected := 0 |})
  end.

(** [item[name]] for a relation name. *)
Fixpoint relationOf (name : string) (l : list (string * list (BaseEntity Value)))
    : option (list (BaseEntity Value)) :=
  match l with
  | [] => None
  | (k, v) :: l' => if String.eqb k name then Some v else relationOf name l'
  end.
End Repository.
End Repository.

(* ===================================================================== *)
(** ** CrudService: the write path *)
(* ===================================================================== *)

Module CrudServiceWrite.
Section Write.

(** Collaborators that are parameters: the entity service's repository
    lookup, the manifest service, the relationship service's
    [fetchRelationItemsFromDto] (a read), the validation service,
    crypto-js's [SHA3(x).toString()], JavaScript truthiness on field
    values, and the repository's [create] (in memory) and [save]. *)
Context {Value : Type}.
Variable related : Database Value -> string -> Z -> string -> list (BaseEntity Value).
Variable getEntityRepository : string -> res unit.
Variable getEntityManifest : string -> bool -> res EntityManifest.
Variable fetchRelationItemsFromDto :
  Database Value -> BaseEntity Value -> list RelationshipManifest ->
  res (BaseEntity Value).
Variable validate : BaseEntity Value -> EntityManifest -> list ValidationError.
Variable SHA3 : option Value -> Value.
Variable isTruthy : option Value -> bool.
Variable create : BaseEntity Value -> BaseEntity Value.
Variable save :
  Database Value -> string -> BaseEntity Value ->
  Database Value * res (BaseEntity Value).

(** The relationships whose items [store] resolves from the DTO. *)
Definition attachable (relationships : list RelationshipManifest)
    : list RelationshipManifest :=
  List.filter
    (fun r => match rel_type r with ManyToMany => rel_owningSide r | _ => true end)
    (List.filter
       (fun r => match rel_type r with OneToMany => false | _ => true end)
       relationships).

(** [store] up to validation: the candidate item and the relation items,
    computed without any write. *)
Definition candidate (db : Database Value) (entitySlug : string)
    (itemDto : BaseEntity Value)
    : res (EntityManifest * BaseEntity Value * BaseEntity Value) :=
  let! _ := getEntityRepository entitySlug in
  let! entityManifest := getEntityManifest entitySlug true in
  let newItem := create itemDto in
  let! relationItems :=
    fetchRelationItemsFromDto db itemDto
      (attachable (relationships entityManifest)) in
  let newItem :=
    if authenticable entityManifest && isTruthy (itemDto !! "password")
    then <["password" := SHA3 (newItem !! "password")]> newItem
    else newItem in
  Ok (entityManifest, newItem, relationItems).

Definition store (db : Database Value) (entitySlug : string)
    (itemDto : BaseEntity Value) : Database Value * res (BaseEntity Value) :=
  match candidate db entitySlug itemDto with
  | Throw e => (db, Throw e)
  | Ok (entityManifest, newItem, relationItems) =>
      let errors := validate newItem entityManifest in
      match errors with
      | _ :: _ => (db, Throw (BadRequestErrors errors))
      | [] =>
          (* { ...newItem, ...relationItems } *)
          save db entitySlug (relationItems ∪ newItem)
      end
  end.

(** The check of [delete] on one one-to-many relationship. *)
Definition checkNoRelated (item : LoadedItem Value) (_ : unit)
    (relationship : RelationshipManifest) : res unit :=
  match Repository.relationOf (rel_name relationship) (loaded item) with
  | None => Throw (TypeError "Cannot read properties of undefined (reading 'length')")
  | Some [] => Ok tt
  | Some (_ :: _) =>
      Throw (BadRequest ("Cannot delete item as it has related "
                         +:+ rel_name relationship
                         +:+ ". Please delete the related items first."))
  end.

Definition oneToMany (relationships : list RelationshipManifest)
    : list RelationshipManifest :=
  List.filter
    (fun r => match rel_type r with OneToMany => true | _ => false end)
    relationships.

Definition delete (db : Database Value) (entitySlug : string) (id : Z)
    : Database Value * res DeleteResult :=
  match getEntityRepository entitySlug with
  | Throw e => (db, Throw e)
  | Ok _ =>
    match getEntityManifest entitySlug false with
    | Throw e => (db, Throw e)
    | Ok entityManifest =>
      let oneToManyRelationships := oneToMany (relationships entityManifest) in
      match Repository.findOne related db entitySlug id
              (map rel_name oneToManyRelationships) with
      | None => (db, Throw (NotFoundException "Item not found"))
      | Some item =>
        (* Throw an error if the item has related items in a one-to-many
           relationship. *)
        match forEach (checkNoRelated item) oneToManyRelationships tt with
        | Throw e => (db, Throw e)
        | Ok _ =>
            let '(db', result) := Repository.delete db entitySlug id in
            (db', Ok result)
        end
      end
    end
  end.

End Write.
End CrudServiceWrite.

(* ===================================================================== *)
(** ** EntityLoaderService *)
(* ===================================================================== *)

(** TypeORM column types that occur in [propTypeColumnTypes], and the rest. *)
Inductive ColumnType : Type :=
  | varchar | decimal | text | date | integer | boolean | simple_enum | json
  | otherColumnType (name : string).

(** prop-type-column-types.ts *)
Definition propTypeColumnTypes (t : PropType) : ColumnType :=
  match t with
  | String_ => varchar
  | Number => decimal
  | Link => varchar
  | Text => text
  | RichText => text
  | Money => decimal
  | Date => date
  | Timestamp => integer
  | Email => varchar
  | Boolean => boolean
  | Password => varchar
  | Choice => simple_enum
  | Location => json
  | File => varchar
  | Image => json
  end.

(** TypeORM's [EntitySchemaColumnOptions]: the options the loader sets, and
    those a base entity may set. An option that is absent is [None]. *)
Record EntitySchemaColumnOptions : Type := {
  col_name : option string;
  col_type : ColumnType;
  col_nullable : option bool;
  col_primary : option bool;
  col_generated : option bool;
  col_unique : option bool;
  col_select : option bool;
  col_createDate : option bool;
  col_updateDate : option bool
}.

Record EntitySchema (RelationOptions : Type) : Type := {
  schema_name : string;
  columns : gmap string EntitySchemaColumnOptions;
  schema_relations : RelationOptions;
  uniques : list (list string)
}.
Arguments schema_name {RelationOptions} _.
Arguments columns {RelationOptions} _.
Arguments schema_relations {RelationOptions} _.
Arguments uniques {RelationOptions} _.

Module EntityLoaderService.
Section Loader.

(** The base entities (core-entities/) and the relationship service are
    parameters. *)
Context {RelationOptions : Type}.
Variable baseEntity : gmap string EntitySchemaColumnOptions.
Variable baseAuthenticableEntity : gmap string EntitySchemaColumnOptions.
Variable getEntitySchemaRelationOptions : EntityManifest -> RelationOptions.

(** The column of one property. *)
Definition propertyColumn (propManifest : PropertyManifest)
    : EntitySchemaColumnOptions :=
  {| col_name := Some (prop_name propManifest);
     col_type := propTypeColumnTypes (prop_type propManifest);
     col_nullable := Some true;
     col_primary := None; col_generated := None; col_unique := None;
     col_select := None; col_createDate := None; col_updateDate := None |}.

(** [properties.reduce((acc, p) => { acc[p.name] = ...; return acc }, init)] *)
Definition reduceColumns (props : list PropertyManifest)
    (init : gmap string EntitySchemaColumnOptions)
    : gmap string EntitySchemaColumnOptions :=
  fold_left
    (fun acc propManifest =>
       <[prop_name propManifest := propertyColumn propManifest]> acc)
    props init.

Definition entitySchema (entityManifest : EntityManifest)
    : EntitySchema RelationOptions :=
  {| schema_name := className entityManifest;
     columns :=
       reduceColumns (properties entityManifest)
         (if authenticable entityManifest
          then baseAuthenticableEntity else baseEntity);
     schema_relations := getEntitySchemaRelationOptions entityManifest;
     uniques := if authenticable entityManifest then [["email"]] else [] |}.

(** [entityManifests] is what [manifestService.getEntityManifests()]
    returns. *)
Definition loadEntities (entityManifests : list EntityManifest)
    : list (EntitySchema RelationOptions) :=
  map entitySchema entityManifests.

End Loader.
End EntityLoaderService.

(* ===================================================================== *)
(** ** A sample application *)
(* ===================================================================== *)

(** Concrete collaborators and manifests on which the model is evaluated. *)
Module Sample.

Definition upper (c : ascii) : ascii :=
  let n := nat_of_ascii c in
  if (Nat.leb 97 n && Nat.leb n 122)%bool then ascii_of_nat (n - 32) else c.

Definition capitalize (s : string) : string :=
  match s with
  | String c s' => String (upper c) s'
  | EmptyString => EmptyString
  end.

(** Modelled from the spec: the helper [camelize] of @repo/helpers, "a
    deterministic alias derived from the parent alias + relation name":
    the words are concatenated, each but the first capitalised. *)
Definition camelize (words : list string) : string :=
  match words with
  | [] => EmptyString
  | w :: ws => fold_left (fun acc x => acc +:+ capitalize x) ws w
  end.

(** A [JSON.parse] that keeps the text. *)
Definition JSON_parse (s : string) : res string := Ok s.

Definition DEFAULT_RESULTS_PER_PAGE : Z := 10.

(** A registry of manifests stands for the manifest service and for the
    entity service. The metadata of an entity has one relation per
    declared relationship. *)
Definition metadataOf (m : EntityManifest) : EntityMetadata :=
  {| targetName := className m;
     relations :=
       map (fun r => {| propertyName := rel_name r;
                        inverseTargetName := rel_entity r |})
           (relationships m) |}.

(** Modelled from the spec: [ManifestService.getEntityManifest] by slug,
    "Resolve EntityManifest by slug; unknown slug -> NotFound". *)
Definition getEntityManifest (registry : list EntityManifest)
    (entitySlug : string) (fullVersion : bool) : res EntityManifest :=
  match find (fun m => String.eqb (slug m) entitySlug) registry with
  | Some m => Ok m
  | None => Throw (NotFoundException "Entity not found")
  end.

(** Modelled from the spec: [ManifestService.getEntityManifest] by class
    name, resolved like the lookup by slug. *)
Definition getEntityManifestByClassName (registry : list EntityManifest)
    (name : string) : res EntityManifest :=
  match find (fun m => String.eqb (className m) name) registry with
  | Some m => Ok m
  | None => Throw (NotFoundException "Entity not found")
  end.

(** Modelled from the spec: [EntityService.getEntityMetadata], the
    relations of the entity of that class name. *)
Definition getEntityMetadata (registry : list EntityManifest)
    (name : string) : res EntityMetadata :=
  let! m := getEntityManifestByClassName registry name in Ok (metadataOf m).

(** Cats and their owners. *)
Definition user : EntityManifest :=
  {| className := "User"; slug := "users"; mainProp := "name";
     properties :=
       [ {| prop_name := "name"; prop_type := String_; prop_hidden := false |};
         {| prop_name := "secret"; prop_type := Password; prop_hidden := true |} ];
     relationships := [];
     authenticable := false; single := false |}.

Definition cat : EntityManifest :=
  {| className := "Cat"; slug := "cats"; mainProp := "name";
     properties :=
       [ {| prop_name := "name"; prop_type := String_; prop_hidden := false |};
         {| prop_name := "age"; prop_type := Number; prop_hidden := false |} ];
     relationships :=
       [ {| rel_name := "owner"; rel_type := ManyToOne; rel_eager := false;
            rel_owningSide := false; rel_entity := "User" |} ];
     authenticable := false; single := false |}.

Definition pets : list EntityManifest := [cat; user].

(** Two entities that refer to each other: A has a relation [b] to B and B
    has a relation [a] to A. [eager] sets the flag of both relations. *)
Definition entityA (eager : bool) : EntityManifest :=
  {| className := "A"; slug := "as"; mainProp := "id";
     properties := [];
     relationships :=
       [ {| rel_name := "b"; rel_type := ManyToOne; rel_eager := eager;
            rel_owningSide := false; rel_entity := "B" |} ];
     authenticable := false; single := false |}.

Definition entityB (eager : bool) : EntityManifest :=
  {| className := "B"; slug := "bs"; mainProp := "id";
     properties := [];
     relationships :=
       [ {| rel_name := "a"; rel_type := ManyToOne; rel_eager := eager;
            rel_owningSide := false; rel_entity := "A" |} ];
     authenticable := false; single := false |}.

Definition cycle (eager : bool) : list EntityManifest :=
  [entityA eager; entityB eager].

(** The read path of the service over a registry. *)
Definition loadRelations (registry : list EntityManifest) :=
  CrudService.loadRelations (Json := string) camelize
    (getEntityManifestByClassName registry) (getEntityMetadata registry).

Definition findAll (registry : list EntityManifest) :=
  CrudService.findAll JSON_parse camelize
    (getEntityManifest registry) (getEntityManifestByClassName registry)
    (getEntityMetadata registry) DEFAULT_RESULTS_PER_PAGE.

(** A property that is password-typed under another name. *)
Definition pin : PropertyManifest :=
  {| prop_name := "pin"; prop_type := Password; prop_hidden := false |}.

(** Owners have many cats; the write path runs on a small database in
    which owner 1 has a cat and owner 2 has none. *)
Definition owner : EntityManifest :=
  {| className := "Owner"; slug := "owners"; mainProp := "name";
     properties :=
       [ {| prop_name := "name"; prop_type := String_; prop_hidden := false |} ];
     relationships :=
       [ {| rel_name := "cats"; rel_type := OneToMany; rel_eager := false;
            rel_owningSide := false; rel_entity := "Cat" |} ];
     authenticable := false; single := false |}.

Definition household : list EntityManifest := [cat; owner].

(** Modelled from the spec: [EntityService.getEntityRepository], which
    knows the entities of the manifest. *)
Definition getEntityRepository (registry : list EntityManifest)
    (entitySlug : string) : res unit :=
  let! _ := getEntityManifest registry entitySlug false in Ok tt.

Definition tom : BaseEntity string := {[ "name" := "Tom" ]}.

Definition db : Database string :=
  {[ "owners" := {[ 1 := {[ "name" := "Ann" ]}; 2 := {[ "name" := "Bob" ]} ]};
     "cats" := {[ 1 := tom ]} ]}.

Definition related (db : Database string) (entitySlug : string) (id : Z)
    (name : string) : list (BaseEntity string) :=
  if String.eqb entitySlug "owners" && Z.eqb id 1 && String.eqb name "cats"
  then [tom] else [].

(** A validator that requires a name. *)
Definition validate (item : BaseEntity string) (entityManifest : EntityManifest)
    : list ValidationError :=
  match item !! "name" with
  | Some _ => []
  | None => [MkValidationError "name" [("isNotEmpty", "name should not be empty")] []]
  end.

Definition fetchRelationItemsFromDto (db : Database string)
    (itemDto : BaseEntity string) (relationships : list RelationshipManifest)
    : res (BaseEntity string) := Ok ∅.

Definition SHA3 (v : option string) : string := "sha3:" +:+ default "" v.

Definition isTruthy (v : option string) : bool :=
  match v with
  | Some s => negb (String.eqb s "")
  | None => false
  end.

(** A [save] that inserts the item under the key 100. *)
Definition save (db : Database string) (entitySlug : string)
    (item : BaseEntity string) : Database string * res (BaseEntity string) :=
  (<[entitySlug := <[100 := item]> (default ∅ (db !! entitySlug))]> db, Ok item).

Definition store :=
  CrudServiceWrite.store (getEntityRepository household)
    (getEntityManifest household) fetchRelationItemsFromDto validate
    SHA3 isTruthy (fun dto => dto) save.

Definition delete :=
  CrudServiceWrite.delete related (getEntityRepository household)
    (getEntityManifest household).

End Sample.

(** The claim that a read never selects a property that is password-typed
    or named 'password', for one list of properties. *)
Definition neverSelectsPassword (props : list PropertyManifest)
    (alias : string) (fullVersion : bool) : Prop :=
  forall prop, In prop props ->
    prop_type prop = Password \/ prop_name prop = "password" ->
    ~ In (CrudService.column alias (prop_name prop))
         (CrudService.getVisibleProps props alias fullVersion).

(** A column that some call of [getVisibleProps] under [alias] produced. *)
Definition visibleColumn (alias c : string) : Prop :=
  exists props fullVersion,
    In c (CrudService.getVisibleProps props alias fullVersion).

(** Every selected column of a query came out of [getVisibleProps]. *)
Definition selectsVisible {Json : Type} (query : SelectQueryBuilder Json) : Prop :=
  forall c, In c (selects query) -> exists alias, visibleColumn alias c.

(** The relationship manifest that [loadRelations] looks up for a relation. *)
Definition relationshipOf (relationships : list RelationshipManifest)
    (relationMetadata : RelationMetadata) : option RelationshipManifest :=
  find (fun relationship =>
          String.eqb (rel_name relationship) (propertyName relationMetadata))
       relationships.

(** Every eager relation of an entity leads to an entity of rank below [n]. *)
Definition eagerBelow (rank : string -> nat) (entityMetadata : EntityMetadata)
    (relationships : list RelationshipManifest) (n : nat) : Prop :=
  forall relationMetadata relationship,
    In relationMetadata (relations entityMetadata) ->
    relationshipOf relationships relationMetadata = Some relationship ->
    rel_eager relationship = true ->
    (rank (inverseTargetName relationMetadata) < n)%nat.

(** The eager relations form no cycle: [rank] decreases along each of them. *)
Definition eagerAcyclic
    (getEntityManifestByClassName : string -> res EntityManifest)
    (getEntityMetadata : string -> res EntityMetadata)
    (rank : string -> nat) : Prop :=
  forall name entityMetadata entityManifest,
    getEntityMetadata name = Ok entityMetadata ->
    getEntityManifestByClassName name = Ok entityManifest ->
    eagerBelow rank entityMetadata (relationships entityManifest) (rank name).

(** The number of requested relations; none when the list is omitted. *)
Definition requestedCount (requestedRelations : option (list string)) : nat :=
  match requestedRelations with
  | Some l => length l
  | None => 0
  end.

(* ===================================================================== *)
(** ** More of JavaScript's strings *)
(* ===================================================================== *)

Module JsText.

(** [Number.isSafeInteger(n)]: an integer that a number holds exactly, from
    -(2^53 - 1) to 2^53 - 1. *)
Definition isSafeInteger (n : Z) : bool :=
  Z.leb (- (2 ^ 53 - 1)) n && Z.leb n (2 ^ 53 - 1).

(** [String(n)] for a safe integer [n]: its decimal digits, with a minus
    sign when it is negative. Past the safe integers a number is not every
    integer, and from 10^21 on JavaScript prints an exponent ([1e+21]):
    what is proved of this function is proved of safe integers. *)
Definition numberToString (n : Z) : string :=
  DecimalString.NilZero.string_of_int (Z.to_int n).

(** [s.split(sep)] for a separator string that is not empty; [skip] counts
    the characters of a separator just found that are still to be passed
    over, [piece] is the piece read so far. *)
Fixpoint splitFrom (sep : string) (skip : nat) (piece : string) (s : string)
  : list string :=
  match s with
  | EmptyString => [piece]
  | String c s' =>
      match skip with
      | S k => splitFrom sep k piece s'
      | O =>
          if Js.startsWith sep s
          then piece :: splitFrom sep (String.length sep - 1) EmptyString s'
          else splitFrom sep O (piece +:+ String c EmptyString) s'
      end
  end.

Definition splitBy (sep s : string) : list string := splitFrom sep O EmptyString s.

(** [s.trimStart()] is [Js.skipWhiteSpace]; [s.trimEnd()] follows, for the
    same white space. *)
Fixpoint trimEnd (s : string) : string :=
  match s with
  | EmptyString => EmptyString
  | String c s' =>
      match trimEnd s' with
      | EmptyString => if Js.isWhiteSpace c then EmptyString else String c EmptyString
      | rest => String c rest
      end
  end.

(** [s.trim()] *)
Definition trim (s : string) : string := trimEnd (Js.skipWhiteSpace s).

End JsText.

(** [Object.assign({}, q, { [key]: v })] and [q[key] = v] on an object given
    by its entries: the value of an existing key is replaced where the key
    stands, a new key comes last. *)
Fixpoint assign {V : Type} (key : string) (v : V) (q : list (string * V))
  : list (string * V) :=
  match q with
  | [] => [(key, v)]
  | (k, x) :: q' =>
      if String.eqb k key then (k, v) :: q' else (k, x) :: assign key v q'
  end.

(** [q[key]] on such an object. *)
Fixpoint entry {V : Type} (key : string) (q : list (string * V)) : option V :=
  match q with
  | [] => None
  | (k, x) :: q' => if String.eqb k key then Some x else entry key q'
  end.

(** A query extended by selected columns and joins, all else kept. *)
Definition extendQuery {Json : Type} (cols : list string)
    (joined : list (string * string)) (q : SelectQueryBuilder Json)
  : SelectQueryBuilder Json :=
  {| mainAlias := mainAlias q; selects := selects q ++ cols;
     joins := joins q ++ joined; wheres := wheres q;
     parameters := parameters q; orderBys := orderBys q |}.

(* ===================================================================== *)
(** ** CrudService: findOne and findSelectOptions *)
(* ===================================================================== *)

(** [SelectOption] of @repo/types: the id and the label of an item; a field
    that the item lacks is [None]. *)
Record SelectOption (Value : Type) : Type := {
  option_id : option Value;
  option_label : option Value
}.
Arguments option_id {Value} _.
Arguments option_label {Value} _.

Module CrudServiceRead.
Section ReadMore.

(** Besides the collaborators of the read path: the value of a number as
    a query parameter, the storage engine's execution of a query
    ([getOne]), the pagination service with the [data] of the page it
    returns. *)
Context {Json Value Paginator : Type}.
Variable JSON_parse : string -> res Json.
Variable camelize : list string -> string.
Variable getEntityManifest : string -> bool -> res EntityManifest.
Variable getEntityManifestByClassName : string -> res EntityManifest.
Variable getEntityMetadata : string -> res EntityMetadata.
Variable DEFAULT_RESULTS_PER_PAGE : Z.
Variable numberValue : Z -> Json.
Variable getOne :
  Database Value -> SelectQueryBuilder Json -> res (option (BaseEntity Value)).
Variable paginate : Database Value -> PaginateArgs Json -> res Paginator.
Variable data : Paginator -> list (BaseEntity Value).

(** The query that [findOne] executes. *)
Definition findOneQuery (fuel : nat) (entitySlug : string) (id : Z)
    (queryParams : option QueryParams) (fullVersion : bool)
    : option (res (SelectQueryBuilder Json)) :=
  match getEntityManifest entitySlug fullVersion with
  | Throw e => Some (Throw e)
  | Ok entityManifest =>
    match getEntityMetadata (className entityManifest) with
    | Throw e => Some (Throw e)
    | Ok entityMetadata =>
      let query :=
        QB.where_ "entity.id = :id" "id" (PJson (numberValue id))
          (QB.select
             (CrudService.getVisibleProps (properties entityManifest) "entity"
                fullVersion)
             (QB.createQueryBuilder "entity")) in
      CrudService.loadRelations camelize getEntityManifestByClassName
        getEntityMetadata fuel query entityMetadata
        (relationships entityManifest)
        ((fun v => Js.split "," (toString v))
           <$> (queryParams ≫= param "relations"))
        "entity"
    end
  end.

Definition findOne (fuel : nat) (db : Database Value) (entitySlug : string)
    (id : Z) (queryParams : option QueryParams) (fullVersion : bool)
    : option (res (BaseEntity Value)) :=
  match findOneQuery fuel entitySlug id queryParams fullVersion with
  | None => None
  | Some (Throw e) => Some (Throw e)
  | Some (Ok query) =>
      Some (let! item := getOne db query in
            match item with
            | None => Throw (NotFoundException "Item not found")
            | Some item => Ok item
            end)
  end.

(** [findAll] with its last call: the page that the pagination service
    returns for the arguments. *)
Definition findAll (fuel : nat) (db : Database Value) (entitySlug : string)
    (queryParams : option QueryParams) (fullVersion : bool)
    : option (res Paginator) :=
  match CrudService.findAll JSON_parse camelize getEntityManifest
          getEntityManifestByClassName getEntityMetadata
          DEFAULT_RESULTS_PER_PAGE fuel entitySlug queryParams fullVersion with
  | None => None
  | Some r => Some (let! args := r in paginate db args)
  end.

(** [Object.assign({}, queryParams, { perPage: -1 })]; the number -1 is
    kept as the string that [parseInt], its only reader, turns it into. *)
Definition selectOptionsParams (queryParams : option QueryParams) : QueryParams :=
  assign "perPage" (QString (JsText.numberToString (-1))) (default [] queryParams).

Definition findSelectOptions (fuel : nat) (db : Database Value)
    (entitySlug : string) (queryParams : option QueryParams)
    : option (res (list (SelectOption Value))) :=
  match findAll fuel db entitySlug (Some (selectOptionsParams queryParams)) false with
  | None => None
  | Some (Throw e) => Some (Throw e)
  | Some (Ok items) =>
      Some (let! entityManifest := getEntityManifest entitySlug false in
            Ok (map (fun item =>
                       {| option_id := item !! "id";
                          option_label := item !! mainProp entityManifest |})
                    (data items)))
  end.

End ReadMore.
End CrudServiceRead.

(* ===================================================================== *)
(** ** CrudService: update and storeEmpty *)
(* ===================================================================== *)

Module CrudServiceUpdate.
Section Update.

(** The collaborators of the write path, and the validation service called
    with [{ isUpdate: true }]. *)
Context {Value : Type}.
Variable related : Database Value -> string -> Z -> string -> list (BaseEntity Value).
Variable getEntityRepository : string -> res unit.
Variable getEntityManifest : string -> bool -> res EntityManifest.
Variable fetchRelationItemsFromDto :
  Database Value -> BaseEntity Value -> list RelationshipManifest ->
  res (BaseEntity Value).
Variable validateUpdate : BaseEntity Value -> EntityManifest -> list ValidationError.
Variable SHA3 : option Value -> Value.
Variable isTruthy : option Value -> bool.
Variable create : BaseEntity Value -> BaseEntity Value.
Variable save :
  Database Value -> string -> BaseEntity Value ->
  Database Value * res (BaseEntity Value).

(** Creates an empty item bypassing validation. *)
Definition storeEmpty (db : Database Value) (entitySlug : string)
    : Database Value * res (BaseEntity Value) :=
  match getEntityRepository entitySlug with
  | Throw e => (db, Throw e)
  | Ok _ => save db entitySlug ∅
  end.

(** The password of the updated item: hashed when the DTO brings one,
    dropped when it brings none, for an authenticable entity. *)
Definition updatePassword (entityManifest : EntityManifest)
    (itemDto updatedItem : BaseEntity Value) : BaseEntity Value :=
  if authenticable entityManifest && isTruthy (itemDto !! "password")
  then <["password" := SHA3 (updatedItem !! "password")]> updatedItem
  else if authenticable entityManifest && negb (isTruthy (itemDto !! "password"))
  then base.delete "password" updatedItem
  else updatedItem.

(** [update] up to validation: the updated item and the relation items,
    computed without any write. *)
Definition updated (db : Database Value) (entitySlug : string) (id : Z)
    (itemDto : BaseEntity Value)
    : res (EntityManifest * BaseEntity Value * BaseEntity Value) :=
  let! entityManifest := getEntityManifest entitySlug true in
  let! _ := getEntityRepository entitySlug in
  let item := Repository.findOne related db entitySlug id [] in
  let! relationItems :=
    fetchRelationItemsFromDto db itemDto
      (CrudServiceWrite.attachable (relationships entityManifest)) in
  match item with
  | None => Throw (NotFoundException "Item not found")
  | Some item =>
      (* { ...item, ...itemDto } *)
      let updatedItem := create (itemDto ∪ row item) in
      Ok (entityManifest, updatePassword entityManifest itemDto updatedItem,
          relationItems)
  end.

Definition update (db : Database Value) (entitySlug : string) (id : Z)
    (itemDto : BaseEntity Value) : Database Value * res (BaseEntity Value) :=
  match updated db entitySlug id itemDto with
  | Throw e => (db, Throw e)
  | Ok (entityManifest, updatedItem, relationItems) =>
      let errors := validateUpdate updatedItem entityManifest in
      match errors with
      | _ :: _ => (db, Throw (BadRequestErrors errors))
      | [] => save db entitySlug (relationItems ∪ updatedItem)
      end
  end.

End Update.
End CrudServiceUpdate.

(* ===================================================================== *)
(** ** DatabaseService *)
(* ===================================================================== *)

Module DatabaseService.
Section IsDbEmpty.

Context {Value : Type}.
Variable getEntityRepository : string -> res unit.
Variable ADMIN_ENTITY_MANIFEST : EntityManifest.

(** [createQueryBuilder('entity').getCount()] on the repository of an
    entity: the number of its rows. *)
Definition getCount (db : Database Value) (entitySlug : string) : Z :=
  Z.of_nat (size (default ∅ (db !! entitySlug))).

(** The counts of all entities. [Promise.all] is read in the order of the
    list: the first repository that is not found decides the error. *)
Fixpoint counts (db : Database Value) (entities : list EntityManifest)
  : res (list Z) :=
  match entities with
  | [] => Ok []
  | entityManifest :: rest =>
      let! _ := getEntityRepository (slug entityManifest) in
      let! others := counts db rest in
      Ok (getCount db (slug entityManifest) :: others)
  end.

(** [entities] is [Object.values(appManifest.entities)]. *)
Definition isDbEmpty (db : Database Value) (entities : list EntityManifest)
    : res bool :=
  let! all := counts db (entities ++ [ADMIN_ENTITY_MANIFEST]) in
  let totalItems := fold_left (fun acc count => acc + count) all 0 in
  Ok (Z.eqb totalItems 0).

End IsDbEmpty.
End DatabaseService.

(* ===================================================================== *)
(** ** SingleController *)
(* ===================================================================== *)

Module SingleController.
Section Single.

Context {Json Value Request : Type}.
Variable camelize : list string -> string.
Variable getEntityManifest : string -> bool -> res EntityManifest.
Variable getEntityManifestByClassName : string -> res EntityManifest.
Variable getEntityMetadata : string -> res EntityMetadata.
Variable numberValue : Z -> Json.
Variable getOne :
  Database Value -> SelectQueryBuilder Json -> res (option (BaseEntity Value)).
Variable getEntityRepository : string -> res unit.
Variable save :
  Database Value -> string -> BaseEntity Value ->
  Database Value * res (BaseEntity Value).
Variable isReqUserAdmin : Request -> res bool.

(** GET /singles/:entity. The item of id 1, created empty when it is not
    found; [None] is the [undefined] that is returned when [findOne]
    throws anything else than a [NotFoundException]. *)
Definition findOne (fuel : nat) (db : Database Value) (entitySlug : string)
    (req : Request) : option (Database Value * res (option (BaseEntity Value))) :=
  match isReqUserAdmin req with
  | Throw e => Some (db, Throw e)
  | Ok isAdmin =>
    match CrudServiceRead.findOne camelize getEntityManifest
            getEntityManifestByClassName getEntityMetadata numberValue getOne
            fuel db entitySlug 1 None isAdmin with
    | None => None
    | Some (Ok singleItem) => Some (db, Ok (Some singleItem))
    | Some (Throw (NotFoundException _)) =>
        let '(db', r) := CrudServiceUpdate.storeEmpty getEntityRepository save
                           db entitySlug in
        Some (db', let! singleItem := r in Ok (Some singleItem))
    | Some (Throw _) => Some (db, Ok None)
    end
  end.

End Single.
End SingleController.

(* ===================================================================== *)
(** ** The JS SDK (packages/js-sdk/src/Manifest.ts) *)
(* ===================================================================== *)

Module ManifestSdk.

(** The fields of the client; a value of [queryParams] may be
    [undefined] ([None]). *)
Record Client : Type := {
  baseUrl : string;
  slug : string;
  isSingleEntity : bool;
  headers : list (string * string);
  queryParams : list (string * option string)
}.

(** A call returns the client, or throws [new Error(message)]. *)
Inductive outcome : Type :=
  | Returns (c : Client)
  | Error (message : string).

(** [new Manifest(baseUrl)] *)
Definition new (url : string) : Client :=
  {| baseUrl := url +:+ "/api"; slug := EmptyString; isSingleEntity := false;
     headers := [("Content-Type", "application/json")]; queryParams := [] |}.

Definition withQueryParams (c : Client) (q : list (string * option string)) : Client :=
  {| baseUrl := baseUrl c; slug := slug c; isSingleEntity := isSingleEntity c;
     headers := headers c; queryParams := q |}.

Definition from (c : Client) (entitySlug : string) : Client :=
  {| baseUrl := baseUrl c; slug := entitySlug; isSingleEntity := false;
     headers := headers c; queryParams := [] |}.

(** The operator of a where clause: the first one, in reversed declaration
    order, that the clause includes between spaces. *)
Definition findOperator (whereClause : string) : option WhereOperator :=
  find (fun operator =>
          Js.includes (" " +:+ operatorSymbol operator +:+ " ") whereClause)
       (rev WhereOperator_values).

Definition where_ (c : Client) (whereClause : string) : outcome :=
  match findOperator whereClause with
  | None =>
      Error ("Invalid where clause. Where clause must include one of the following operators: "
             +:+ Js.join ", " (map operatorSymbol WhereOperator_values) +:+ ".")
  | Some whereOperator =>
      let pieces :=
        map JsText.trim (JsText.splitBy (operatorSymbol whereOperator) whereClause) in
      let propName := Js.interpolate (pieces !! 0%nat) in
      let propValue := pieces !! 1%nat in
      let suffix := whereOperatorKeySuffix whereOperator in
      Returns (withQueryParams c (assign (propName +:+ suffix) propValue (queryParams c)))
  end.

Definition andWhere (c : Client) (whereClause : string) : outcome :=
  where_ c whereClause.

(** [orderBy(propName, order?)]; [desc] is [order?.desc], read as a
    condition. *)
Definition orderBy (c : Client) (propName : string) (desc : bool) : Client :=
  withQueryParams c
    (assign "order" (Some (if desc then "DESC" else "ASC"))
       (assign "orderBy" (Some propName) (queryParams c))).

(** [with(relations)] *)
Definition with_ (c : Client) (relations : list string) : Client :=
  withQueryParams c (assign "relations" (Some (Js.join "," relations)) (queryParams c)).

(** The query string that [fetch] builds: an entry whose value is
    [undefined] is left out. *)
Fixpoint searchParams (q : list (string * option string)) : list (string * string) :=
  match q with
  | [] => []
  | (key, Some value) :: q' => (key, value) :: searchParams q'
  | (_, None) :: q' => searchParams q'
  end.

(** [{ ...queryParams, ...paginationParams }] with the numbers printed as
    [fetch] prints them; [paginationParams] is given by its entries. *)
Definition findParams (c : Client) (paginationParams : list (string * option Z))
    : list (string * option string) :=
  fold_left
    (fun q '(key, value) => assign key (JsText.numberToString <$> value) q)
    paginationParams (queryParams c).

(** The path and the query string of the request of [find]. *)
Definition find (c : Client) (paginationParams : list (string * option Z))
    : string * list (string * string) :=
  ("/collections/" +:+ slug c, searchParams (findParams c paginationParams)).

End ManifestSdk.

(* ===================================================================== *)
(** ** The admin's home page (home.component.ts) *)
(* ===================================================================== *)

Module HomeComponent.

(** [Object.values(res.entities || {}).filter((entity) => !entity.single)] *)
Definition collections (entities : option (list EntityManifest)) : list EntityManifest :=
  List.filter (fun entity => negb (single entity)) (default [] entities).

Definition singles (entities : option (list EntityManifest)) : list EntityManifest :=
  List.filter (fun entity => single entity) (default [] entities).

End HomeComponent.

(** What a run of [loadRelations] adds to a query: nothing when the depth
    ran out, an exception, or columns and joins. *)
Definition QueryDelta : Type := option (res (list string * list (string * string))).

Definition applyDelta {Json : Type} (delta : QueryDelta) (q : SelectQueryBuilder Json)
  : option (res (SelectQueryBuilder Json)) :=
  match delta with
  | None => None
  | Some (Throw e) => Some (Throw e)
  | Some (Ok (cols, joined)) => Some (Ok (extendQuery cols joined q))
  end.

(** The string holds no character [c]. *)
Fixpoint lacks (c : ascii) (s : string) : bool :=
  match s with
  | EmptyString => true
  | String x s' => negb (Ascii.eqb x c) && lacks c s'
  end.

(** The string is made of printable ASCII characters other than the space
    (codes 33 to 126). *)
Fixpoint printable (s : string) : bool :=
  match s with
  | EmptyString => true
  | String x s' =>
      (Nat.ltb 32 (nat_of_ascii x) && Nat.ltb (nat_of_ascii x) 127) && printable s'
  end.

(* ===================================================================== *)
(** ** More of the sample application *)
(* ===================================================================== *)

Module SampleMore.

(** An authenticable entity, a single entity, an entity with a boolean
    property and one that declares a property twice. *)
Definition admin : EntityManifest :=
  {| className := "Admin"; slug := "admins"; mainProp := "email";
     properties :=
       [ {| prop_name := "email"; prop_type := Email; prop_hidden := false |} ];
     relationships := [];
     authenticable := true; single := false |}.

Definition settings : EntityManifest :=
  {| className := "Settings"; slug := "settings"; mainProp := "title";
     properties :=
       [ {| prop_name := "title"; prop_type := String_; prop_hidden := false |} ];
     relationships := [];
     authenticable := false; single := true |}.

Definition toy : EntityManifest :=
  {| className := "Toy"; slug := "toys"; mainProp := "name";
     properties :=
       [ {| prop_name := "name"; prop_type := String_; prop_hidden := false |};
         {| prop_name := "squeaky"; prop_type := Boolean; prop_hidden := false |} ];
     relationships := [];
     authenticable := false; single := false |}.

Definition twice : EntityManifest :=
  {| className := "Twice"; slug := "twices"; mainProp := "x";
     properties :=
       [ {| prop_name := "x"; prop_type := String_; prop_hidden := false |};
         {| prop_name := "x"; prop_type := Number; prop_hidden := false |} ];
     relationships := [];
     authenticable := false; single := false |}.

Definition app : list EntityManifest :=
  [Sample.cat; Sample.user; Sample.owner; admin; settings; toy].

(** The query of a read of cats before relations are loaded. *)
Definition catQuery : SelectQueryBuilder string :=
  QB.select (CrudService.getVisibleProps (properties Sample.cat) "entity" false)
    (QB.createQueryBuilder "entity").

(** A number as a query parameter: its digits. *)
Definition numberValue (n : Z) : string := JsText.numberToString n.

(** A [getOne] for the queries of the single entity: the row of the table
    [settings] whose id the query is bound to. *)
Definition getOne (db : Database string) (q : SelectQueryBuilder string)
    : res (option (BaseEntity string)) :=
  Ok (match parameters q !! "id" with
      | Some (PJson j) =>
          table ← db !! "settings"; id ← Js.parseInt j; table !! id
      | _ => None
      end).

(** A pagination that returns the cats of the database, whatever the page. *)
Definition paginate (db : Database string) (a : PaginateArgs string)
    : res (list (BaseEntity string)) :=
  Ok (map snd (map_to_list (default ∅ (db !! "cats")))).

(** The request is its user's being an admin. *)
Definition isReqUserAdmin (req : bool) : res bool := Ok req.

(** A database with one admin and one cat. *)
Definition ann : BaseEntity string :=
  {[ "email" := "ann@example.com"; "password" := "sha3:old" ]}.

Definition db : Database string :=
  {[ "admins" := {[ 1 := ann ]}; "cats" := {[ 1 := Sample.tom ]} ]}.

(** The DTO of a new admin, of a change of an admin's email and of a
    change of a cat's age. *)
Definition bob : BaseEntity string :=
  {[ "email" := "bob@example.com"; "password" := "pw" ]}.

Definition newEmail : BaseEntity string := {[ "email" := "bob@example.com" ]}.

Definition newAge : BaseEntity string := {[ "age" := "3" ]}.

Definition findOneQuery :=
  CrudServiceRead.findOneQuery Sample.camelize (Sample.getEntityManifest app)
    (Sample.getEntityManifestByClassName app) (Sample.getEntityMetadata app)
    numberValue.

Definition findSelectOptions :=
  CrudServiceRead.findSelectOptions Sample.JSON_parse Sample.camelize
    (Sample.getEntityManifest app) (Sample.getEntityManifestByClassName app)
    (Sample.getEntityMetadata app) Sample.DEFAULT_RESULTS_PER_PAGE
    paginate (fun page => page).

Definition singleFindOne :=
  SingleController.findOne Sample.camelize (Sample.getEntityManifest app)
    (Sample.getEntityManifestByClassName app) (Sample.getEntityMetadata app)
    numberValue getOne (Sample.getEntityRepository app) Sample.save isReqUserAdmin.

Definition candidate :=
  CrudServiceWrite.candidate (Sample.getEntityRepository app)
    (Sample.getEntityManifest app) Sample.fetchRelationItemsFromDto
    Sample.SHA3 Sample.isTruthy (fun dto => dto).

Definition updated :=
  CrudServiceUpdate.updated Sample.related (Sample.getEntityRepository app)
    (Sample.getEntityManifest app) Sample.fetchRelationItemsFromDto
    Sample.SHA3 Sample.isTruthy (fun dto => dto).

Definition update :=
  CrudServiceUpdate.update Sample.related (Sample.getEntityRepository app)
    (Sample.getEntityManifest app) Sample.fetchRelationItemsFromDto
    Sample.validate Sample.SHA3 Sample.isTruthy (fun dto => dto) Sample.save.

Definition delete :=
  CrudServiceWrite.delete Sample.related (Sample.getEntityRepository app)
    (Sample.getEntityManifest app).

Definition isDbEmpty :=
  DatabaseService.isDbEmpty (Value := string) (Sample.getEntityRepository app) admin.

(** A client of the SDK on the cats. *)
Definition client : ManifestSdk.Client :=
  ManifestSdk.from (ManifestSdk.new "http://localhost:1111") "cats".

End SampleMore.

(* ===================================================================== *)
(** ** Facts about strings *)
(* ===================================================================== *)

Lemma append_inj_r (s a b : string) : s +:+ a = s +:+ b -> a = b.
Proof.
  induction s as [|c s IH]; simpl; intros H; [exact H|].
  injection H as H. auto.
Qed.

Lemma column_inj (alias n m : string) :
  CrudService.column alias n = CrudService.column alias m -> n = m.
Proof.
  unfold CrudService.column. intros H.
  apply append_inj_r in H. apply append_inj_r in H. exact H.
Qed.

Lemma startsWith_refl (s : string) : Js.startsWith s s = true.
Proof.
  induction s as [|c s IH]; simpl; [reflexivity|].
  rewrite Ascii.eqb_refl. exact IH.
Qed.

Lemma includes_self (s : string) : Js.includes s s = true.
Proof. destruct s; simpl; [reflexivity|]. rewrite Ascii.eqb_refl, startsWith_refl. reflexivity. Qed.

Lemma includes_cons (p : string) (c : ascii) (s : string) :
  Js.includes p s = true -> Js.includes p (String c s) = true.
Proof. intros H. simpl. rewrite H. apply orb_true_r. Qed.

(** A key that ends in a suffix includes it. *)
Lemma includes_append (p s : string) : Js.includes s (p +:+ s) = true.
Proof.
  induction p as [|c p IH]; simpl String.append.
  - apply includes_self.
  - apply includes_cons, IH.
Qed.

(* ===================================================================== *)
(** ** Visible properties *)
(* ===================================================================== *)

Section VisibleProps.
Variables (props : list PropertyManifest) (alias : string) (fullVersion : bool).

(** What a selected column is: the id, or the column of a property that
    is not named 'password' and that is shown to the caller. *)
Lemma getVisibleProps_In (c : string) :
  In c (CrudService.getVisibleProps props alias fullVersion) <->
  c = CrudService.column alias "id" \/
  exists prop, In prop props /\ c = CrudService.column alias (prop_name prop) /\
               prop_name prop <> "password" /\
               (fullVersion = true \/ prop_hidden prop = false).
Proof.
  unfold CrudService.getVisibleProps. rewrite in_app_iff, in_map_iff. simpl.
  split.
  - intros [[H|[]]|(prop & Hc & Hin)]; [left; symmetry; exact H|right].
    apply filter_In in Hin as [Hin Hshown]. apply filter_In in Hin as [Hin Hname].
    exists prop. split; [exact Hin|]. split; [symmetry; exact Hc|]. split.
    + intros E. rewrite E in Hname. discriminate.
    + apply orb_true_iff in Hshown as [H|H]; [left|right]; auto.
      destruct (prop_hidden prop); [discriminate|reflexivity].
  - intros [H|(prop & Hin & Hc & Hname & Hshown)];
      [left; left; symmetry; exact H|right].
    exists prop. split; [symmetry; exact Hc|].
    apply filter_In. split.
    + apply filter_In. split; [exact Hin|].
      apply negb_true_iff. apply String.eqb_neq. exact Hname.
    + destruct Hshown as [->| ->]; [reflexivity|apply orb_true_r].
Qed.
End VisibleProps.

(** C3, as stated, fails: a property that is password-typed under another
    name is selected. *)
Lemma getVisibleProps_selects_password_typed :
  ~ neverSelectsPassword [Sample.pin] "entity" false.
Proof.
  intros H. apply (H Sample.pin).
  - left. reflexivity.
  - left. reflexivity.
  - vm_compute. right. left. reflexivity.
Qed.

(** A loop keeps what each run of its body keeps. *)
Lemma forEach_invariant {A S} (P : S -> Prop) (f : S -> A -> res S) (l : list A) :
  (forall s a s', P s -> f s a = Ok s' -> P s') ->
  forall s s', P s -> forEach f l s = Ok s' -> P s'.
Proof.
  intros Hf. induction l as [|a l IH]; intros s s' Hs; simpl.
  - intros [= <-]. exact Hs.
  - destruct (f s a) as [s1|] eqn:E; [|discriminate]. simpl.
    apply IH. exact (Hf _ _ _ Hs E).
Qed.

Lemma forEachFuel_invariant {A S} (P : S -> Prop) (f : S -> A -> option (res S))
    (l : list A) :
  (forall s a s', P s -> f s a = Some (Ok s') -> P s') ->
  forall s s', P s -> forEachFuel f l s = Some (Ok s') -> P s'.
Proof.
  intros Hf. induction l as [|a l IH]; intros s s' Hs; simpl.
  - intros [= <-]. exact Hs.
  - destruct (f s a) as [[s1|]|] eqn:E; try discriminate.
    apply IH. exact (Hf _ _ _ Hs E).
Qed.

Section SelectedColumns.
Context {Json : Type}.
Variable JSON_parse : string -> res Json.
Variable camelize : list string -> string.
Variable getEntityManifest : string -> bool -> res EntityManifest.
Variable getEntityManifestByClassName : string -> res EntityManifest.
Variable getEntityMetadata : string -> res EntityMetadata.
Variable DEFAULT_RESULTS_PER_PAGE : Z.

Lemma loadRelations_selects (fuel : nat) :
  forall (query query' : SelectQueryBuilder Json) entityMetadata relationships
         requestedRelations alias,
    selectsVisible query ->
    CrudService.loadRelations camelize getEntityManifestByClassName
      getEntityMetadata fuel query entityMetadata relationships
      requestedRelations alias = Some (Ok query') ->
    selectsVisible query'.
Proof.
  induction fuel as [|fuel IH];
    intros query query' entityMetadata relationships requestedRelations alias Hq;
    [discriminate|].
  simpl. apply forEachFuel_invariant; [|exact Hq].
  clear query Hq. intros q relationMetadata q' Hq.
  destruct (find _ relationships) as [relationship|]; [|discriminate].
  destruct (negb (rel_eager relationship) && _); [intros [= <-]; exact Hq|].
  destruct (getEntityManifestByClassName _) as [relationEntityManifest|];
    [|discriminate].
  assert (Hjoined : selectsVisible
            (QB.addSelect
               (CrudService.getVisibleProps (properties relationEntityManifest)
                  (camelize [alias; propertyName relationMetadata]) false)
               (QB.leftJoin
                  (CrudService.column alias (propertyName relationMetadata))
                  (camelize [alias; propertyName relationMetadata]) q))).
  { intros c Hc. simpl in Hc. apply in_app_iff in Hc as [Hc|Hc]; [exact (Hq c Hc)|].
    eexists. eexists. eexists. exact Hc. }
  destruct (getEntityMetadata _) as [relationEntityMetadata|]; [|discriminate].
  destruct (relations relationEntityMetadata); [intros [= <-]; exact Hjoined|].
  apply IH. exact Hjoined.
Qed.

Lemma filterQuery_selects entityManifest (query query' : SelectQueryBuilder Json)
    queryParams :
  CrudService.filterQuery JSON_parse camelize query queryParams entityManifest
  = Ok query' ->
  selects query' = selects query.
Proof.
  unfold CrudService.filterQuery.
  apply (forEach_invariant (fun q => selects q = selects query)); [|reflexivity].
  intros q [key value] q' Hq. unfold CrudService.filterEntry.
  destruct (CrudService.findSuffix key) as [suffix|]; [|discriminate].
  destruct (CrudService.isIn _) eqn:Ein.
  - destruct (find _ (properties entityManifest)),
             (find _ (relationships entityManifest)); try discriminate;
      (destruct (JSON_parse _); simpl; [|discriminate]);
      intros [= <-]; exact Hq.
  - destruct (find _ (properties entityManifest)),
             (find _ (relationships entityManifest)); try discriminate;
      intros [= <-]; exact Hq.
Qed.

Lemma applyOrdering_selects entitySlug entityManifest queryParams
    (query query' : SelectQueryBuilder Json) :
  CrudService.applyOrdering entitySlug entityManifest queryParams query = Ok query' ->
  selects query' = selects query.
Proof.
  unfold CrudService.applyOrdering.
  destruct (truthy _); [destruct (find _ _); [|discriminate]|];
    intros [= <-]; reflexivity.
Qed.

(** The columns of the query that [findAll] hands to pagination all came
    out of [getVisibleProps]. *)
Lemma findAll_selects fuel entitySlug queryParams fullVersion a :
  CrudService.findAll JSON_parse camelize getEntityManifest
    getEntityManifestByClassName getEntityMetadata DEFAULT_RESULTS_PER_PAGE
    fuel entitySlug queryParams fullVersion = Some (Ok a) ->
  selectsVisible (query a).
Proof.
  unfold CrudService.findAll.
  destruct (getEntityManifest entitySlug fullVersion) as [em|]; [|discriminate].
  destruct (getEntityMetadata (className em)) as [md|]; [|discriminate].
  destruct (CrudService.loadRelations _ _ _ _ _ _ _ _ _) as [[q|]|] eqn:Eload;
    try discriminate.
  apply loadRelations_selects in Eload;
    [|intros c Hc; eexists; eexists; eexists; exact Hc].
  destruct (CrudService.filterQuery _ _ _ _ _) as [q1|] eqn:Efilter; [|discriminate].
  apply filterQuery_selects in Efilter. simpl.
  destruct (CrudService.applyOrdering entitySlug em queryParams q1) as [q2|] eqn:Eorder;
    [|discriminate].
  apply applyOrdering_selects in Eorder. simpl.
  destruct queryParams as [qp|]; [|discriminate]. simpl.
  intros [= <-]. simpl. intros c Hc. apply Eload. congruence.
Qed.
End SelectedColumns.

(** C3, amended: for every list of properties, every alias and every value
    of [fullVersion], the column of the property named 'password' is not
    among the columns that [getVisibleProps] selects: a selected column is
    the id or the column of a property with another name. So it is for
    every column of the query that [findAll] builds, under the alias the
    column was selected for. *)
Theorem getVisibleProps_never_password
    (props : list PropertyManifest) (alias : string) (fullVersion : bool) :
  ~ In (CrudService.column alias "password")
       (CrudService.getVisibleProps props alias fullVersion) /\
  (forall c, In c (CrudService.getVisibleProps props alias fullVersion) ->
     c = CrudService.column alias "id" \/
     exists prop, In prop props /\ prop_name prop <> "password" /\
                  c = CrudService.column alias (prop_name prop)) /\
  (forall (Json : Type) (JSON_parse : string -> res Json) camelize
          getEntityManifest getEntityManifestByClassName getEntityMetadata
          DEFAULT_RESULTS_PER_PAGE fuel entitySlug queryParams a,
     CrudService.findAll JSON_parse camelize getEntityManifest
       getEntityManifestByClassName getEntityMetadata DEFAULT_RESULTS_PER_PAGE
       fuel entitySlug queryParams fullVersion = Some (Ok a) ->
     forall c, In c (selects (query a)) ->
       exists alias', visibleColumn alias' c /\
                      c <> CrudService.column alias' "password").
Proof.
  assert (Hnot : forall props alias fullVersion,
            ~ In (CrudService.column alias "password")
                 (CrudService.getVisibleProps props alias fullVersion)).
  { clear. intros props alias fullVersion H.
    apply getVisibleProps_In in H as [H|(prop & _ & Hc & Hname & _)].
    - apply column_inj in H. discriminate.
    - apply column_inj in Hc. congruence. }
  split; [apply Hnot|]. split.
  - intros c H. apply getVisibleProps_In in H as [H|(prop & Hin & Hc & Hname & _)].
    + left. exact H.
    + right. exists prop. auto.
  - intros Json JSON_parse camelize gEM gEMC gMD D fuel entitySlug queryParams a
           Hall c Hc.
    destruct (findAll_selects _ _ _ _ _ _ _ _ _ _ _ Hall c Hc)
      as (alias' & props' & fullVersion' & Hin).
    exists alias'. split; [exists props', fullVersion'; exact Hin|].
    intros ->. exact (Hnot _ _ _ Hin).
Qed.

(** The column of the sample property [pin] is selected as the column of a
    property that is not named 'password'. *)
Lemma getVisibleProps_never_password_witness :
  CrudService.column "entity" "pin" = CrudService.column "entity" "id" \/
  exists prop, In prop [Sample.pin] /\ prop_name prop <> "password" /\
               CrudService.column "entity" "pin"
               = CrudService.column "entity" (prop_name prop).
Proof.
  apply (proj1 (proj2 (getVisibleProps_never_password [Sample.pin] "entity" false))).
  vm_compute. right. left. reflexivity.
Defined.

(* ===================================================================== *)
(** ** Operator suffixes *)
(* ===================================================================== *)

Lemma find_append {A : Type} (p : A -> bool) (l1 l2 : list A) :
  find p (l1 ++ l2) = match find p l1 with Some x => Some x | None => find p l2 end.
Proof.
  induction l1 as [|a l1 IH]; simpl; [reflexivity|].
  destruct (p a); [reflexivity|exact IH].
Qed.

(** The reversed search over a table of any content: an entry is never the
    one found when an entry declared after it matches as well. This is all
    that the preference of _gte over _gt needs of the table. *)
Lemma find_rev_prefers_later {A : Type} (p : A -> bool) (l1 l2 : list A) (s s' : A) :
  In s' l2 -> p s' = true -> ~ In s l2 ->
  find p (rev (l1 ++ s :: l2)) <> Some s.
Proof.
  intros Hin Hp Hnot.
  rewrite rev_app_distr. simpl. rewrite <- app_assoc.
  rewrite find_append.
  destruct (find p (rev l2)) as [x|] eqn:E.
  - apply find_some in E as [Hx _]. apply in_rev in Hx.
    intros [= ->]. contradiction.
  - apply in_rev in Hin. rewrite (find_none _ _ E s' Hin) in Hp. discriminate.
Qed.

(** The search of [findSuffix], written out: the suffixes are tried in the
    reverse of their declaration order. *)
Lemma findSuffix_unfold (key : string) :
  CrudService.findSuffix key =
  if Js.includes "_in" key then Some "_in"
  else if Js.includes "_like" key then Some "_like"
  else if Js.includes "_ne" key then Some "_ne"
  else if Js.includes "_lte" key then Some "_lte"
  else if Js.includes "_lt" key then Some "_lt"
  else if Js.includes "_gte" key then Some "_gte"
  else if Js.includes "_gt" key then Some "_gt"
  else if Js.includes "_eq" key then Some "_eq"
  else None.
Proof. reflexivity. Qed.

Lemma In_WhereKeySuffix_values (s : string) :
  In s WhereKeySuffix_values ->
  s = "_eq" \/ s = "_gt" \/ s = "_gte" \/ s = "_lt" \/ s = "_lte" \/
  s = "_ne" \/ s = "_like" \/ s = "_in".
Proof.
  unfold WhereKeySuffix_values. simpl.
  intros H. repeat (destruct H as [H|H]; [symmetry in H; tauto|]). destruct H.
Qed.







(** A key that ends in _gte is never parsed as [>]. *)
Lemma key_ending_in_gte_never_gt (name : string) :
  CrudService.findSuffix (name +:+ "_gte") ≫= getRecordKeyByValue <> Some GreaterThan.
Proof.
  rewrite findSuffix_unfold, (includes_append name "_gte").
  repeat (case (Js.includes _ _)); vm_compute; congruence.
Qed.

(* ===================================================================== *)
(** ** Pagination arguments *)
(* ===================================================================== *)

Section FindAll.
Context {Json : Type}.
Variable JSON_parse : string -> res Json.
Variable camelize : list string -> string.
Variable getEntityManifest : string -> bool -> res EntityManifest.
Variable getEntityManifestByClassName : string -> res EntityManifest.
Variable getEntityMetadata : string -> res EntityMetadata.
Variable DEFAULT_RESULTS_PER_PAGE : Z.

Local Abbreviation findAll :=
  (CrudService.findAll JSON_parse camelize getEntityManifest
     getEntityManifestByClassName getEntityMetadata DEFAULT_RESULTS_PER_PAGE).
Local Abbreviation loadRelations :=
  (CrudService.loadRelations (Json := Json) camelize
     getEntityManifestByClassName getEntityMetadata).

(** A page that [findAll] returns comes out of its last statement. *)
Lemma findAll_Ok_inv fuel entitySlug queryParams fullVersion a :
  findAll fuel entitySlug queryParams fullVersion = Some (Ok a) ->
  exists query,
    CrudService.paginateArgs DEFAULT_RESULTS_PER_PAGE queryParams query = Ok a.
Proof.
  unfold CrudService.findAll.
  destruct (getEntityManifest entitySlug fullVersion) as [em|]; [|discriminate].
  destruct (getEntityMetadata (className em)) as [md|]; [|discriminate].
  destruct (CrudService.loadRelations _ _ _ _ _ _ _ _ _) as [[q|]|]; try discriminate.
  destruct (CrudService.filterQuery _ _ _ _ _) as [q1|]; [|discriminate]; simpl.
  destruct (CrudService.applyOrdering _ _ _ _) as [q2|]; [|discriminate]; simpl.
  intros H. exists q2. congruence.
Qed.

(** C8, amended: the current page that [findAll] hands to pagination is
    [parseInt(page)] when that is a number other than zero, and 1
    otherwise, for every value of the page parameter: the last statement of
    [findAll] always computes it so, and so does every run of [findAll]
    that reaches pagination. A negative number is handed over as it is;
    whenever [parseInt(page)] is not a negative number the current page is
    [max(1, parseInt(page) or 1)], hence at least 1. *)
Theorem findAll_currentPage (queryParams : QueryParams) :
  (forall query : SelectQueryBuilder Json, exists a,
     CrudService.paginateArgs DEFAULT_RESULTS_PER_PAGE (Some queryParams) query
     = Ok a /\
     currentPage a
     = Js.orDefault (Js.parseInt (toStringU (param "page" queryParams))) 1) /\
  (forall fuel entitySlug fullVersion a,
     findAll fuel entitySlug (Some queryParams) fullVersion = Some (Ok a) ->
     currentPage a
     = Js.orDefault (Js.parseInt (toStringU (param "page" queryParams))) 1) /\
  (forall v, Js.parseInt (toStringU (param "page" queryParams)) = Some v ->
     v < 0 ->
     Js.orDefault (Js.parseInt (toStringU (param "page" queryParams))) 1 = v) /\
  ((forall v, Js.parseInt (toStringU (param "page" queryParams)) = Some v ->
      0 <= v) ->
   Js.orDefault (Js.parseInt (toStringU (param "page" queryParams))) 1
   = Z.max 1 (Js.orDefault (Js.parseInt (toStringU (param "page" queryParams))) 1)
   /\ 1 <= Js.orDefault (Js.parseInt (toStringU (param "page" queryParams))) 1).
Proof.
  split; [|split].
  - intros query. eexists. split; reflexivity.
  - intros fuel entitySlug fullVersion a H.
    apply findAll_Ok_inv in H as [q H]. simpl in H.
    injection H as <-. reflexivity.
  - destruct (Js.parseInt (toStringU (param "page" queryParams))) as [n|]; simpl.
    + split.
      * intros v [= <-] Hneg. destruct (Z.eqb_spec n 0); [lia|reflexivity].
      * intros Hpos. specialize (Hpos n eq_refl).
        destruct (Z.eqb_spec n 0); lia.
    + split; [discriminate|]. intros _. lia.
Qed.

(** C10: with [queryParams] omitted, [findAll] never returns a page; once
    the manifest and the metadata are resolved and the relations loaded,
    it throws a type error at the read of [queryParams.page]. *)
Theorem findAll_without_queryParams fuel entitySlug fullVersion :
  (forall a, findAll fuel entitySlug None fullVersion <> Some (Ok a)) /\
  (forall entityManifest entityMetadata query,
     getEntityManifest entitySlug fullVersion = Ok entityManifest ->
     getEntityMetadata (className entityManifest) = Ok entityMetadata ->
     loadRelations fuel
       (QB.select
          (CrudService.getVisibleProps (properties entityManifest) "entity" fullVersion)
          (QB.createQueryBuilder "entity"))
       entityMetadata (relationships entityManifest) None "entity"
     = Some (Ok query) ->
     findAll fuel entitySlug None fullVersion
     = Some (Throw (TypeError "Cannot read properties of undefined (reading 'page')"))).
Proof.
  split.
  - intros a H. apply findAll_Ok_inv in H as [q H]. discriminate.
  - intros em md q Hem Hmd Hload. unfold CrudService.findAll.
    rewrite Hem, Hmd. simpl. rewrite Hload. reflexivity.
Qed.
End FindAll.

(** C8, as stated, fails: for page=-3 the current page handed to
    pagination is -3, which is neither [max(1, parseInt(page) or 1)] nor at
    least 1. *)
Lemma findAll_negative_page :
  exists a,
    Sample.findAll Sample.pets 1 "cats" (Some [("page", QString "-3")]) false
    = Some (Ok a) /\
    currentPage a = -3 /\
    currentPage a <> Z.max 1 (Js.orDefault (Js.parseInt "-3") 1) /\
    ~ 1 <= currentPage a.
Proof.
  eexists. split; [vm_compute; reflexivity|].
  simpl. split; [reflexivity|]. split; [vm_compute; discriminate|lia].
Qed.

(** For page=7 the seventh page is requested. *)
Lemma findAll_currentPage_witness :
  exists a,
    Sample.findAll Sample.pets 1 "cats" (Some [("page", QString "7")]) false
    = Some (Ok a) /\
    currentPage a = 7.
Proof.
  eexists. split; [vm_compute; reflexivity|].
  refine (proj1 (proj2 (findAll_currentPage Sample.JSON_parse Sample.camelize
                          (Sample.getEntityManifest Sample.pets)
                          (Sample.getEntityManifestByClassName Sample.pets)
                          (Sample.getEntityMetadata Sample.pets)
                          Sample.DEFAULT_RESULTS_PER_PAGE
                          [("page", QString "7")]))
                 1%nat "cats" false _ _).
  vm_compute. reflexivity.
Defined.

(** On the sample application, [findAll] without query parameters throws. *)
Lemma findAll_without_queryParams_witness :
  Sample.findAll Sample.pets 1 "cats" None false
  = Some (Throw (TypeError "Cannot read properties of undefined (reading 'page')")).
Proof.
  eapply (proj2 (findAll_without_queryParams Sample.JSON_parse Sample.camelize
                   (Sample.getEntityManifest Sample.pets)
                   (Sample.getEntityManifestByClassName Sample.pets)
                   (Sample.getEntityMetadata Sample.pets)
                   Sample.DEFAULT_RESULTS_PER_PAGE 1%nat "cats" false)).
  - reflexivity.
  - reflexivity.
  - vm_compute. reflexivity.
Defined.

(* ===================================================================== *)
(** ** The schema of an entity *)
(* ===================================================================== *)

Section Schema.
Context {RelationOptions : Type}.
Variable baseEntity : gmap string EntitySchemaColumnOptions.
Variable baseAuthenticableEntity : gmap string EntitySchemaColumnOptions.
Variable getEntitySchemaRelationOptions : EntityManifest -> RelationOptions.

Local Abbreviation entitySchema :=
  (EntityLoaderService.entitySchema baseEntity baseAuthenticableEntity
     getEntitySchemaRelationOptions).
Local Abbreviation loadEntities :=
  (EntityLoaderService.loadEntities baseEntity baseAuthenticableEntity
     getEntitySchemaRelationOptions).

(** A name that no property bears keeps the column it had. *)
Lemma reduceColumns_other props init (name : string) :
  (forall prop, In prop props -> prop_name prop <> name) ->
  EntityLoaderService.reduceColumns props init !! name = init !! name.
Proof.
  unfold EntityLoaderService.reduceColumns.
  revert init. induction props as [|p props IH]; intros init Hno; simpl.
  - reflexivity.
  - rewrite IH by (intros q Hq; apply Hno; right; exact Hq).
    apply lookup_insert_ne. apply Hno. left. reflexivity.
Qed.

(** The column under the name of a property is the column generated from
    a property of that name (the last one, if several bear it). *)
Lemma reduceColumns_property props init (name : string) :
  (exists prop, In prop props /\ prop_name prop = name) ->
  exists prop', In prop' props /\ prop_name prop' = name /\
    EntityLoaderService.reduceColumns props init !! name
    = Some (EntityLoaderService.propertyColumn prop').
Proof.
  revert init. induction props as [|p props IH]; intros init (prop & Hin & Hname);
    [destruct Hin|].
  destruct (existsb (fun q => String.eqb (prop_name q) name) props) eqn:E.
  - apply existsb_exists in E as (q & Hq & Hq').
    apply String.eqb_eq in Hq'.
    destruct (IH (<[prop_name p := EntityLoaderService.propertyColumn p]> init))
      as (q' & Hin' & Hname' & Hcol); [exists q; auto|].
    exists q'. split; [right; exact Hin'|]. split; [exact Hname'|exact Hcol].
  - assert (Hno : forall q, In q props -> prop_name q <> name).
    { intros q Hq Heq.
      assert (existsb (fun q => String.eqb (prop_name q) name) props = true)
        as Hex by (apply existsb_exists; exists q; split;
                   [exact Hq|apply String.eqb_eq, Heq]).
      congruence. }
    destruct Hin as [->|Hin]; [|destruct (Hno _ Hin Hname)].
    exists prop. split; [left; reflexivity|]. split; [exact Hname|].
    change (EntityLoaderService.reduceColumns props
              (<[prop_name prop := EntityLoaderService.propertyColumn prop]> init)
            !! name
            = Some (EntityLoaderService.propertyColumn prop)).
    rewrite reduceColumns_other by exact Hno.
    rewrite Hname. apply lookup_insert_eq.
Qed.

(** C9: in the schema that [loadEntities] builds for an entity manifest,
    the column of every property is nullable, whatever else the property
    declares, and the schema has the uniqueness constraint on the email
    column exactly when the entity is authenticable. *)
Theorem loadEntities_nullable_unique_email (entityManifests : list EntityManifest)
    (entityManifest : EntityManifest) :
  In entityManifest entityManifests ->
  In (entitySchema entityManifest) (loadEntities entityManifests) /\
  schema_name (entitySchema entityManifest) = className entityManifest /\
  (forall prop, In prop (properties entityManifest) ->
     exists col,
       columns (entitySchema entityManifest) !! prop_name prop = Some col /\
       col_name col = Some (prop_name prop) /\
       col_nullable col = Some true) /\
  (In ["email"] (uniques (entitySchema entityManifest))
   <-> authenticable entityManifest = true) /\
  (authenticable entityManifest = false ->
   uniques (entitySchema entityManifest) = []).
Proof.
  intros Hin. split; [apply in_map; exact Hin|]. split; [reflexivity|].
  split; [|split].
  - intros prop Hprop. simpl.
    destruct (reduceColumns_property (properties entityManifest)
                (if authenticable entityManifest
                 then baseAuthenticableEntity else baseEntity) (prop_name prop))
      as (prop' & _ & Hname & Hcol); [exists prop; auto|].
    exists (EntityLoaderService.propertyColumn prop').
    split; [exact Hcol|]. split; [simpl; congruence|reflexivity].
  - simpl. destruct (authenticable entityManifest); simpl; split;
      auto; try tauto; discriminate.
  - simpl. intros ->. reflexivity.
Qed.
End Schema.

(** The schemas of the sample cats and owners: the column of [age] is
    nullable and there is no uniqueness constraint. *)
Lemma loadEntities_nullable_unique_email_witness :
  exists col,
    columns (EntityLoaderService.entitySchema (RelationOptions := unit) ∅ ∅
               (fun _ => tt) Sample.cat) !! "age" = Some col /\
    col_nullable col = Some true.
Proof.
  assert (Hin : In Sample.cat Sample.pets) by (left; reflexivity).
  destruct (loadEntities_nullable_unique_email (RelationOptions := unit) ∅ ∅
              (fun _ => tt) Sample.pets Sample.cat Hin)
    as (_ & _ & Hcols & _).
  destruct (Hcols {| prop_name := "age"; prop_type := Number; prop_hidden := false |})
    as (col & Hcol & _ & Hnull).
  - right. left. reflexivity.
  - exists col. split; [exact Hcol|exact Hnull].
Defined.

(* ===================================================================== *)
(** ** The write path *)
(* ===================================================================== *)

Section WriteFacts.
Context {Value : Type}.
Variable related : Database Value -> string -> Z -> string -> list (BaseEntity Value).
Variable getEntityRepository : string -> res unit.
Variable getEntityManifest : string -> bool -> res EntityManifest.
Variable fetchRelationItemsFromDto :
  Database Value -> BaseEntity Value -> list RelationshipManifest ->
  res (BaseEntity Value).
Variable validate : BaseEntity Value -> EntityManifest -> list ValidationError.
Variable SHA3 : option Value -> Value.
Variable isTruthy : option Value -> bool.
Variable create : BaseEntity Value -> BaseEntity Value.
Variable save :
  Database Value -> string -> BaseEntity Value ->
  Database Value * res (BaseEntity Value).

Local Abbreviation candidate :=
  (CrudServiceWrite.candidate getEntityRepository getEntityManifest
     fetchRelationItemsFromDto SHA3 isTruthy create).
Local Abbreviation store :=
  (CrudServiceWrite.store getEntityRepository getEntityManifest
     fetchRelationItemsFromDto validate SHA3 isTruthy create save).
Local Abbreviation delete :=
  (CrudServiceWrite.delete related getEntityRepository getEntityManifest).

(** C7: [store] validates the candidate item before any write. When the
    validator reports at least one error, [store] throws the bad-request
    error that carries the list of errors and the database is left as it
    was; when it reports none, the outcome of [store] is the outcome of
    saving the item. In every case a change of the database comes from
    [save], after a validation without errors. *)
Theorem store_validates_before_saving (db : Database Value) (entitySlug : string)
    (itemDto : BaseEntity Value) entityManifest newItem relationItems :
  candidate db entitySlug itemDto = Ok (entityManifest, newItem, relationItems) ->
  (validate newItem entityManifest <> [] ->
   store db entitySlug itemDto
   = (db, Throw (BadRequestErrors (validate newItem entityManifest)))) /\
  (validate newItem entityManifest = [] ->
   store db entitySlug itemDto = save db entitySlug (relationItems ∪ newItem)) /\
  (fst (store db entitySlug itemDto) <> db ->
   validate newItem entityManifest = [] /\
   fst (store db entitySlug itemDto)
   = fst (save db entitySlug (relationItems ∪ newItem))).
Proof.
  intros Hcand. unfold CrudServiceWrite.store. rewrite Hcand.
  destruct (validate newItem entityManifest) as [|e errors].
  - split; [congruence|]. split; [reflexivity|]. intros _. split; reflexivity.
  - split; [reflexivity|]. split; [discriminate|]. simpl. congruence.
Qed.

(** Without a candidate there is no write either. *)
Lemma store_throws_before_validation (db : Database Value) (entitySlug : string)
    (itemDto : BaseEntity Value) e :
  candidate db entitySlug itemDto = Throw e ->
  store db entitySlug itemDto = (db, Throw e).
Proof. intros H. unfold CrudServiceWrite.store. rewrite H. reflexivity. Qed.

(** [findOne] loads every relation it is asked for. *)
Lemma relationOf_loaded (f : string -> list (BaseEntity Value))
    (names : list string) (name : string) :
  In name names ->
  Repository.relationOf name (map (fun n => (n, f n)) names) = Some (f name).
Proof.
  induction names as [|n names IH]; intros Hin; [destruct Hin|]. simpl.
  destruct (String.eqb_spec n name) as [->|Hne]; [reflexivity|].
  destruct Hin as [Heq|Hin]; [congruence|]. apply IH, Hin.
Qed.

(** The loop of [delete] over the one-to-many relationships: it passes
    when all of them are empty, and it throws the error of the first one
    that is not. *)
Lemma checkNoRelated_loop (f : string -> list (BaseEntity Value))
    (item : LoadedItem Value) (rels : list RelationshipManifest) :
  (forall r, In r rels ->
     Repository.relationOf (rel_name r) (loaded item) = Some (f (rel_name r))) ->
  ((forall r, In r rels -> f (rel_name r) = []) ->
   forEach (CrudServiceWrite.checkNoRelated item) rels tt = Ok tt) /\
  ((exists r, In r rels /\ f (rel_name r) <> []) ->
   exists r, In r rels /\ f (rel_name r) <> [] /\
     forEach (CrudServiceWrite.checkNoRelated item) rels tt
     = Throw (BadRequest ("Cannot delete item as it has related "
                          +:+ rel_name r
                          +:+ ". Please delete the related items first."))).
Proof.
  induction rels as [|r rels IH]; intros Hload.
  - split; [reflexivity|]. intros (r & [] & _).
  - destruct IH as [IHempty IHsome];
      [intros q Hq; apply Hload; right; exact Hq|].
    simpl. unfold CrudServiceWrite.checkNoRelated at 1 3.
    rewrite (Hload r) by (left; reflexivity).
    destruct (f (rel_name r)) as [|x xs] eqn:E; simpl.
    + split.
      * intros Hall. apply IHempty. intros q Hq. apply Hall. right. exact Hq.
      * intros (q & [->|Hq] & Hne); [congruence|].
        destruct IHsome as (q' & Hq' & Hne' & Hthrow); [exists q; auto|].
        exists q'. split; [right; exact Hq'|]. split; [exact Hne'|exact Hthrow].
    + split.
      * intros Hall. specialize (Hall r (or_introl eq_refl)). congruence.
      * intros _. exists r. split; [left; reflexivity|].
        split; [rewrite E; discriminate|reflexivity].
Qed.

(** C6: [delete] on an existing item. If some one-to-many relationship of
    the entity has a related item, it throws a bad-request error that
    names such a relationship and the database is left as it was. If
    every one-to-many relationship is empty, it succeeds: the row is
    gone, one row is reported as affected, and every other row of every
    table is as it was. *)
Theorem delete_blocked_by_related_items (db : Database Value)
    (entitySlug : string) (id : Z) entityManifest table item :
  getEntityRepository entitySlug = Ok tt ->
  getEntityManifest entitySlug false = Ok entityManifest ->
  db !! entitySlug = Some table -> table !! id = Some item ->
  ((exists r, In r (CrudServiceWrite.oneToMany (relationships entityManifest)) /\
              related db entitySlug id (rel_name r) <> []) ->
   exists r, In r (relationships entityManifest) /\ rel_type r = OneToMany /\
     related db entitySlug id (rel_name r) <> [] /\
     delete db entitySlug id
     = (db, Throw (BadRequest ("Cannot delete item as it has related "
                               +:+ rel_name r
                               +:+ ". Please delete the related items first.")))) /\
  ((forall r, In r (CrudServiceWrite.oneToMany (relationships entityManifest)) ->
              related db entitySlug id (rel_name r) = []) ->
   exists db',
     delete db entitySlug id = (db', Ok {| affected := 1 |}) /\
     db' !! entitySlug = Some (base.delete id table) /\
     (db' !! entitySlug ≫= (fun t => t !! id)) = None /\
     (forall id', id' <> id ->
        (db' !! entitySlug ≫= (fun t => t !! id')) = table !! id') /\
     (forall slug', slug' <> entitySlug -> db' !! slug' = db !! slug')).
Proof.
  intros Hrepo Hmanifest Htable Hitem.
  unfold CrudServiceWrite.delete. rewrite Hrepo, Hmanifest.
  unfold Repository.findOne. rewrite Htable. simpl. rewrite Hitem. simpl.
  set (rels := CrudServiceWrite.oneToMany (relationships entityManifest)).
  set (loadedItem := {| row := item; loaded := _ |}).
  destruct (checkNoRelated_loop (related db entitySlug id) loadedItem rels)
    as [Hempty Hsome].
  { intros r Hr. simpl. apply relationOf_loaded. apply in_map. exact Hr. }
  split.
  - intros Hex. destruct (Hsome Hex) as (r & Hr & Hne & Hthrow).
    exists r. apply filter_In in Hr as [Hr Htype].
    split; [exact Hr|]. split; [destruct (rel_type r); congruence|].
    split; [exact Hne|]. rewrite Hthrow. reflexivity.
  - intros Hall. rewrite (Hempty Hall).
    unfold Repository.delete. rewrite Htable, Hitem.
    eexists. split; [reflexivity|].
    split; [apply lookup_insert_eq|].
    split; [rewrite lookup_insert_eq; simpl; apply lookup_delete_eq|].
    split.
    + intros id' Hne. rewrite lookup_insert_eq. simpl.
      apply lookup_delete_ne. congruence.
    + intros slug' Hne. apply lookup_insert_ne. congruence.
Qed.
End WriteFacts.

(** On the sample database a cat without a name is rejected and nothing is
    written. *)
Lemma store_validates_before_saving_witness :
  Sample.store Sample.db "cats" ∅
  = (Sample.db,
     Throw (BadRequestErrors
              [MkValidationError "name" [("isNotEmpty", "name should not be empty")] []])).
Proof.
  refine (proj1 (store_validates_before_saving
                   (Sample.getEntityRepository Sample.household)
                   (Sample.getEntityManifest Sample.household)
                   Sample.fetchRelationItemsFromDto Sample.validate
                   Sample.SHA3 Sample.isTruthy (fun dto => dto) Sample.save
                   Sample.db "cats" ∅ Sample.cat ∅ ∅ _) _).
  - reflexivity.
  - discriminate.
Defined.

(** On the sample database owner 1, who has a cat, cannot be deleted. *)
Lemma delete_blocked_by_related_items_witness :
  exists r,
    In r (relationships Sample.owner) /\ rel_type r = OneToMany /\
    Sample.related Sample.db "owners" 1 (rel_name r) <> [] /\
    Sample.delete Sample.db "owners" 1
    = (Sample.db,
       Throw (BadRequest ("Cannot delete item as it has related "
                          +:+ rel_name r
                          +:+ ". Please delete the related items first."))).
Proof.
  refine (proj1 (delete_blocked_by_related_items Sample.related
                   (Sample.getEntityRepository Sample.household)
                   (Sample.getEntityManifest Sample.household)
                   Sample.db "owners" 1 Sample.owner
                   {[ 1 := {[ "name" := "Ann" ]}; 2 := {[ "name" := "Bob" ]} ]}
                   {[ "name" := "Ann" ]} _ _ _ _) _).
  - reflexivity.
  - reflexivity.
  - vm_compute. reflexivity.
  - vm_compute. reflexivity.
  - eexists. split; [left; reflexivity|]. vm_compute. discriminate.
Defined.

(* ===================================================================== *)
(** ** Filters *)
(* ===================================================================== *)

Section FilterFacts.
Context {Json : Type}.
Variable JSON_parse : string -> res Json.
Variable camelize : list string -> string.

Local Abbreviation filterEntry := (CrudService.filterEntry JSON_parse camelize).
Local Abbreviation filterQuery := (CrudService.filterQuery JSON_parse camelize).

(** An entry that passes leaves its own condition as the only one. *)
Lemma filterEntry_one_condition entityManifest
    (query query' : SelectQueryBuilder Json) entry :
  filterEntry entityManifest query entry = Ok query' ->
  exists cond, wheres query' = [cond].
Proof.
  unfold CrudService.filterEntry. destruct entry as [key value].
  destruct (CrudService.findSuffix key) as [suffix|]; [|discriminate].
  set (prop := find _ (properties entityManifest)).
  set (relation := find _ (relationships entityManifest)).
  assert (Hgo : forall (whereKey : string) (value : QueryValue),
    (if CrudService.isIn (getRecordKeyByValue suffix)
     then let! parsed := JSON_parse ("[" +:+ toString value +:+ "]") in
          Ok (QB.where_ (whereKey +:+ " "
                         +:+ CrudService.printOperator (getRecordKeyByValue suffix)
                         +:+ " (:...value)") "value" (PJson parsed) query)
     else Ok (QB.where_ (whereKey +:+ " "
                         +:+ CrudService.printOperator (getRecordKeyByValue suffix)
                         +:+ " :value") "value" (PValue value) query))
    = Ok query' -> exists cond, wheres query' = [cond]).
  { intros whereKey v.
    destruct (CrudService.isIn _).
    - destruct (JSON_parse _); simpl; [|discriminate].
      intros [= <-]. eexists. reflexivity.
    - intros [= <-]. eexists. reflexivity. }
  destruct prop as [p|], relation as [r|]; try discriminate; apply Hgo.
Qed.

(** The filtered query holds at most one condition, however many filters
    the query parameters carry. *)
Lemma filterQuery_at_most_one_condition entityManifest
    (query query' : SelectQueryBuilder Json) queryParams :
  filterQuery query queryParams entityManifest = Ok query' ->
  wheres query' = wheres query \/ exists cond, wheres query' = [cond].
Proof.
  unfold CrudService.filterQuery.
  generalize (List.filter
                (fun entry => negb (arrayIncludes (fst entry) QUERY_PARAMS_RESERVED_WORDS))
                (default [] queryParams)).
  intros entries. revert query.
  induction entries as [|entry entries IH]; intros query; simpl.
  - intros [= <-]. left. reflexivity.
  - destruct (filterEntry entityManifest query entry) as [q1|] eqn:E; [|discriminate].
    simpl. intros H. apply filterEntry_one_condition in E as [cond Hcond].
    destruct (IH q1 H) as [Hsame|Hone]; right; [exists cond; congruence|exact Hone].
Qed.

(** When a key is rejected for its name: no property that is not hidden
    bears the name, and no relationship bears its first segment. *)
Lemma filterEntry_rejects_unknown_name entityManifest
    (query : SelectQueryBuilder Json) key value suffix :
  CrudService.findSuffix key = Some suffix ->
  (forall prop, In prop (properties entityManifest) ->
     prop_name prop = Js.removeFirst suffix key -> prop_hidden prop = true) ->
  (forall relationship, In relationship (relationships entityManifest) ->
     rel_name relationship
     <> default "" (head (Js.split "." (Js.removeFirst suffix key)))) ->
  filterEntry entityManifest query (key, value)
  = Throw (BadRequest ("Property " +:+ Js.removeFirst suffix key
                       +:+ " does not exist in " +:+ className entityManifest)).
Proof.
  intros Hsuffix Hprop Hrel. unfold CrudService.filterEntry. rewrite Hsuffix.
  destruct (find _ (properties entityManifest)) as [p|] eqn:Ep.
  { apply find_some in Ep as [Hin Hp]. apply andb_true_iff in Hp as [Hname Hvis].
    apply String.eqb_eq in Hname. rewrite (Hprop p Hin Hname) in Hvis. discriminate. }
  destruct (find _ (relationships entityManifest)) as [r|] eqn:Er.
  { apply find_some in Er as [Hin Hr]. apply String.eqb_eq in Hr.
    destruct (Hrel r Hin Hr). }
  reflexivity.
Qed.
End FilterFacts.

(** C1, evaluated on the code: for [age_gte=2&age_lt=5] on the sample cats,
    the query that [findAll] hands to pagination holds the single condition
    [entity.age < :value] with [value] bound to 5; the condition of
    [age_gte] is gone, so the result is not constrained by [2 <= age]. *)
Theorem findAll_two_filters_keep_last :
  exists a,
    Sample.findAll Sample.pets 1 "cats"
      (Some [("age_gte", QString "2"); ("age_lt", QString "5")]) false
    = Some (Ok a) /\
    wheres (query a) = ["entity.age < :value"] /\
    parameters (query a) !! "value" = Some (PValue (QString "5")) /\
    ~ In "entity.age >= :value" (wheres (query a)).
Proof.
  eexists. split; [vm_compute; reflexivity|].
  split; [reflexivity|]. split; [vm_compute; reflexivity|].
  simpl. intros [H|[]]. discriminate.
Qed.

(** C4, evaluated on the code: on the sample cats, whose relationship
    [owner] leads to users, the keys [owner.secret_eq] ([secret] is a hidden
    property of users), [owner.nope_eq] (users have no such property) and
    [owner_eq] (no path at all) are all accepted and resolved to a column
    reference; none is rejected. *)
Theorem filterQuery_accepts_unchecked_relation_path :
  (exists prop, In prop (properties Sample.user) /\
                prop_name prop = "secret" /\ prop_hidden prop = true) /\
  existsb (fun prop => String.eqb (prop_name prop) "nope") (properties Sample.user)
  = false /\
  (exists a,
     Sample.findAll Sample.pets 2 "cats"
       (Some [("relations", QString "owner"); ("owner.secret_eq", QString "x")]) false
     = Some (Ok a) /\
     wheres (query a) = ["entityOwner.secret = :value"]) /\
  (exists a,
     Sample.findAll Sample.pets 2 "cats"
       (Some [("relations", QString "owner"); ("owner.nope_eq", QString "x")]) false
     = Some (Ok a) /\
     wheres (query a) = ["entityOwner.nope = :value"]) /\
  (exists a,
     Sample.findAll Sample.pets 2 "cats"
       (Some [("relations", QString "owner"); ("owner_eq", QString "x")]) false
     = Some (Ok a) /\
     wheres (query a) = ["entityOwner.undefined = :value"]).
Proof.
  split; [eexists; split; [right; left; reflexivity|split; reflexivity]|].
  split; [reflexivity|].
  repeat split; eexists; (split; [vm_compute; reflexivity|reflexivity]).
Qed.

(* ===================================================================== *)
(** ** Relation loading *)
(* ===================================================================== *)

(** A loop whose body returns on every element returns. *)
Lemma forEachFuel_returns {A S} (f : S -> A -> option (res S)) (l : list A) (s : S) :
  (forall s a, In a l -> exists r, f s a = Some r) ->
  exists r, forEachFuel f l s = Some r.
Proof.
  revert s. induction l as [|a l IH]; intros s Hf; simpl.
  - eexists. reflexivity.
  - destruct (Hf s a (or_introl eq_refl)) as [[s'|e] ->].
    + apply IH. intros s0 a0 Ha0. apply Hf. right. exact Ha0.
    + eexists. reflexivity.
Qed.

Section LoadRelations.
Context {Json : Type}.
Variable camelize : list string -> string.
Variable getEntityManifestByClassName : string -> res EntityManifest.
Variable getEntityMetadata : string -> res EntityMetadata.

Local Abbreviation loadRelations :=
  (CrudService.loadRelations (Json := Json) camelize
     getEntityManifestByClassName getEntityMetadata).

(** Pruning never lengthens the list of requested relations. *)
Lemma pruneRequested_le name requestedRelations :
  (requestedCount (CrudService.pruneRequested name requestedRelations)
   <= requestedCount requestedRelations)%nat.
Proof.
  destruct requestedRelations as [l|]; simpl; [|lia].
  rewrite length_map. induction l as [|r l IH]; simpl; [lia|].
  destruct (negb (String.eqb r name)); simpl; lia.
Qed.

(** Pruning after a relation that was requested shortens the list. *)
Lemma pruneRequested_lt name requestedRelations :
  CrudService.isRequested name requestedRelations = true ->
  (requestedCount (CrudService.pruneRequested name requestedRelations)
   < requestedCount requestedRelations)%nat.
Proof.
  destruct requestedRelations as [l|]; simpl; [|discriminate].
  rewrite length_map. unfold arrayIncludes.
  induction l as [|r l IH]; simpl; [discriminate|].
  intros H. apply orb_true_iff in H as [H|H].
  - apply String.eqb_eq in H. subst r. rewrite String.eqb_refl. simpl.
    pose proof (List.filter_length_le (fun r => negb (String.eqb r name)) l). lia.
  - specialize (IH H). destruct (negb (String.eqb r name)); simpl; lia.
Qed.

Variable rank : string -> nat.
Variable bound : nat.
Hypothesis rank_bounded : forall name, (rank name <= bound)%nat.
Hypothesis acyclic :
  eagerAcyclic getEntityManifestByClassName getEntityMetadata rank.

(** With the eager relations ranked, the recursion is at most
    [requestedCount * (bound + 2) + n] deep: a relation that is joined
    because it is eager lowers the rank, one that is joined because it
    was requested shortens the list of requested relations. *)
Lemma loadRelations_returns_ranked (fuel : nat) :
  forall (query : SelectQueryBuilder Json) entityMetadata relationships
         requestedRelations alias n,
    eagerBelow rank entityMetadata relationships n ->
    (n <= S bound)%nat ->
    (requestedCount requestedRelations * (bound + 2) + n < fuel)%nat ->
    exists r,
      loadRelations fuel query entityMetadata relationships
        requestedRelations alias = Some r.
Proof.
  induction fuel as [|fuel IH];
    intros query entityMetadata relationships requestedRelations alias n
           Heager Hn Hfuel; [lia|].
  simpl. apply forEachFuel_returns. intros q relationMetadata Hin.
  destruct (find _ relationships) as [relationship|] eqn:Efind;
    [|eexists; reflexivity].
  destruct (negb (rel_eager relationship)
            && negb (CrudService.isRequested (propertyName relationMetadata)
                       requestedRelations)) eqn:Eskip;
    [eexists; reflexivity|].
  destruct (getEntityManifestByClassName (inverseTargetName relationMetadata))
    as [relationEntityManifest|] eqn:Emanifest; [|eexists; reflexivity].
  destruct (getEntityMetadata (inverseTargetName relationMetadata))
    as [relationEntityMetadata|] eqn:Emetadata; [|eexists; reflexivity].
  destruct (relations relationEntityMetadata) as [|r0 rs] eqn:Erels;
    [eexists; reflexivity|].
  apply (IH _ _ _ _ _ (rank (inverseTargetName relationMetadata))).
  - apply (acyclic _ _ _ Emetadata Emanifest).
  - pose proof (rank_bounded (inverseTargetName relationMetadata)). lia.
  - pose proof (rank_bounded (inverseTargetName relationMetadata)) as Hrank.
    pose proof (pruneRequested_le (propertyName relationMetadata) requestedRelations)
      as Hle.
    destruct (rel_eager relationship) eqn:Eeager.
    + pose proof (Heager relationMetadata relationship Hin Efind Eeager). nia.
    + simpl in Eskip. apply negb_false_iff in Eskip.
      pose proof (pruneRequested_lt _ _ Eskip). nia.
Qed.
End LoadRelations.

(** The sample cycle with both relations eager never returns: whatever the
    recursion depth allowed, it is used up. *)
Lemma eager_cycle_diverges (fuel : nat) :
  forall (query : SelectQueryBuilder string) requestedRelations alias,
    Sample.loadRelations (Sample.cycle true) fuel query
      (Sample.metadataOf (Sample.entityA true))
      (relationships (Sample.entityA true)) requestedRelations alias = None /\
    Sample.loadRelations (Sample.cycle true) fuel query
      (Sample.metadataOf (Sample.entityB true))
      (relationships (Sample.entityB true)) requestedRelations alias = None.
Proof.
  induction fuel as [|fuel IH]; intros query requestedRelations alias.
  - split; reflexivity.
  - split.
    + change (match Sample.loadRelations (Sample.cycle true) fuel
                      (QB.addSelect
                         (CrudService.getVisibleProps []
                            (Sample.camelize [alias; "b"]) false)
                         (QB.leftJoin (CrudService.column alias "b")
                            (Sample.camelize [alias; "b"]) query))
                      (Sample.metadataOf (Sample.entityB true))
                      (relationships (Sample.entityB true))
                      (CrudService.pruneRequested "b" requestedRelations)
                      (Sample.camelize [alias; "b"]) with
              | Some (Ok s') => Some (Ok s')
              | other => other
              end = None).
      rewrite (proj2 (IH _ _ _)). reflexivity.
    + change (match Sample.loadRelations (Sample.cycle true) fuel
                      (QB.addSelect
                         (CrudService.getVisibleProps []
                            (Sample.camelize [alias; "a"]) false)
                         (QB.leftJoin (CrudService.column alias "a")
                            (Sample.camelize [alias; "a"]) query))
                      (Sample.metadataOf (Sample.entityA true))
                      (relationships (Sample.entityA true))
                      (CrudService.pruneRequested "a" requestedRelations)
                      (Sample.camelize [alias; "a"]) with
              | Some (Ok s') => Some (Ok s')
              | other => other
              end = None).
      rewrite (proj1 (IH _ _ _)). reflexivity.
Qed.

(** A loop whose body returns the same under [g] as under [f] does so too. *)
Lemma forEachFuel_mono {A S} (f g : S -> A -> option (res S)) (l : list A) :
  (forall s a r, f s a = Some r -> g s a = Some r) ->
  forall s r, forEachFuel f l s = Some r -> forEachFuel g l s = Some r.
Proof.
  intros Hfg. induction l as [|a l IH]; intros s r; simpl; [auto|].
  destruct (f s a) as [[s'|e]|] eqn:E; [| |discriminate].
  - rewrite (Hfg _ _ _ E). apply IH.
  - rewrite (Hfg _ _ _ E). auto.
Qed.

Section LoadRelationsFuel.
Context {Json : Type}.
Variable camelize : list string -> string.
Variable getEntityManifestByClassName : string -> res EntityManifest.
Variable getEntityMetadata : string -> res EntityMetadata.

Local Abbreviation loadRelations :=
  (CrudService.loadRelations (Json := Json) camelize
     getEntityManifestByClassName getEntityMetadata).

(** A result does not depend on the depth that was allowed, once it is
    enough. *)
Lemma loadRelations_more_fuel (fuel : nat) :
  forall (query : SelectQueryBuilder Json) entityMetadata relationships
         requestedRelations alias r,
    loadRelations fuel query entityMetadata relationships
      requestedRelations alias = Some r ->
    loadRelations (S fuel) query entityMetadata relationships
      requestedRelations alias = Some r.
Proof.
  induction fuel as [|fuel IH];
    intros query entityMetadata relationships requestedRelations alias r H;
    [discriminate|].
  remember (S fuel) as fuel1 eqn:Efuel.
  simpl. rewrite Efuel in H. simpl in H.
  revert H. apply forEachFuel_mono. clear query r.
  intros q relationMetadata r.
  destruct (find _ relationships) as [relationship|]; [|auto].
  destruct (negb (rel_eager relationship) && _); [auto|].
  destruct (getEntityManifestByClassName _) as [relationEntityManifest|]; [|auto].
  destruct (getEntityMetadata _) as [relationEntityMetadata|]; [|auto].
  destruct (relations relationEntityMetadata); [auto|].
  apply IH.
Qed.

Lemma loadRelations_fuel_le (fuel fuel' : nat) :
  (fuel <= fuel')%nat ->
  forall (query : SelectQueryBuilder Json) entityMetadata relationships
         requestedRelations alias r,
    loadRelations fuel query entityMetadata relationships
      requestedRelations alias = Some r ->
    loadRelations fuel' query entityMetadata relationships
      requestedRelations alias = Some r.
Proof.
  induction 1 as [|fuel' _ IH]; intros; [assumption|].
  apply loadRelations_more_fuel, IH. assumption.
Qed.
End LoadRelationsFuel.

(** C2, as stated, fails. With both relations of the cycle eager,
    [loadRelations] uses up every recursion depth: it does not terminate.
    And with neither eager, requesting [b.a] alone joins nothing, since [b]
    itself is not among the requested relations. *)
Lemma loadRelations_eager_cycle_never_returns :
  (forall fuel,
     Sample.loadRelations (Sample.cycle true) fuel (QB.createQueryBuilder "entity")
       (Sample.metadataOf (Sample.entityA true))
       (relationships (Sample.entityA true)) (Some ["b.a"]) "entity" = None) /\
  (forall fuel,
     Sample.findAll (Sample.cycle true) fuel "as"
       (Some [("relations", QString "b.a")]) false = None) /\
  (exists q,
     Sample.loadRelations (Sample.cycle false) 1 (QB.createQueryBuilder "entity")
       (Sample.metadataOf (Sample.entityA false))
       (relationships (Sample.entityA false)) (Some ["b.a"]) "entity" = Some (Ok q) /\
     joins q = []).
Proof.
  split; [intros fuel; apply eager_cycle_diverges|].
  split.
  - intros fuel. unfold Sample.findAll, CrudService.findAll.
    change (Sample.getEntityManifest (Sample.cycle true) "as" false)
      with (Ok (Sample.entityA true)).
    cbv beta iota.
    change (Sample.getEntityMetadata (Sample.cycle true)
              (className (Sample.entityA true)))
      with (Ok (Sample.metadataOf (Sample.entityA true))).
    cbv beta iota.
    match goal with
    | |- match ?l with _ => _ end = None =>
        replace l with (@None (res (SelectQueryBuilder string)));
          [reflexivity|symmetry; apply eager_cycle_diverges]
    end.
  - eexists. split; [vm_compute; reflexivity|reflexivity].
Qed.

(** C2, amended: when the eager relations form no cycle (some rank on the
    entities, bounded by [bound], decreases along every eager relation),
    [loadRelations] terminates for every entity, every list of requested
    relations and every starting query: one result is returned at every
    recursion depth above [requestedCount * (bound + 2) + bound + 1]. On the
    sample cycle with no eager relation, requesting [b] and [b.a] joins [b]
    and, under it, one level of [a], and stops there. *)
Theorem loadRelations_terminates_without_eager_cycle :
  (forall (Json : Type) camelize getEntityManifestByClassName getEntityMetadata
          (rank : string -> nat) (bound : nat),
     (forall name, (rank name <= bound)%nat) ->
     eagerAcyclic getEntityManifestByClassName getEntityMetadata rank ->
     forall (query : SelectQueryBuilder Json) entityMetadata relationships
            requestedRelations alias,
     exists r, forall fuel,
       (requestedCount requestedRelations * (bound + 2) + bound + 1 < fuel)%nat ->
       CrudService.loadRelations camelize getEntityManifestByClassName
         getEntityMetadata fuel query entityMetadata relationships
         requestedRelations alias = Some r) /\
  (exists q, forall fuel, (3 <= fuel)%nat ->
     Sample.loadRelations (Sample.cycle false) fuel (QB.createQueryBuilder "entity")
       (Sample.metadataOf (Sample.entityA false))
       (relationships (Sample.entityA false)) (Some ["b"; "b.a"]) "entity"
     = Some (Ok q) /\
     joins q = [("entity.b", "entityB"); ("entityB.a", "entityBA")]).
Proof.
  split.
  - intros Json camelize getEMBC getMD rank bound Hbound Hacyclic
           query entityMetadata relationships requestedRelations alias.
    destruct (loadRelations_returns_ranked camelize getEMBC getMD rank bound
                Hbound Hacyclic
                (S (requestedCount requestedRelations * (bound + 2) + S bound))
                query entityMetadata relationships requestedRelations alias
                (S bound)) as [r Hr].
    + intros relationMetadata relationship _ _ _.
      pose proof (Hbound (inverseTargetName relationMetadata)). lia.
    + lia.
    + lia.
    + exists r. intros fuel Hfuel.
      apply (loadRelations_fuel_le camelize getEMBC getMD
               (S (requestedCount requestedRelations * (bound + 2) + S bound)) fuel);
        [lia|exact Hr].
  - eexists. intros fuel Hfuel. split.
    + apply (loadRelations_fuel_le Sample.camelize
               (Sample.getEntityManifestByClassName (Sample.cycle false))
               (Sample.getEntityMetadata (Sample.cycle false)) 3 fuel Hfuel).
      vm_compute. reflexivity.
    + reflexivity.
Qed.

(** The sample cycle without eager relations is ranked by the constant 0;
    loading the relations of A with [b] and [b.a] requested terminates. *)
Lemma loadRelations_terminates_without_eager_cycle_witness :
  exists r, forall fuel, (5 < fuel)%nat ->
    Sample.loadRelations (Sample.cycle false) fuel (QB.createQueryBuilder "entity")
      (Sample.metadataOf (Sample.entityA false))
      (relationships (Sample.entityA false))
      (Some ["b"; "b.a"]) "entity" = Some r.
Proof.
  refine (proj1 loadRelations_terminates_without_eager_cycle string
            Sample.camelize
            (Sample.getEntityManifestByClassName (Sample.cycle false))
            (Sample.getEntityMetadata (Sample.cycle false))
            (fun _ => 0%nat) 0%nat _ _
            (QB.createQueryBuilder "entity")
            (Sample.metadataOf (Sample.entityA false))
            (relationships (Sample.entityA false))
            (Some ["b"; "b.a"]) "entity").
  - intros name. lia.
  - intros name entityMetadata entityManifest Hmetadata Hmanifest.
    unfold Sample.getEntityMetadata in Hmetadata. rewrite Hmanifest in Hmetadata.
    injection Hmetadata as <-.
    unfold Sample.getEntityManifestByClassName in Hmanifest.
    destruct (find _ (Sample.cycle false)) as [m|] eqn:Efind; [|discriminate].
    injection Hmanifest as <-.
    apply find_some in Efind as [[<-|[<-|[]]] _];
      intros relationMetadata relationship Hin Hfind Heager;
      destruct Hin as [<-|[]]; injection Hfind as <-; discriminate.
Defined.

(* ===================================================================== *)
(** ** Relation loading, continued *)
(* ===================================================================== *)

Lemma extendQuery_nil {Json : Type} (q : SelectQueryBuilder Json) :
  extendQuery [] [] q = q.
Proof. destruct q. unfold extendQuery. simpl. rewrite !app_nil_r. reflexivity. Qed.

Lemma extendQuery_extendQuery {Json : Type} cols1 joined1 cols2 joined2
    (q : SelectQueryBuilder Json) :
  extendQuery cols2 joined2 (extendQuery cols1 joined1 q)
  = extendQuery (cols1 ++ cols2) (joined1 ++ joined2) q.
Proof. unfold extendQuery. simpl. rewrite !app_assoc. reflexivity. Qed.

Lemma addSelect_leftJoin_extend {Json : Type} cols property alias
    (q : SelectQueryBuilder Json) :
  QB.addSelect cols (QB.leftJoin property alias q)
  = extendQuery cols [(property, alias)] q.
Proof. reflexivity. Qed.

(** A loop whose body adds to the query, each element its own share, adds
    the shares one after the other. *)
Lemma forEachFuel_delta {A Json : Type}
    (f : SelectQueryBuilder Json -> A -> option (res (SelectQueryBuilder Json)))
    (l : list A) :
  (forall a, In a l -> exists delta, forall q, f q a = applyDelta delta q) ->
  exists delta, forall q, forEachFuel f l q = applyDelta delta q.
Proof.
  induction l as [|a l IH]; intros Hf.
  - exists (Some (Ok ([], []))). intros q. simpl. rewrite extendQuery_nil. reflexivity.
  - destruct (Hf a (or_introl eq_refl)) as [da Hda].
    destruct IH as [dl Hdl]; [intros b Hb; apply Hf; right; exact Hb|].
    destruct da as [[[cols joined]|e]|].
    + destruct dl as [[[cols' joined']|e']|].
      * exists (Some (Ok (cols ++ cols', joined ++ joined'))). intros q. simpl.
        rewrite Hda. simpl. rewrite Hdl. simpl.
        rewrite extendQuery_extendQuery. reflexivity.
      * exists (Some (Throw e')). intros q. simpl. rewrite Hda. simpl.
        rewrite Hdl. reflexivity.
      * exists None. intros q. simpl. rewrite Hda. simpl. rewrite Hdl. reflexivity.
    + exists (Some (Throw e)). intros q. simpl. rewrite Hda. reflexivity.
    + exists None. intros q. simpl. rewrite Hda. reflexivity.
Qed.

(** A loop that returns a query returned one on each of its elements. *)
Lemma forEachFuel_Ok_all {A S : Type} (f : S -> A -> option (res S)) (l : list A) :
  forall s s', forEachFuel f l s = Some (Ok s') ->
  forall a, In a l -> exists s1 s2, f s1 a = Some (Ok s2).
Proof.
  induction l as [|a l IH]; intros s s' H b Hb; [destruct Hb|].
  simpl in H. destruct (f s a) as [[s1|]|] eqn:E; try discriminate.
  destruct Hb as [<-|Hb]; [exists s, s1; exact E|]. exact (IH _ _ H b Hb).
Qed.

Section LoadRelationsShape.
Context {Json : Type}.
Variable camelize : list string -> string.
Variable getEntityManifestByClassName : string -> res EntityManifest.
Variable getEntityMetadata : string -> res EntityMetadata.

Local Abbreviation loadRelations :=
  (CrudService.loadRelations (Json := Json) camelize
     getEntityManifestByClassName getEntityMetadata).

(** What a run adds does not depend on the query it is given. *)
Lemma loadRelations_delta (fuel : nat) entityMetadata relationships
    requestedRelations alias :
  exists delta : QueryDelta, forall query : SelectQueryBuilder Json,
    loadRelations fuel query entityMetadata relationships requestedRelations alias
    = applyDelta delta query.
Proof.
  revert entityMetadata relationships requestedRelations alias.
  induction fuel as [|fuel IH];
    intros entityMetadata relationships requestedRelations alias.
  - exists None. reflexivity.
  - simpl. apply forEachFuel_delta. intros relationMetadata _.
    destruct (find _ relationships) as [relationship|];
      [|eexists (Some (Throw _)); reflexivity].
    destruct (negb (rel_eager relationship) && _).
    { exists (Some (Ok ([], []))). intros q. simpl. rewrite extendQuery_nil. reflexivity. }
    destruct (getEntityManifestByClassName _) as [relationEntityManifest|];
      [|eexists (Some (Throw _)); reflexivity].
    destruct (getEntityMetadata _) as [relationEntityMetadata|];
      [|eexists (Some (Throw _)); reflexivity].
    destruct (relations relationEntityMetadata) as [|r0 rs] eqn:Erels.
    { eexists (Some (Ok (_, _))). intros q. simpl. reflexivity. }
    destruct (IH relationEntityMetadata (Manifest.relationships relationEntityManifest)
                (CrudService.pruneRequested (propertyName relationMetadata)
                   requestedRelations)
                (camelize [alias; propertyName relationMetadata])) as [delta Hdelta].
    destruct delta as [[[cols joined]|e]|].
    + eexists (Some (Ok (_, _))). intros q. rewrite Hdelta, addSelect_leftJoin_extend.
      simpl. rewrite extendQuery_extendQuery. reflexivity.
    + exists (Some (Throw e)). intros q. rewrite Hdelta. reflexivity.
    + exists None. intros q. rewrite Hdelta. reflexivity.
Qed.

(** A returned query is the given one extended. *)
Lemma loadRelations_extends (fuel : nat)
    (query query' : SelectQueryBuilder Json) entityMetadata relationships
    requestedRelations alias :
  loadRelations fuel query entityMetadata relationships requestedRelations alias
  = Some (Ok query') ->
  exists cols joined, query' = extendQuery cols joined query.
Proof.
  destruct (loadRelations_delta fuel entityMetadata relationships
              requestedRelations alias) as [delta Hdelta].
  rewrite Hdelta. destruct delta as [[[cols joined]|e]|]; try discriminate.
  simpl. intros [= <-]. exists cols, joined. reflexivity.
Qed.

(** X1: [loadRelations] only appends selected columns and joins to the query
    it is given, and what it appends (or the exception it throws, or its
    running out of depth) does not depend on that query: run on two
    queries, it ends the same way and adds the same columns and joins. *)
Theorem loadRelations_only_appends (fuel : nat) entityMetadata relationships
    requestedRelations alias (query1 query2 : SelectQueryBuilder Json) :
  match loadRelations fuel query1 entityMetadata relationships requestedRelations alias,
        loadRelations fuel query2 entityMetadata relationships requestedRelations alias
  with
  | Some (Ok result1), Some (Ok result2) =>
      exists cols joined,
        result1 = extendQuery cols joined query1 /\
        result2 = extendQuery cols joined query2
  | Some (Throw e1), Some (Throw e2) => e1 = e2
  | None, None => True
  | _, _ => False
  end.
Proof.
  destruct (loadRelations_delta fuel entityMetadata relationships
              requestedRelations alias) as [delta Hdelta].
  rewrite !Hdelta. destruct delta as [[[cols joined]|e]|]; simpl.
  - exists cols, joined. split; reflexivity.
  - reflexivity.
  - exact I.
Qed.

(** X2: a query that [loadRelations] returns has the conditions, the
    parameters, the ordering and the main alias of the query it was given,
    whose selected columns and joins it starts with. *)
Theorem loadRelations_keeps_conditions (fuel : nat)
    (query query' : SelectQueryBuilder Json) entityMetadata relationships
    requestedRelations alias :
  loadRelations fuel query entityMetadata relationships requestedRelations alias
  = Some (Ok query') ->
  wheres query' = wheres query /\ parameters query' = parameters query /\
  orderBys query' = orderBys query /\ mainAlias query' = mainAlias query /\
  (exists cols, selects query' = selects query ++ cols) /\
  (exists joined, joins query' = joins query ++ joined).
Proof.
  intros H. apply loadRelations_extends in H as (cols & joined & ->).
  simpl. repeat split; eauto.
Qed.

(** X3: the columns that [loadRelations] adds are selected without the
    full version: each is, under the alias of one of the joins of the
    query, the id of a registered entity or one of its properties that is
    neither hidden nor named 'password', also when the caller is an
    admin. *)
Theorem loadRelations_hides_hidden (fuel : nat)
    (query query' : SelectQueryBuilder Json) entityMetadata relationships
    requestedRelations alias :
  loadRelations fuel query entityMetadata relationships requestedRelations alias
  = Some (Ok query') ->
  forall c, In c (selects query') ->
    In c (selects query) \/
    exists property alias' name entityManifest,
      In (property, alias') (joins query') /\
      getEntityManifestByClassName name = Ok entityManifest /\
      (c = CrudService.column alias' "id" \/
       exists prop, In prop (properties entityManifest) /\
                    c = CrudService.column alias' (prop_name prop) /\
                    prop_hidden prop = false /\ prop_name prop <> "password").
Proof.
  revert query query' entityMetadata relationships requestedRelations alias.
  induction fuel as [|fuel IH];
    intros query query' entityMetadata relationships requestedRelations alias;
    [discriminate|].
  simpl.
  set (added := fun (q : SelectQueryBuilder Json) (c : string) =>
         exists property alias' name entityManifest,
           In (property, alias') (joins q) /\
           getEntityManifestByClassName name = Ok entityManifest /\
           (c = CrudService.column alias' "id" \/
            exists prop, In prop (properties entityManifest) /\
                         c = CrudService.column alias' (prop_name prop) /\
                         prop_hidden prop = false /\ prop_name prop <> "password")).
  assert (Hgrow : forall (q q' : SelectQueryBuilder Json) c,
            (forall j, In j (joins q) -> In j (joins q')) -> added q c -> added q' c).
  { intros q q' c Hsub (property & alias' & name & em & Hj & Hrest).
    exists property, alias', name, em. split; [apply Hsub; exact Hj|exact Hrest]. }
  set (P := fun q : SelectQueryBuilder Json =>
              (forall j, In j (joins query) -> In j (joins q)) /\
              forall c, In c (selects q) -> In c (selects query) \/ added q c).
  intros H. apply (forEachFuel_invariant P _ _) with (s := query) in H;
    [exact (proj2 H)| |split; [auto|intros c Hc; left; exact Hc]].
  clear H query'. intros q relationMetadata q' [Hsub Hq].
  destruct (find _ relationships) as [relationship|]; [|discriminate].
  destruct (negb (rel_eager relationship) && _);
    [intros [= <-]; split; assumption|].
  destruct (getEntityManifestByClassName (inverseTargetName relationMetadata))
    as [relationEntityManifest|] eqn:Emanifest; [|discriminate].
  set (q1 := QB.addSelect
               (CrudService.getVisibleProps (properties relationEntityManifest)
                  (camelize [alias; propertyName relationMetadata]) false)
               (QB.leftJoin
                  (CrudService.column alias (propertyName relationMetadata))
                  (camelize [alias; propertyName relationMetadata]) q)).
  assert (Hsub1 : forall j, In j (joins q) -> In j (joins q1)).
  { intros j Hj. simpl. apply in_app_iff. left. exact Hj. }
  assert (Hjoined : P q1).
  { split; [intros j Hj; apply Hsub1, Hsub, Hj|].
    intros c Hc. simpl in Hc. apply in_app_iff in Hc as [Hc|Hc].
    - destruct (Hq c Hc) as [Hold|Hadded]; [left; exact Hold|right].
      exact (Hgrow q q1 c Hsub1 Hadded).
    - right. exists (CrudService.column alias (propertyName relationMetadata)),
                    (camelize [alias; propertyName relationMetadata]),
                    (inverseTargetName relationMetadata), relationEntityManifest.
      split; [simpl; apply in_app_iff; right; left; reflexivity|].
      split; [exact Emanifest|].
      apply getVisibleProps_In in Hc as [Hc|(prop & Hin & Hc & Hname & [Hfull|Hhid])];
        [left; exact Hc| discriminate |].
      right. exists prop. auto. }
  destruct (getEntityMetadata _) as [relationEntityMetadata|]; [|discriminate].
  destruct (relations relationEntityMetadata); [intros [= <-]; exact Hjoined|].
  intros Hrec.
  destruct (loadRelations_extends _ _ _ _ _ _ _ Hrec) as (cols & joined & Hext).
  assert (Hjoins : joins q' = joins q1 ++ joined) by (rewrite Hext; reflexivity).
  assert (Hsub2 : forall j, In j (joins q1) -> In j (joins q')).
  { intros j Hj. rewrite Hjoins. apply in_app_iff. left. exact Hj. }
  split; [intros j Hj; apply Hsub2, (proj1 Hjoined), Hj|].
  intros c Hc.
  destruct (IH _ _ _ _ _ _ Hrec c Hc) as [Hin|Hnew]; [|right; exact Hnew].
  destruct (proj2 Hjoined c Hin) as [Hold|Hadded]; [left; exact Hold|right].
  exact (Hgrow q1 q' c Hsub2 Hadded).
Qed.

(** X4: when no relation of the entity is eager and none is requested, the
    query is returned as it was given, at any depth above zero. *)
Theorem loadRelations_nothing_to_load (fuel : nat) (query : SelectQueryBuilder Json)
    entityMetadata relationships requestedRelations alias :
  (forall relationMetadata, In relationMetadata (relations entityMetadata) ->
     exists relationship,
       relationshipOf relationships relationMetadata = Some relationship /\
       rel_eager relationship = false /\
       CrudService.isRequested (propertyName relationMetadata) requestedRelations
       = false) ->
  loadRelations (S fuel) query entityMetadata relationships requestedRelations alias
  = Some (Ok query).
Proof.
  simpl. generalize (relations entityMetadata) as l.
  induction l as [|r l IH]; intros Hall; [reflexivity|].
  destruct (Hall r (or_introl eq_refl)) as (relationship & Hfind & Heager & Hreq).
  simpl. unfold relationshipOf in Hfind. rewrite Hfind, Heager, Hreq. simpl.
  apply IH. intros r' Hr'. apply Hall. right. exact Hr'.
Qed.

(** X5: when a relation of the entity has no relationship manifest of its
    name, [loadRelations] does not return a query, whatever else is
    requested. *)
Theorem loadRelations_needs_every_manifest (fuel : nat)
    (query query' : SelectQueryBuilder Json) entityMetadata relationships
    requestedRelations alias relationMetadata :
  In relationMetadata (relations entityMetadata) ->
  relationshipOf relationships relationMetadata = None ->
  loadRelations fuel query entityMetadata relationships requestedRelations alias
  <> Some (Ok query').
Proof.
  intros Hin Hnone H. destruct fuel as [|fuel]; [discriminate|].
  simpl in H.
  destruct (forEachFuel_Ok_all _ _ _ _ H relationMetadata Hin) as (q1 & q2 & Hq).
  unfold relationshipOf in Hnone. rewrite Hnone in Hq. discriminate.
Qed.
End LoadRelationsShape.

(* ===================================================================== *)
(** ** Visible properties, continued *)
(* ===================================================================== *)

(** X6: the column of a name is selected exactly when the name is [id], or
    when it is not 'password' and a property of that name is shown to the
    caller: any such property for the full version, one that is not hidden
    otherwise. The id column comes first. *)
Theorem getVisibleProps_hidden_rule (props : list PropertyManifest)
    (alias name : string) (fullVersion : bool) :
  (In (CrudService.column alias name)
      (CrudService.getVisibleProps props alias fullVersion) <->
   name = "id" \/
   (name <> "password" /\
    exists prop, In prop props /\ prop_name prop = name /\
                 (fullVersion = true \/ prop_hidden prop = false))) /\
  head (CrudService.getVisibleProps props alias fullVersion)
  = Some (CrudService.column alias "id").
Proof.
  split; [|reflexivity]. rewrite getVisibleProps_In. split.
  - intros [H|(prop & Hin & Hc & Hname & Hshown)].
    + left. exact (column_inj _ _ _ H).
    + apply column_inj in Hc. subst name. right. split; [exact Hname|].
      exists prop. auto.
  - intros [->|(Hname & prop & Hin & <- & Hshown)]; [left; reflexivity|].
    right. exists prop. auto.
Qed.

(* ===================================================================== *)
(** ** Requested relations *)
(* ===================================================================== *)

Lemma startsWith_append (p s : string) : Js.startsWith p (p +:+ s) = true.
Proof.
  induction p as [|c p IH]; simpl; [reflexivity|].
  rewrite Ascii.eqb_refl. exact IH.
Qed.

Lemma drop_append (p s : string) : Js.drop (String.length p) (p +:+ s) = s.
Proof. induction p as [|c p IH]; simpl; [destruct s; reflexivity|exact IH]. Qed.

(** Removing a prefix leaves the rest. *)
Lemma removeFirst_prefix (p s : string) : Js.removeFirst p (p +:+ s) = s.
Proof.
  destruct p as [|c p]; [destruct s; reflexivity|].
  change (Js.removeFirst (String c p) (String c p +:+ s))
    with (if Js.startsWith (String c p) (String c p +:+ s)
          then Js.drop (String.length (String c p)) (String c p +:+ s)
          else String c (Js.removeFirst (String c p) (p +:+ s))).
  rewrite startsWith_append. apply drop_append.
Qed.

(** A string without the pattern is left as it is. *)
Lemma removeFirst_absent (p s : string) :
  Js.includes p s = false -> Js.removeFirst p s = s.
Proof.
  induction s as [|c s IH]; intros H.
  - simpl in H |- *. apply orb_false_iff in H as [H _]. rewrite H. reflexivity.
  - simpl in H. apply orb_false_iff in H as [Hstart Hrest].
    change (Js.removeFirst p (String c s))
      with (if Js.startsWith p (String c s)
            then Js.drop (String.length p) (String c s)
            else String c (Js.removeFirst p s)).
    rewrite Hstart, (IH Hrest). reflexivity.
Qed.

Lemma append_assoc (a b c : string) : (a +:+ b) +:+ c = a +:+ (b +:+ c).
Proof.
  induction a as [|x a IH]; [reflexivity|].
  change (String x ((a +:+ b) +:+ c) = String x (a +:+ (b +:+ c))).
  rewrite IH. reflexivity.
Qed.

Lemma append_empty_r (s : string) : s +:+ EmptyString = s.
Proof.
  induction s as [|x s IH]; [reflexivity|].
  change (String x (s +:+ EmptyString) = String x s). rewrite IH. reflexivity.
Qed.

Lemma append_not_self (s t : string) : t <> EmptyString -> s +:+ t <> s.
Proof.
  intros Ht. induction s as [|x s IH]; simpl; [exact Ht|].
  intros [= H]. exact (IH H).
Qed.

(** X7: what the recursive call is asked for. A requested path under the
    relation just joined is handed down without the name of that relation
    ([owner.company] becomes [company] under [owner]); and a request for
    another relation, which holds no [name.], is handed down as it is, so
    that a relation of the same name one level down is loaded too. *)
Theorem pruneRequested_hands_down (name : string) (requested : list string) :
  (forall rest, In (name +:+ "." +:+ rest) requested ->
     CrudService.isRequested rest
       (CrudService.pruneRequested name (Some requested)) = true) /\
  (forall other, In other requested -> other <> name ->
     Js.includes (name +:+ ".") other = false ->
     CrudService.isRequested other
       (CrudService.pruneRequested name (Some requested)) = true).
Proof.
  assert (Hmem : forall x l, In x l -> arrayIncludes x l = true).
  { intros x l Hx. apply existsb_exists. exists x. split; [exact Hx|apply String.eqb_refl]. }
  split.
  - intros rest Hin. simpl. apply Hmem. apply in_map_iff.
    exists (name +:+ "." +:+ rest). split.
    + replace (name +:+ "." +:+ rest) with ((name +:+ ".") +:+ rest)
        by apply append_assoc.
      apply removeFirst_prefix.
    + apply filter_In. split; [exact Hin|].
      apply negb_true_iff, String.eqb_neq. apply append_not_self. discriminate.
  - intros other Hin Hne Hfree. simpl. apply Hmem. apply in_map_iff.
    exists other. split; [apply removeFirst_absent; exact Hfree|].
    apply filter_In. split; [exact Hin|].
    apply negb_true_iff, String.eqb_neq. exact Hne.
Qed.

(** Requesting [owner] and [friends] on cats hands [friends] down to the
    owner. *)
Lemma pruneRequested_hands_down_witness :
  CrudService.isRequested "friends"
    (CrudService.pruneRequested "owner" (Some ["owner"; "friends"])) = true.
Proof.
  apply (proj2 (pruneRequested_hands_down "owner" ["owner"; "friends"]) "friends").
  - right. left. reflexivity.
  - discriminate.
  - reflexivity.
Defined.

(* ===================================================================== *)
(** ** Ordering and filters, continued *)
(* ===================================================================== *)

(** The order is descending only for the very string [DESC]. *)
Lemma order_is_DESC (order : option QueryValue) :
  match order with
  | Some (QString "DESC") => DESC
  | _ => ASC
  end = DESC <-> order = Some (QString "DESC").
Proof.
  split; [|intros ->; reflexivity].
  destruct order as [[s|l]|]; try discriminate.
  destruct s as [|[[|] [|] [|] [|] [|] [|] [|] [|]] s]; try discriminate.
  destruct s as [|[[|] [|] [|] [|] [|] [|] [|] [|]] s]; try discriminate.
  destruct s as [|[[|] [|] [|] [|] [|] [|] [|] [|]] s]; try discriminate.
  destruct s as [|[[|] [|] [|] [|] [|] [|] [|] [|]] s]; try discriminate.
  destruct s; [reflexivity|discriminate].
Qed.

Lemma forEach_Ok_all {A S : Type} (f : S -> A -> res S) (l : list A) :
  forall s s', forEach f l s = Ok s' ->
  forall a, In a l -> exists s1 s2, f s1 a = Ok s2.
Proof.
  induction l as [|a l IH]; intros s s' H b Hb; [destruct Hb|].
  simpl in H. destruct (f s a) as [s1|] eqn:E; [|discriminate]. simpl in H.
  destruct Hb as [<-|Hb]; [exists s, s1; exact E|]. exact (IH _ _ H b Hb).
Qed.

Lemma filter_nothing {A : Type} (f : A -> bool) (l : list A) :
  (forall a, In a l -> f a = false) -> List.filter f l = [].
Proof.
  induction l as [|a l IH]; intros H; [reflexivity|]. simpl.
  rewrite (H a (or_introl eq_refl)). apply IH. intros b Hb. apply H. right. exact Hb.
Qed.

Section OrderingAndFilters.
Context {Json : Type}.
Variable JSON_parse : string -> res Json.
Variable camelize : list string -> string.

Local Abbreviation filterEntry := (CrudService.filterEntry JSON_parse camelize).
Local Abbreviation filterQuery := (CrudService.filterQuery JSON_parse camelize).

(** X8: how [findAll] orders. Without [orderBy] (or with an empty one) the
    order is by id, descending. An [orderBy] that names a property which is
    not hidden orders by that property, descending only when [order] is
    the very string [DESC]. An [orderBy] that names no such property, or
    that is repeated in the query string (an array), is a bad request. *)
Theorem applyOrdering_cases (entitySlug : string) (entityManifest : EntityManifest)
    (queryParams : option QueryParams) (query : SelectQueryBuilder Json) :
  (truthy (queryParams ≫= param "orderBy") = false ->
   CrudService.applyOrdering entitySlug entityManifest queryParams query
   = Ok (QB.orderBy "entity.id" DESC query)) /\
  (forall l, queryParams ≫= param "orderBy" = Some (QArray l) ->
   exists message,
     CrudService.applyOrdering entitySlug entityManifest queryParams query
     = Throw (BadRequest message)) /\
  (forall s, queryParams ≫= param "orderBy" = Some (QString s) -> s <> "" ->
   ((exists prop, In prop (properties entityManifest) /\
                  prop_name prop = s /\ prop_hidden prop = false) ->
    exists order,
      CrudService.applyOrdering entitySlug entityManifest queryParams query
      = Ok (QB.orderBy (CrudService.column "entity" s) order query) /\
      (order = DESC <-> queryParams ≫= param "order" = Some (QString "DESC")) /\
      (order = ASC <-> queryParams ≫= param "order" <> Some (QString "DESC"))) /\
   ((forall prop, In prop (properties entityManifest) ->
                  prop_name prop = s -> prop_hidden prop = true) ->
    exists message,
      CrudService.applyOrdering entitySlug entityManifest queryParams query
      = Throw (BadRequest message))).
Proof.
  unfold CrudService.applyOrdering. split; [|split].
  - intros ->. reflexivity.
  - intros l ->. simpl.
    destruct (find _ (properties entityManifest)) as [prop|] eqn:E;
      [|eexists; reflexivity].
    apply find_some in E as [_ E]. discriminate.
  - intros s -> Hs.
    assert (Htruthy : truthy (Some (QString s)) = true).
    { simpl. apply negb_true_iff, String.eqb_neq. exact Hs. }
    rewrite Htruthy. split.
    + intros (prop & Hin & Hname & Hhidden).
      destruct (find _ (properties entityManifest)) as [found|] eqn:E.
      * eexists. split; [reflexivity|]. split; [apply order_is_DESC|].
        rewrite <- order_is_DESC.
        destruct (match queryParams ≫= param "order" with
                  | Some (QString "DESC") => DESC
                  | _ => ASC
                  end); split; congruence.
      * apply (find_none _ _ E) in Hin. rewrite Hname, String.eqb_refl, Hhidden in Hin.
        discriminate.
    + intros Hnone.
      destruct (find _ (properties entityManifest)) as [found|] eqn:E;
        [|eexists; reflexivity].
      apply find_some in E as [Hin E]. apply andb_true_iff in E as [Hname Hvis].
      apply String.eqb_eq in Hname. rewrite (Hnone found Hin Hname) in Hvis.
      discriminate.
Qed.

(** An entry that passes changes the conditions and the parameters only. *)
Lemma filterEntry_shape entityManifest (q q' : SelectQueryBuilder Json) entry :
  filterEntry entityManifest q entry = Ok q' ->
  selects q' = selects q /\ joins q' = joins q /\
  orderBys q' = orderBys q /\ mainAlias q' = mainAlias q.
Proof.
  destruct entry as [key value]. unfold CrudService.filterEntry.
  destruct (CrudService.findSuffix key) as [suffix|]; [|discriminate].
  destruct (CrudService.isIn _) eqn:Ein.
  - destruct (find _ (properties entityManifest)),
             (find _ (relationships entityManifest)); try discriminate;
      (destruct (JSON_parse _); simpl; [|discriminate]);
      intros [= <-]; repeat split; reflexivity.
  - destruct (find _ (properties entityManifest)),
             (find _ (relationships entityManifest)); try discriminate;
      intros [= <-]; repeat split; reflexivity.
Qed.

Lemma filterQuery_joins entityManifest (query query' : SelectQueryBuilder Json)
    queryParams :
  filterQuery query queryParams entityManifest = Ok query' ->
  joins query' = joins query.
Proof.
  unfold CrudService.filterQuery.
  apply (forEach_invariant (fun q => joins q = joins query)); [|reflexivity].
  intros q entry q' H Hentry.
  apply filterEntry_shape in Hentry as (_ & E2 & _). congruence.
Qed.

(** X9: filtering changes neither the selected columns, nor the joins, nor
    the ordering of the query. *)
Theorem filterQuery_keeps_shape entityManifest (query query' : SelectQueryBuilder Json)
    queryParams :
  filterQuery query queryParams entityManifest = Ok query' ->
  selects query' = selects query /\ joins query' = joins query /\
  orderBys query' = orderBys query /\ mainAlias query' = mainAlias query.
Proof.
  unfold CrudService.filterQuery.
  apply (forEach_invariant
           (fun q => selects q = selects query /\ joins q = joins query /\
                     orderBys q = orderBys query /\ mainAlias q = mainAlias query));
    [|repeat split; reflexivity].
  intros q entry q' (H1 & H2 & H3 & H4) Hentry.
  apply filterEntry_shape in Hentry as (E1 & E2 & E3 & E4).
  repeat split; congruence.
Qed.

(** X10: query parameters that are all reserved words (page, perPage,
    orderBy, order, relations), or that are omitted, filter nothing: the
    query is returned as it was. *)
Theorem filterQuery_reserved_only entityManifest (query : SelectQueryBuilder Json)
    (queryParams : option QueryParams) :
  (forall key value, In (key, value) (default [] queryParams) ->
     In key QUERY_PARAMS_RESERVED_WORDS) ->
  filterQuery query queryParams entityManifest = Ok query.
Proof.
  intros Hall. unfold CrudService.filterQuery.
  rewrite filter_nothing; [reflexivity|].
  intros [key value] Hin. simpl fst. apply negb_false_iff.
  apply existsb_exists. exists key. split; [|apply String.eqb_refl].
  exact (Hall key value Hin).
Qed.

(** X11: one key that is no reserved word and includes no operator suffix
    makes the whole request fail, wherever the key stands among the
    parameters. *)
Theorem filterQuery_needs_suffix entityManifest (query : SelectQueryBuilder Json)
    (queryParams : QueryParams) key value :
  In (key, value) queryParams ->
  ~ In key QUERY_PARAMS_RESERVED_WORDS ->
  CrudService.findSuffix key = None ->
  exists e, filterQuery query (Some queryParams) entityManifest = Throw e.
Proof.
  intros Hin Hfree Hsuffix.
  destruct (filterQuery query (Some queryParams) entityManifest) as [q'|e] eqn:E;
    [|exists e; reflexivity].
  unfold CrudService.filterQuery in E.
  destruct (forEach_Ok_all _ _ _ _ E (key, value)) as (q1 & q2 & Hq).
  - apply filter_In. split; [exact Hin|]. apply negb_true_iff. simpl fst.
    destruct (arrayIncludes key QUERY_PARAMS_RESERVED_WORDS) eqn:Ereserved;
      [|reflexivity].
    apply existsb_exists in Ereserved as (k & Hk & Heq).
    apply String.eqb_eq in Heq. subst k. contradiction.
  - unfold CrudService.filterEntry in Hq. rewrite Hsuffix in Hq. discriminate.
Qed.

(** X12: on a boolean property that is not hidden, the values [true] and
    [false] of a filter are bound as [1] and [0]; any other value is bound
    as it is. *)
Theorem filterEntry_boolean entityManifest (query query' : SelectQueryBuilder Json)
    key value suffix operator prop :
  CrudService.findSuffix key = Some suffix ->
  getRecordKeyByValue suffix = Some operator -> operator <> In_ ->
  find (fun prop => String.eqb (prop_name prop) (Js.removeFirst suffix key)
                    && negb (prop_hidden prop))
       (properties entityManifest) = Some prop ->
  prop_type prop = Boolean ->
  filterEntry entityManifest query (key, value) = Ok query' ->
  parameters query' !! "value"
  = Some (PValue (match value with
                  | QString s =>
                      if String.eqb s "true" then QString "1"
                      else if String.eqb s "false" then QString "0"
                      else value
                  | QArray _ => value
                  end)).
Proof.
  intros Hsuffix Hoperator Hnot Hprop Htype.
  unfold CrudService.filterEntry. rewrite Hsuffix, Hoperator, Hprop.
  assert (Hin : CrudService.isIn (Some operator) = false)
    by (destruct operator; try reflexivity; congruence).
  rewrite Hin. destruct prop as [pname ptype phidden]. simpl in Htype. subst ptype.
  assert (Hvalue : match value with
                   | QString "true" => QString "1"
                   | QString "false" => QString "0"
                   | _ => value
                   end
                   = match value with
                     | QString s =>
                         if String.eqb s "true" then QString "1"
                         else if String.eqb s "false" then QString "0"
                         else value
                     | QArray _ => value
                     end).
  { destruct value as [s|l]; [|reflexivity].
    destruct (String.eqb_spec s "true") as [->|Htrue]; [reflexivity|].
    destruct (String.eqb_spec s "false") as [->|Hfalse]; [reflexivity|].
    destruct s as [|[[|] [|] [|] [|] [|] [|] [|] [|]] s]; try reflexivity;
    destruct s as [|[[|] [|] [|] [|] [|] [|] [|] [|]] s]; try reflexivity;
    destruct s as [|[[|] [|] [|] [|] [|] [|] [|] [|]] s]; try reflexivity;
    destruct s as [|[[|] [|] [|] [|] [|] [|] [|] [|]] s]; try reflexivity;
    try (destruct s as [|[[|] [|] [|] [|] [|] [|] [|] [|]] s]; try reflexivity;
         try congruence);
    destruct s; try reflexivity; congruence. }
  destruct (find _ (relationships entityManifest));
    intros [= <-]; simpl; rewrite lookup_insert_eq, Hvalue; reflexivity.
Qed.
End OrderingAndFilters.

(* ===================================================================== *)
(** ** Objects given by their entries *)
(* ===================================================================== *)

(** Reading the key just written gives the value written. *)
Lemma entry_assign_eq {V : Type} (key : string) (v : V) (q : list (string * V)) :
  entry key (assign key v q) = Some v.
Proof.
  induction q as [|[k x] q IH]; simpl; [rewrite String.eqb_refl; reflexivity|].
  destruct (String.eqb k key) eqn:E; simpl; rewrite E; [reflexivity|exact IH].
Qed.

(** Reading another key gives what it gave before. *)
Lemma entry_assign_ne {V : Type} (key key' : string) (v : V) (q : list (string * V)) :
  key <> key' -> entry key' (assign key v q) = entry key' q.
Proof.
  intros Hne. induction q as [|[k x] q IH]; simpl.
  - apply String.eqb_neq in Hne. rewrite Hne. reflexivity.
  - destruct (String.eqb k key) eqn:E; simpl.
    + apply String.eqb_eq in E. subst k. apply String.eqb_neq in Hne.
      rewrite Hne. reflexivity.
    + destruct (String.eqb k key'); [reflexivity|exact IH].
Qed.

Lemma param_entry (key : string) (q : QueryParams) : param key q = entry key q.
Proof.
  induction q as [|[k x] q IH]; simpl; [reflexivity|].
  destruct (String.eqb k key); [reflexivity|exact IH].
Qed.

(* ===================================================================== *)
(** ** findOne and findSelectOptions *)
(* ===================================================================== *)

Section ReadMoreFacts.
Context {Json Value Paginator : Type}.
Variable JSON_parse : string -> res Json.
Variable camelize : list string -> string.
Variable getEntityManifest : string -> bool -> res EntityManifest.
Variable getEntityManifestByClassName : string -> res EntityManifest.
Variable getEntityMetadata : string -> res EntityMetadata.
Variable DEFAULT_RESULTS_PER_PAGE : Z.
Variable numberValue : Z -> Json.
Variable getOne :
  Database Value -> SelectQueryBuilder Json -> res (option (BaseEntity Value)).
Variable paginate : Database Value -> PaginateArgs Json -> res Paginator.
Variable data : Paginator -> list (BaseEntity Value).

Local Abbreviation findOneQuery :=
  (CrudServiceRead.findOneQuery camelize getEntityManifest
     getEntityManifestByClassName getEntityMetadata numberValue).
Local Abbreviation findAllArgs :=
  (CrudService.findAll JSON_parse camelize getEntityManifest
     getEntityManifestByClassName getEntityMetadata DEFAULT_RESULTS_PER_PAGE).
Local Abbreviation findSelectOptions :=
  (CrudServiceRead.findSelectOptions JSON_parse camelize getEntityManifest
     getEntityManifestByClassName getEntityMetadata DEFAULT_RESULTS_PER_PAGE
     paginate data).

(** X13: the query that [findOne] executes holds one condition, the one on
    the id, bound to the id asked for, and no ordering, whatever the query
    parameters are: filters are not applied to a single item. Its selected
    columns start with the visible properties of the entity. *)
Theorem findOne_only_id_condition fuel entitySlug id queryParams fullVersion
    (query : SelectQueryBuilder Json) :
  findOneQuery fuel entitySlug id queryParams fullVersion = Some (Ok query) ->
  exists entityManifest,
    getEntityManifest entitySlug fullVersion = Ok entityManifest /\
    wheres query = ["entity.id = :id"] /\
    parameters query = {[ "id" := PJson (numberValue id) ]} /\
    orderBys query = [] /\
    exists cols,
      selects query
      = CrudService.getVisibleProps (properties entityManifest) "entity" fullVersion
        ++ cols.
Proof.
  unfold CrudServiceRead.findOneQuery.
  destruct (getEntityManifest entitySlug fullVersion) as [em|]; [|discriminate].
  destruct (getEntityMetadata (className em)) as [md|]; [|discriminate].
  intros H. apply loadRelations_extends in H as (cols & joined & ->).
  exists em. split; [reflexivity|]. split; [reflexivity|].
  split; [reflexivity|]. split; [reflexivity|].
  exists cols. reflexivity.
Qed.

Lemma applyOrdering_joins entitySlug entityManifest queryParams
    (query query' : SelectQueryBuilder Json) :
  CrudService.applyOrdering entitySlug entityManifest queryParams query = Ok query' ->
  joins query' = joins query.
Proof.
  unfold CrudService.applyOrdering.
  destruct (truthy _); [destruct (find _ _); [|discriminate]|];
    intros [= <-]; reflexivity.
Qed.

(** X14: a single item is hydrated like the items of a list: for the same
    query parameters, the query of [findOne] and the query that [findAll]
    hands to pagination select the same columns and make the same joins. *)
Theorem findOne_hydrates_like_findAll fuel entitySlug id (queryParams : QueryParams)
    fullVersion (one : SelectQueryBuilder Json) a :
  findOneQuery fuel entitySlug id (Some queryParams) fullVersion = Some (Ok one) ->
  findAllArgs fuel entitySlug (Some queryParams) fullVersion = Some (Ok a) ->
  selects (query a) = selects one /\ joins (query a) = joins one.
Proof.
  unfold CrudServiceRead.findOneQuery, CrudService.findAll.
  destruct (getEntityManifest entitySlug fullVersion) as [em|]; [|discriminate].
  destruct (getEntityMetadata (className em)) as [md|]; [|discriminate].
  destruct (loadRelations_delta (Json := Json) camelize getEntityManifestByClassName
              getEntityMetadata fuel md (relationships em)
              ((fun v => Js.split "," (toString v))
                 <$> (Some queryParams ≫= param "relations")) "entity")
    as [delta Hdelta].
  rewrite !Hdelta. destruct delta as [[[cols joined]|e]|]; try discriminate.
  simpl applyDelta. intros [= <-].
  destruct (CrudService.filterQuery _ _ _ _ _) as [q1|] eqn:Efilter; [|discriminate].
  pose proof (filterQuery_joins _ _ _ _ _ _ Efilter) as Hj1.
  pose proof (filterQuery_selects _ _ _ _ _ _ Efilter) as Hs1. simpl.
  destruct (CrudService.applyOrdering entitySlug em (Some queryParams) q1)
    as [q2|] eqn:Eorder; [|discriminate].
  pose proof (applyOrdering_selects _ _ _ _ _ Eorder) as Hs2.
  pose proof (applyOrdering_joins _ _ _ _ _ Eorder) as Hj2.
  simpl. intros [= <-]. simpl. rewrite Hs2, Hj2, Hs1, Hj1. split; reflexivity.
Qed.

(** X15: [findSelectOptions] asks for all items at once. Whatever the query
    parameters it is given, omitted ones included, the list read that it
    makes gets defined parameters, a page size of -1 and the page number
    of the caller; its options are the id and the main property of each
    item of the page. *)
Theorem findSelectOptions_asks_for_all fuel db entitySlug queryParams options :
  findSelectOptions fuel db entitySlug queryParams = Some (Ok options) ->
  exists a page entityManifest,
    findAllArgs fuel entitySlug
      (Some (CrudServiceRead.selectOptionsParams queryParams)) false = Some (Ok a) /\
    resultsPerPage a = -1 /\
    currentPage a
    = Js.orDefault (Js.parseInt (toStringU (queryParams ≫= param "page"))) 1 /\
    paginate db a = Ok page /\
    getEntityManifest entitySlug false = Ok entityManifest /\
    options = map (fun item => {| option_id := item !! "id";
                                  option_label := item !! mainProp entityManifest |})
                  (data page).
Proof.
  unfold CrudServiceRead.findSelectOptions, CrudServiceRead.findAll.
  destruct (findAllArgs fuel entitySlug _ false) as [[a|]|] eqn:Eall; try discriminate.
  simpl. destruct (paginate db a) as [page|] eqn:Epage; [|discriminate].
  destruct (getEntityManifest entitySlug false) as [em|] eqn:Eem; [|discriminate].
  simpl. intros [= <-]. exists a, page, em.
  split; [reflexivity|].
  destruct (findAll_Ok_inv _ _ _ _ _ _ _ _ _ _ _ Eall) as [q Hq].
  simpl in Hq. injection Hq as Ha.
  unfold CrudServiceRead.selectOptionsParams in Ha.
  rewrite !param_entry, entry_assign_eq, entry_assign_ne in Ha by discriminate.
  split; [rewrite <- Ha; reflexivity|]. split.
  - rewrite <- Ha. simpl.
    destruct queryParams as [qp|]; simpl; [rewrite param_entry|]; reflexivity.
  - split; [exact Epage|]. split; reflexivity.
Qed.
End ReadMoreFacts.

(* ===================================================================== *)
(** ** Single entities *)
(* ===================================================================== *)

Section SingleFacts.
Context {Json Value Request : Type}.
Variable camelize : list string -> string.
Variable getEntityManifest : string -> bool -> res EntityManifest.
Variable getEntityManifestByClassName : string -> res EntityManifest.
Variable getEntityMetadata : string -> res EntityMetadata.
Variable numberValue : Z -> Json.
Variable getOne :
  Database Value -> SelectQueryBuilder Json -> res (option (BaseEntity Value)).
Variable getEntityRepository : string -> res unit.
Variable save :
  Database Value -> string -> BaseEntity Value ->
  Database Value * res (BaseEntity Value).
Variable isReqUserAdmin : Request -> res bool.

Local Abbreviation findOneQuery :=
  (CrudServiceRead.findOneQuery camelize getEntityManifest
     getEntityManifestByClassName getEntityMetadata numberValue).
Local Abbreviation crudFindOne :=
  (CrudServiceRead.findOne camelize getEntityManifest
     getEntityManifestByClassName getEntityMetadata numberValue getOne).
Local Abbreviation singleFindOne :=
  (SingleController.findOne camelize getEntityManifest
     getEntityManifestByClassName getEntityMetadata numberValue getOne
     getEntityRepository save isReqUserAdmin).

(** X16: GET on a single entity. When the item of id 1 exists it is
    returned and nothing is written. When it does not, the empty item is
    saved, without any validation, and what [save] returns is returned.
    When reading throws anything but a not-found exception, the exception
    is swallowed: nothing is written and [undefined] is returned. *)
Theorem single_findOne_cases fuel (db : Database Value) entitySlug req isAdmin :
  isReqUserAdmin req = Ok isAdmin ->
  (forall q item,
     findOneQuery fuel entitySlug 1 None isAdmin = Some (Ok q) ->
     getOne db q = Ok (Some item) ->
     singleFindOne fuel db entitySlug req = Some (db, Ok (Some item))) /\
  (forall q db' r,
     findOneQuery fuel entitySlug 1 None isAdmin = Some (Ok q) ->
     getOne db q = Ok None ->
     getEntityRepository entitySlug = Ok tt ->
     save db entitySlug ∅ = (db', r) ->
     singleFindOne fuel db entitySlug req
     = Some (db', let! singleItem := r in Ok (Some singleItem))) /\
  (forall e,
     crudFindOne fuel db entitySlug 1 None isAdmin = Some (Throw e) ->
     (forall message, e <> NotFoundException message) ->
     singleFindOne fuel db entitySlug req = Some (db, Ok None)).
Proof.
  intros Hadmin. unfold SingleController.findOne. rewrite Hadmin.
  split; [|split].
  - intros q item Hq Hone. unfold CrudServiceRead.findOne.
    rewrite Hq, Hone. reflexivity.
  - intros q db' r Hq Hone Hrepo Hsave. unfold CrudServiceRead.findOne.
    rewrite Hq, Hone. simpl. unfold CrudServiceUpdate.storeEmpty.
    rewrite Hrepo, Hsave. reflexivity.
  - intros e He Hnot. rewrite He.
    destruct e; try reflexivity. destruct (Hnot message eq_refl).
Qed.
End SingleFacts.

(* ===================================================================== *)
(** ** The write path, continued *)
(* ===================================================================== *)

Section WriteMoreFacts.
Context {Value : Type}.
Variable related : Database Value -> string -> Z -> string -> list (BaseEntity Value).
Variable getEntityRepository : string -> res unit.
Variable getEntityManifest : string -> bool -> res EntityManifest.
Variable fetchRelationItemsFromDto :
  Database Value -> BaseEntity Value -> list RelationshipManifest ->
  res (BaseEntity Value).
Variable validate : BaseEntity Value -> EntityManifest -> list ValidationError.
Variable validateUpdate : BaseEntity Value -> EntityManifest -> list ValidationError.
Variable SHA3 : option Value -> Value.
Variable isTruthy : option Value -> bool.
Variable create : BaseEntity Value -> BaseEntity Value.
Variable save :
  Database Value -> string -> BaseEntity Value ->
  Database Value * res (BaseEntity Value).

Local Abbreviation candidate :=
  (CrudServiceWrite.candidate getEntityRepository getEntityManifest
     fetchRelationItemsFromDto SHA3 isTruthy create).
Local Abbreviation updated :=
  (CrudServiceUpdate.updated related getEntityRepository getEntityManifest
     fetchRelationItemsFromDto SHA3 isTruthy create).
Local Abbreviation update :=
  (CrudServiceUpdate.update related getEntityRepository getEntityManifest
     fetchRelationItemsFromDto validateUpdate SHA3 isTruthy create save).
Local Abbreviation delete :=
  (CrudServiceWrite.delete related getEntityRepository getEntityManifest).

(** X17: the password that [store] validates and saves. For an
    authenticable entity whose DTO brings a password, it is the hash of the
    password of the created item; otherwise the created item is taken as
    it is, so that nothing is hashed for an entity that is not
    authenticable. No other field is touched. *)
Theorem store_hashes_password (db : Database Value) entitySlug
    (itemDto : BaseEntity Value) entityManifest newItem relationItems :
  candidate db entitySlug itemDto = Ok (entityManifest, newItem, relationItems) ->
  (authenticable entityManifest = true ->
   isTruthy (itemDto !! "password") = true ->
   newItem !! "password" = Some (SHA3 (create itemDto !! "password"))) /\
  (authenticable entityManifest = false \/ isTruthy (itemDto !! "password") = false ->
   newItem = create itemDto) /\
  (forall key, key <> "password" -> newItem !! key = create itemDto !! key).
Proof.
  unfold CrudServiceWrite.candidate.
  destruct (getEntityRepository entitySlug); [|discriminate]. simpl.
  destruct (getEntityManifest entitySlug true) as [em|]; [|discriminate]. simpl.
  destruct (fetchRelationItemsFromDto _ _ _); [|discriminate]. simpl.
  intros [= <- <- <-].
  destruct (authenticable em), (isTruthy (itemDto !! "password")); simpl;
    (split; [|split]); try discriminate; try (intros; reflexivity);
    try (intros [|]; discriminate).
  - intros _ _. apply lookup_insert_eq.
  - intros key Hkey. apply lookup_insert_ne. congruence.
Qed.

(** X18: the password that [update] validates and saves, for an
    authenticable entity. When the DTO brings a password the item carries
    its hash; when it brings none the item carries no password at all, so
    that the stored one is not overwritten. No other field of the merged
    item is touched, and for an entity that is not authenticable none is. *)
Theorem update_password_rule (db : Database Value) entitySlug id
    (itemDto : BaseEntity Value) entityManifest updatedItem relationItems :
  updated db entitySlug id itemDto = Ok (entityManifest, updatedItem, relationItems) ->
  exists table item,
    db !! entitySlug = Some table /\ table !! id = Some item /\
    (authenticable entityManifest = true ->
     isTruthy (itemDto !! "password") = true ->
     updatedItem !! "password"
     = Some (SHA3 (create (itemDto ∪ item) !! "password"))) /\
    (authenticable entityManifest = true ->
     isTruthy (itemDto !! "password") = false ->
     updatedItem !! "password" = None) /\
    (authenticable entityManifest = false ->
     updatedItem = create (itemDto ∪ item)) /\
    (forall key, key <> "password" ->
                 updatedItem !! key = create (itemDto ∪ item) !! key).
Proof.
  unfold CrudServiceUpdate.updated.
  destruct (getEntityManifest entitySlug true) as [em|]; [|discriminate]. simpl.
  destruct (getEntityRepository entitySlug); [|discriminate]. simpl.
  destruct (fetchRelationItemsFromDto _ _ _); [|discriminate]. simpl.
  unfold Repository.findOne.
  destruct (db !! entitySlug) as [table|] eqn:Etable; [|discriminate]. simpl.
  destruct (table !! id) as [item|] eqn:Eitem; [|discriminate]. simpl.
  intros [= <- <- <-]. exists table, item.
  split; [reflexivity|]. split; [exact Eitem|].
  unfold CrudServiceUpdate.updatePassword.
  destruct (authenticable em), (isTruthy (itemDto !! "password")); simpl;
    repeat split; try discriminate; try (intros; reflexivity).
  - intros _ _. apply lookup_insert_eq.
  - intros key Hkey. apply lookup_insert_ne. congruence.
  - intros _ _. apply lookup_delete_eq.
  - intros key Hkey. apply lookup_delete_ne. congruence.
Qed.

(** X19: [update] on an id that has no row writes nothing and throws; once
    the manifest, the repository and the relation items of the DTO are
    resolved, what it throws is the not-found exception. *)
Theorem update_missing_item (db : Database Value) entitySlug id
    (itemDto : BaseEntity Value) :
  (db !! entitySlug ≫= fun table => table !! id) = None ->
  (exists e, update db entitySlug id itemDto = (db, Throw e)) /\
  (forall entityManifest relationItems,
     getEntityManifest entitySlug true = Ok entityManifest ->
     getEntityRepository entitySlug = Ok tt ->
     fetchRelationItemsFromDto db itemDto
       (CrudServiceWrite.attachable (relationships entityManifest))
     = Ok relationItems ->
     update db entitySlug id itemDto
     = (db, Throw (NotFoundException "Item not found"))).
Proof.
  intros Hnone.
  assert (Hfind : Repository.findOne related db entitySlug id [] = None).
  { unfold Repository.findOne.
    destruct (db !! entitySlug) as [table|]; [|reflexivity]. simpl in *.
    rewrite Hnone. reflexivity. }
  unfold CrudServiceUpdate.update, CrudServiceUpdate.updated. rewrite Hfind. split.
  - destruct (getEntityManifest entitySlug true); [|eexists; reflexivity]. simpl.
    destruct (getEntityRepository entitySlug); [|eexists; reflexivity]. simpl.
    destruct (fetchRelationItemsFromDto _ _ _); eexists; reflexivity.
  - intros em rels Hmanifest Hrepo Hfetch.
    rewrite Hmanifest. simpl. rewrite Hrepo. simpl. rewrite Hfetch. reflexivity.
Qed.

(** X20: [update] validates the updated item before any write. When the
    validator reports an error, the bad-request error with the list of
    errors is thrown and the database is left as it was; when it reports
    none, the outcome is the outcome of saving. A change of the database
    comes from [save] after a validation without errors. *)
Theorem update_validates_before_saving (db : Database Value) entitySlug id
    (itemDto : BaseEntity Value) entityManifest updatedItem relationItems :
  updated db entitySlug id itemDto = Ok (entityManifest, updatedItem, relationItems) ->
  (validateUpdate updatedItem entityManifest <> [] ->
   update db entitySlug id itemDto
   = (db, Throw (BadRequestErrors (validateUpdate updatedItem entityManifest)))) /\
  (validateUpdate updatedItem entityManifest = [] ->
   update db entitySlug id itemDto
   = save db entitySlug (relationItems ∪ updatedItem)) /\
  (fst (update db entitySlug id itemDto) <> db ->
   validateUpdate updatedItem entityManifest = [] /\
   fst (update db entitySlug id itemDto)
   = fst (save db entitySlug (relationItems ∪ updatedItem))).
Proof.
  intros Hupdated. unfold CrudServiceUpdate.update. rewrite Hupdated.
  destruct (validateUpdate updatedItem entityManifest) as [|e errors].
  - split; [congruence|]. split; [reflexivity|]. intros _. split; reflexivity.
  - split; [reflexivity|]. split; [discriminate|]. simpl. congruence.
Qed.

(** X21: [delete] on an id that has no row writes nothing and, once the
    repository and the manifest are resolved, throws the not-found
    exception, whatever one-to-many relationships the entity has. *)
Theorem delete_missing_item (db : Database Value) entitySlug id entityManifest :
  getEntityRepository entitySlug = Ok tt ->
  getEntityManifest entitySlug false = Ok entityManifest ->
  (db !! entitySlug ≫= fun table => table !! id) = None ->
  delete db entitySlug id = (db, Throw (NotFoundException "Item not found")).
Proof.
  intros Hrepo Hmanifest Hnone. unfold CrudServiceWrite.delete.
  rewrite Hrepo, Hmanifest. unfold Repository.findOne.
  destruct (db !! entitySlug) as [table|]; [|reflexivity]. simpl in *.
  rewrite Hnone. reflexivity.
Qed.
End WriteMoreFacts.

(* ===================================================================== *)
(** ** Is the database empty *)
(* ===================================================================== *)

(** A sum of counts, none negative, is zero when all are. *)
Lemma sum_counts_zero (counts : list Z) (start : Z) :
  0 <= start -> (forall count, In count counts -> 0 <= count) ->
  (fold_left (fun acc count => acc + count) counts start = 0 <->
   start = 0 /\ forall count, In count counts -> count = 0) /\
  0 <= fold_left (fun acc count => acc + count) counts start.
Proof.
  revert start. induction counts as [|c counts IH]; intros start Hstart Hall; simpl.
  - split; [|exact Hstart]. split; [intros ->; split; [reflexivity|intros ? []]|tauto].
  - assert (Hc : 0 <= c) by (apply Hall; left; reflexivity).
    destruct (IH (start + c)) as [Hiff Hpos];
      [lia|intros x Hx; apply Hall; right; exact Hx|].
    split; [|exact Hpos]. rewrite Hiff. split.
    + intros [Hsum Hrest]. split; [lia|]. intros x [<-|Hx]; [lia|auto].
    + intros [-> Hrest]. split; [rewrite (Hrest c); [reflexivity|left; reflexivity]|].
      intros x Hx. apply Hrest. right. exact Hx.
Qed.

Section IsDbEmptyFacts.
Context {Value : Type}.
Variable getEntityRepository : string -> res unit.
Variable ADMIN_ENTITY_MANIFEST : EntityManifest.

Local Abbreviation isDbEmpty :=
  (DatabaseService.isDbEmpty (Value := Value) getEntityRepository
     ADMIN_ENTITY_MANIFEST).

Lemma counts_all (db : Database Value) (entities : list EntityManifest) :
  (forall entityManifest, In entityManifest entities ->
     getEntityRepository (slug entityManifest) = Ok tt) ->
  DatabaseService.counts getEntityRepository db entities
  = Ok (map (fun entityManifest => DatabaseService.getCount db (slug entityManifest))
            entities).
Proof.
  induction entities as [|em entities IH]; intros Hall; [reflexivity|]. simpl.
  rewrite (Hall em) by (left; reflexivity). simpl.
  rewrite IH by (intros x Hx; apply Hall; right; exact Hx). reflexivity.
Qed.

(** X22: when the repository of every entity of the manifest and of the
    admin entity is found, [isDbEmpty] returns a boolean, and that boolean
    is true exactly when none of these entities has a row. *)
Theorem isDbEmpty_all_tables_empty (db : Database Value)
    (entities : list EntityManifest) :
  (forall entityManifest,
     In entityManifest (entities ++ [ADMIN_ENTITY_MANIFEST]) ->
     getEntityRepository (slug entityManifest) = Ok tt) ->
  exists empty,
    isDbEmpty db entities = Ok empty /\
    (empty = true <->
     forall entityManifest id,
       In entityManifest (entities ++ [ADMIN_ENTITY_MANIFEST]) ->
       (db !! slug entityManifest ≫= fun table => table !! id) = None).
Proof.
  intros Hall. unfold DatabaseService.isDbEmpty.
  rewrite (counts_all db _ Hall). simpl. eexists. split; [reflexivity|].
  rewrite Z.eqb_eq.
  destruct (sum_counts_zero
              (map (fun em => DatabaseService.getCount db (slug em))
                   (entities ++ [ADMIN_ENTITY_MANIFEST])) 0) as [Hiff _];
    [lia| |].
  { intros count Hcount. apply in_map_iff in Hcount as (em & <- & _).
    unfold DatabaseService.getCount. lia. }
  rewrite Hiff. split.
  - intros [_ Hzero] em id Hin.
    assert (Hcount : DatabaseService.getCount db (slug em) = 0)
      by (apply Hzero, in_map_iff; exists em; auto).
    unfold DatabaseService.getCount in Hcount.
    destruct (db !! slug em) as [table|]; [|reflexivity]. simpl in *.
    assert (size table = 0%nat) as Hsize by lia.
    apply map_size_empty_iff in Hsize. subst table. apply lookup_empty.
  - intros Hnone. split; [reflexivity|].
    intros count Hcount. apply in_map_iff in Hcount as (em & <- & Hin).
    unfold DatabaseService.getCount.
    destruct (db !! slug em) as [table|] eqn:Etable; simpl; [|reflexivity].
    assert (table = ∅) as ->; [|reflexivity].
    apply map_eq. intros id. rewrite lookup_empty.
    specialize (Hnone em id Hin). rewrite Etable in Hnone. exact Hnone.
Qed.
End IsDbEmptyFacts.

(* ===================================================================== *)
(** ** The schema of an entity, continued *)
(* ===================================================================== *)

Section SchemaMore.
Context {RelationOptions : Type}.
Variable baseEntity : gmap string EntitySchemaColumnOptions.
Variable baseAuthenticableEntity : gmap string EntitySchemaColumnOptions.
Variable getEntitySchemaRelationOptions : EntityManifest -> RelationOptions.

Local Abbreviation entitySchema :=
  (EntityLoaderService.entitySchema baseEntity baseAuthenticableEntity
     getEntitySchemaRelationOptions).
Local Abbreviation loadEntities :=
  (EntityLoaderService.loadEntities baseEntity baseAuthenticableEntity
     getEntitySchemaRelationOptions).

(** The column of a name comes from the last property of that name. *)
Lemma reduceColumns_last props1 prop props2 init :
  (forall other, In other props2 -> prop_name other <> prop_name prop) ->
  EntityLoaderService.reduceColumns (props1 ++ prop :: props2) init !! prop_name prop
  = Some (EntityLoaderService.propertyColumn prop).
Proof.
  intros Hlast. unfold EntityLoaderService.reduceColumns.
  rewrite fold_left_app. simpl.
  change (EntityLoaderService.reduceColumns props2
            (<[prop_name prop := EntityLoaderService.propertyColumn prop]>
               (EntityLoaderService.reduceColumns props1 init)) !! prop_name prop
          = Some (EntityLoaderService.propertyColumn prop)).
  rewrite reduceColumns_other by exact Hlast. apply lookup_insert_eq.
Qed.

(** X23: the columns of a schema are the columns of the base entity (the
    authenticable one for an authenticable entity) and the columns of the
    properties: a name that no property bears keeps the column of the base
    entity, if any, and a property overrides a base column of its name. *)
Theorem entitySchema_columns (entityManifest : EntityManifest) (name : string) :
  ((forall prop, In prop (properties entityManifest) -> prop_name prop <> name) ->
   columns (entitySchema entityManifest) !! name
   = (if authenticable entityManifest
      then baseAuthenticableEntity else baseEntity) !! name) /\
  ((exists prop, In prop (properties entityManifest) /\ prop_name prop = name) ->
   exists prop, In prop (properties entityManifest) /\ prop_name prop = name /\
     columns (entitySchema entityManifest) !! name
     = Some (EntityLoaderService.propertyColumn prop)).
Proof.
  split.
  - intros Hno. simpl. apply reduceColumns_other. exact Hno.
  - intros Hex. simpl. apply reduceColumns_property. exact Hex.
Qed.

(** X24: when several properties bear one name, the last one declared
    gives the column; the type of the column is the one that
    [propTypeColumnTypes] gives for the type of that property. *)
Theorem entitySchema_last_property_wins (entityManifest : EntityManifest)
    props1 prop props2 :
  properties entityManifest = props1 ++ prop :: props2 ->
  (forall other, In other props2 -> prop_name other <> prop_name prop) ->
  exists col,
    columns (entitySchema entityManifest) !! prop_name prop = Some col /\
    col_type col = propTypeColumnTypes (prop_type prop) /\
    col_name col = Some (prop_name prop) /\
    col_primary col = None /\ col_unique col = None.
Proof.
  intros Hprops Hlast. simpl. rewrite Hprops.
  rewrite (reduceColumns_last _ _ _ _ Hlast). eexists. split; [reflexivity|].
  repeat split.
Qed.

End SchemaMore.

(* ===================================================================== *)
(** ** The home page of the admin *)
(* ===================================================================== *)

(** X25: the home page splits the entities of the manifest in two: every
    entity is listed either among the collections or among the singles,
    never in both, and nothing else is listed. *)
Theorem home_splits_entities (entities : option (list EntityManifest))
    (entity : EntityManifest) :
  (In entity (default [] entities) <->
   In entity (HomeComponent.collections entities) \/
   In entity (HomeComponent.singles entities)) /\
  ~ (In entity (HomeComponent.collections entities) /\
     In entity (HomeComponent.singles entities)) /\
  (length (HomeComponent.collections entities)
   + length (HomeComponent.singles entities)
   = length (default [] entities))%nat.
Proof.
  unfold HomeComponent.collections, HomeComponent.singles.
  rewrite !filter_In. split; [|split].
  - destruct (single entity); simpl; tauto.
  - destruct (single entity); simpl; intros [[_ H1] [_ H2]]; discriminate.
  - induction (default [] entities) as [|e l IH]; [reflexivity|]. simpl.
    destruct (single e); simpl; lia.
Qed.

(* ===================================================================== *)
(** ** Keys with an operator suffix *)
(* ===================================================================== *)

Lemma includes_in_append (t p s : string) :
  Js.includes t s = true -> Js.includes t (p +:+ s) = true.
Proof.
  intros H. induction p as [|c p IH]; [exact H|].
  change (Js.includes t (String c (p +:+ s)) = true). apply includes_cons, IH.
Qed.

Lemma startsWith_includes (t s : string) :
  Js.startsWith t s = true -> Js.includes t s = true.
Proof. intros H. destruct s; simpl in *; rewrite H; reflexivity. Qed.

Lemma startsWith_extend (t a r : string) :
  Js.startsWith t a = true -> Js.startsWith t (a +:+ r) = true.
Proof.
  revert a. induction t as [|x t IH]; intros a H; [reflexivity|].
  destruct a as [|y a]; [discriminate|].
  change (Js.startsWith (String x t) (String y (a +:+ r)) = true).
  simpl in H |- *. destruct (Ascii.eqb x y); [|discriminate]. exact (IH a H).
Qed.

(** A pattern without the character [c] that starts a string does so before
    the first [c] of the string. *)
Lemma startsWith_before (c : ascii) (t a r : string) :
  lacks c t = true ->
  Js.startsWith t (a +:+ String c r) = true -> Js.startsWith t a = true.
Proof.
  revert a. induction t as [|x t IH]; intros a Ht H; [destruct a; reflexivity|].
  simpl in Ht. apply andb_true_iff in Ht as [Hx Ht].
  destruct a as [|y a].
  - simpl in H. apply negb_true_iff in Hx. rewrite Hx in H. discriminate.
  - change (Js.startsWith (String x t) (String y (a +:+ String c r)) = true) in H.
    simpl in H |- *. destruct (Ascii.eqb x y); [|discriminate]. exact (IH a Ht H).
Qed.

(** A string without the character [c] includes no pattern that starts
    with it. *)
Lemma includes_lacks (c : ascii) (t s : string) :
  lacks c s = true -> Js.includes (String c t) s = false.
Proof.
  induction s as [|x s IH]; intros Hs; [reflexivity|].
  simpl in Hs. apply andb_true_iff in Hs as [Hx Hs].
  simpl. rewrite (IH Hs). apply negb_true_iff in Hx.
  rewrite Ascii.eqb_sym, Hx. reflexivity.
Qed.

(** Where a pattern [c t] occurs in [p c s], when neither [t] nor [s] holds
    the character [c]: inside [p], or at the [c] between [p] and [s]. *)
Lemma includes_at_mark (c : ascii) (t p s : string) :
  lacks c t = true -> lacks c s = true ->
  Js.includes (String c t) (p +:+ String c s)
  = Js.includes (String c t) p || Js.startsWith t s.
Proof.
  intros Ht Hs. induction p as [|x p IH].
  - change (Js.includes (String c t) (String c s)
            = Js.includes (String c t) EmptyString || Js.startsWith t s).
    simpl. rewrite Ascii.eqb_refl, (includes_lacks c t s Hs).
    destruct (Js.startsWith t s); reflexivity.
  - change (Js.includes (String c t) (String x (p +:+ String c s))
            = Js.includes (String c t) (String x p) || Js.startsWith t s).
    simpl. rewrite IH.
    destruct (Ascii.eqb c x); simpl; [|reflexivity].
    destruct (Js.startsWith t (p +:+ String c s)) eqn:E.
    + rewrite (startsWith_before c t p s Ht E). reflexivity.
    + destruct (Js.startsWith t p) eqn:E'; [|reflexivity].
      rewrite (startsWith_extend t p (String c s) E') in E. discriminate.
Qed.

(** Removing a pattern [c t] from [p c t] removes the end, when [p] does
    not include the pattern and [t] does not hold [c]. *)
Lemma removeFirst_at_end (c : ascii) (t p : string) :
  lacks c t = true -> Js.includes (String c t) p = false ->
  Js.removeFirst (String c t) (p +:+ String c t) = p.
Proof.
  intros Ht. induction p as [|x p IH]; intros Hp.
  - pose proof (removeFirst_prefix (String c t) EmptyString) as H.
    rewrite append_empty_r in H. exact H.
  - simpl in Hp. apply orb_false_iff in Hp as [Hstart Hrest].
    change (Js.removeFirst (String c t) (String x (p +:+ String c t)) = String x p).
    change (Js.removeFirst (String c t) (String x (p +:+ String c t)))
      with (if Js.startsWith (String c t) (String x (p +:+ String c t))
            then Js.drop (String.length (String c t)) (String x (p +:+ String c t))
            else String x (Js.removeFirst (String c t) (p +:+ String c t))).
    assert (Hno : Js.startsWith (String c t) (String x (p +:+ String c t)) = false).
    { simpl. simpl in Hstart. destruct (Ascii.eqb c x); [|reflexivity].
      destruct (Js.startsWith t (p +:+ String c t)) eqn:E; [|reflexivity].
      rewrite (startsWith_before c t p t Ht E) in Hstart. discriminate. }
    rewrite Hno, (IH Hrest). reflexivity.
Qed.

(** The name of a property followed by the suffix of an operator is read
    back as that property and that operator, when the name itself includes
    no operator suffix. *)
Lemma built_key_decodes (operator : WhereOperator) (propName : string) :
  (forall t, In t WhereKeySuffix_values -> Js.includes t propName = false) ->
  CrudService.findSuffix (propName +:+ whereOperatorKeySuffix operator)
  = Some (whereOperatorKeySuffix operator) /\
  Js.removeFirst (whereOperatorKeySuffix operator)
    (propName +:+ whereOperatorKeySuffix operator) = propName /\
  getRecordKeyByValue (whereOperatorKeySuffix operator) = Some operator.
Proof.
  intros Hno.
  assert (Hin : Js.includes "_in" propName = false) by (apply Hno; vm_compute; tauto).
  assert (Hlike : Js.includes "_like" propName = false) by (apply Hno; vm_compute; tauto).
  assert (Hne : Js.includes "_ne" propName = false) by (apply Hno; vm_compute; tauto).
  assert (Hlte : Js.includes "_lte" propName = false) by (apply Hno; vm_compute; tauto).
  assert (Hlt : Js.includes "_lt" propName = false) by (apply Hno; vm_compute; tauto).
  assert (Hgte : Js.includes "_gte" propName = false) by (apply Hno; vm_compute; tauto).
  assert (Hgt : Js.includes "_gt" propName = false) by (apply Hno; vm_compute; tauto).
  assert (Heq : Js.includes "_eq" propName = false) by (apply Hno; vm_compute; tauto).
  split; [|split].
  - rewrite findSuffix_unfold.
    destruct operator; unfold whereOperatorKeySuffix;
      rewrite !(includes_at_mark "_") by reflexivity;
      rewrite ?Hin, ?Hlike, ?Hne, ?Hlte, ?Hlt, ?Hgte, ?Hgt, ?Heq; reflexivity.
  - destruct operator; unfold whereOperatorKeySuffix;
      apply (removeFirst_at_end "_"); solve [reflexivity | assumption].
  - destruct operator; reflexivity.
Qed.

Section SdkKeys.
Context {Json : Type}.
Variable JSON_parse : string -> res Json.
Variable camelize : list string -> string.

(** X26: what the server makes of a key that is the name of a property
    followed by the suffix of an operator, as the SDK builds it. For a
    property of the entity that is not hidden, whose name includes no
    operator suffix and is not taken for a relation path, and for any
    operator but [in], the filter is accepted and its condition is
    [entity.<property> <operator> :value], the operator printed as the
    SDK's where clause writes it. *)
Theorem filterEntry_of_suffixed_key entityManifest (query : SelectQueryBuilder Json)
    (operator : WhereOperator) (propName : string) (value : QueryValue) prop :
  (forall t, In t WhereKeySuffix_values -> Js.includes t propName = false) ->
  In prop (properties entityManifest) ->
  prop_name prop = propName -> prop_hidden prop = false ->
  (forall relationship, In relationship (relationships entityManifest) ->
     rel_name relationship <> default "" (head (Js.split "." propName))) ->
  operator <> In_ ->
  exists query' bound,
    CrudService.filterEntry JSON_parse camelize entityManifest query
      (propName +:+ whereOperatorKeySuffix operator, value) = Ok query' /\
    wheres query'
    = [CrudService.column "entity" propName +:+ " " +:+ operatorSymbol operator
       +:+ " :value"] /\
    parameters query' !! "value" = Some (PValue bound).
Proof.
  intros Hno Hin Hname Hhidden Hrel Hop.
  destruct (built_key_decodes operator propName Hno) as (Hsuffix & Hprop & Hkey).
  unfold CrudService.filterEntry. rewrite Hsuffix, Hprop, Hkey.
  destruct (find _ (properties entityManifest)) as [found|] eqn:Efound.
  2:{ apply (find_none _ _ Efound) in Hin.
      rewrite Hname, String.eqb_refl, Hhidden in Hin. discriminate. }
  destruct (find _ (relationships entityManifest)) as [relation|] eqn:Erel.
  { apply find_some in Erel as [Hr Heq]. apply String.eqb_eq in Heq.
    destruct (Hrel relation Hr Heq). }
  assert (Hnot : CrudService.isIn (Some operator) = false)
    by (destruct operator; try reflexivity; congruence).
  rewrite Hnot. eexists. eexists. split; [reflexivity|]. split; [reflexivity|].
  simpl. apply lookup_insert_eq.
Qed.
End SdkKeys.

(* ===================================================================== *)
(** ** Where clauses of the SDK *)
(* ===================================================================== *)

Lemma printable_cons (x : ascii) (s : string) :
  printable (String x s) = true ->
  Js.isWhiteSpace x = false /\ Ascii.eqb x " " = false /\ printable s = true.
Proof.
  simpl. intros H. apply andb_true_iff in H as [Hx Hs].
  apply andb_true_iff in Hx as [Hlo Hhi].
  apply Nat.ltb_lt in Hlo, Hhi. split; [|split; [|exact Hs]].
  - unfold Js.isWhiteSpace.
    repeat (apply orb_false_iff; split); apply Nat.eqb_neq; lia.
  - apply Ascii.eqb_neq. intros ->. vm_compute in Hlo. lia.
Qed.

Lemma printable_lacks_space (s : string) : printable s = true -> lacks " " s = true.
Proof.
  induction s as [|x s IH]; intros H; [reflexivity|].
  apply printable_cons in H as (_ & Hx & Hs). simpl. rewrite Hx, (IH Hs). reflexivity.
Qed.

Lemma operatorSymbol_printable (o : WhereOperator) : printable (operatorSymbol o) = true.
Proof. destruct o; reflexivity. Qed.

(** A pattern that starts with [c] does not start inside a string without
    [c]. *)
Lemma includes_past (c : ascii) (t p s : string) :
  lacks c p = true ->
  Js.includes (String c t) (p +:+ s) = Js.includes (String c t) s.
Proof.
  intros Hp. induction p as [|x p IH]; [reflexivity|].
  simpl in Hp. apply andb_true_iff in Hp as [Hx Hp]. apply negb_true_iff in Hx.
  change (Js.includes (String c t) (String x (p +:+ s)) = Js.includes (String c t) s).
  change (Js.includes (String c t) (String x (p +:+ s)))
    with ((if Ascii.eqb c x then Js.startsWith t (p +:+ s) else false)
          || Js.includes (String c t) (p +:+ s)).
  rewrite Ascii.eqb_sym, Hx. exact (IH Hp).
Qed.

(** A pattern that holds [c] does not start a string without [c]. *)
Lemma startsWith_lacks (c : ascii) (t u v : string) :
  lacks c v = true -> Js.startsWith (t +:+ String c u) v = false.
Proof.
  revert v. induction t as [|x t IH]; intros v Hv.
  - destruct v as [|y v]; [reflexivity|].
    simpl in Hv. apply andb_true_iff in Hv as [Hy _]. apply negb_true_iff in Hy.
    change (Js.startsWith (String c u) (String y v) = false). simpl.
    rewrite Ascii.eqb_sym, Hy. reflexivity.
  - destruct v as [|y v]; [reflexivity|].
    simpl in Hv. apply andb_true_iff in Hv as [_ Hv].
    change (Js.startsWith (String x (t +:+ String c u)) (String y v) = false).
    simpl. destruct (Ascii.eqb x y); [exact (IH v Hv)|reflexivity].
Qed.

(** Two words followed by [c], neither holding [c]: the one starts the
    other exactly when they are equal. *)
Lemma startsWith_word (c : ascii) (t s v : string) :
  lacks c t = true -> lacks c s = true ->
  Js.startsWith (t +:+ String c EmptyString) (s +:+ String c v) = String.eqb t s.
Proof.
  revert s. induction t as [|x t IH]; intros s Ht Hs.
  - destruct s as [|y s].
    + change (Js.startsWith (String c EmptyString) (String c v) = true).
      simpl. rewrite Ascii.eqb_refl. reflexivity.
    + simpl in Hs. apply andb_true_iff in Hs as [Hy _]. apply negb_true_iff in Hy.
      change (Js.startsWith (String c EmptyString) (String y (s +:+ String c v)) = false).
      simpl. rewrite Ascii.eqb_sym, Hy. reflexivity.
  - simpl in Ht. apply andb_true_iff in Ht as [Hx Ht]. apply negb_true_iff in Hx.
    destruct s as [|y s].
    + change (Js.startsWith (String x (t +:+ String c EmptyString)) (String c v) = false).
      simpl. rewrite Hx. reflexivity.
    + simpl in Hs. apply andb_true_iff in Hs as [_ Hs].
      change (Js.startsWith (String x (t +:+ String c EmptyString))
                (String y (s +:+ String c v))
              = if Ascii.eqb x y then String.eqb t s else false).
      simpl. destruct (Ascii.eqb x y); [exact (IH s Ht Hs)|reflexivity].
Qed.

(** A word between spaces is included in [p s v], three words separated by
    spaces, exactly when it is the middle one. *)
Lemma includes_between_spaces (t p s v : string) :
  lacks " " t = true -> lacks " " p = true -> lacks " " s = true ->
  lacks " " v = true ->
  Js.includes (" " +:+ t +:+ " ") (p +:+ " " +:+ s +:+ " " +:+ v) = String.eqb t s.
Proof.
  intros Ht Hp Hs Hv.
  change (" " +:+ t +:+ " ") with (String " " (t +:+ " ")).
  rewrite (includes_past " " _ p _ Hp).
  change (" " +:+ s +:+ " " +:+ v) with (String " " (s +:+ String " " v)).
  change (Js.includes (String " " (t +:+ " ")) (String " " (s +:+ String " " v)))
    with ((if Ascii.eqb " " " " then Js.startsWith (t +:+ " ") (s +:+ String " " v)
           else false)
          || Js.includes (String " " (t +:+ " ")) (s +:+ String " " v)).
  rewrite Ascii.eqb_refl, (startsWith_word " " t s v Ht Hs).
  rewrite (includes_past " " _ s _ Hs).
  change (Js.includes (String " " (t +:+ " ")) (String " " v))
    with ((if Ascii.eqb " " " " then Js.startsWith (t +:+ " ") v else false)
          || Js.includes (String " " (t +:+ " ")) v).
  rewrite Ascii.eqb_refl, (startsWith_lacks " " t EmptyString v Hv).
  rewrite (includes_lacks " " _ v Hv). apply orb_false_r.
Qed.

Lemma find_same {A : Type} (f g : A -> bool) (l : list A) :
  (forall a, f a = g a) -> find f l = find g l.
Proof.
  intros H. induction l as [|a l IH]; [reflexivity|]. simpl. rewrite H, IH. reflexivity.
Qed.

(** The operator of a clause of three words. *)
Lemma findOperator_of_clause (o : WhereOperator) (propName value : string) :
  printable propName = true -> printable value = true ->
  ManifestSdk.findOperator (propName +:+ " " +:+ operatorSymbol o +:+ " " +:+ value)
  = Some o.
Proof.
  intros Hp Hv. unfold ManifestSdk.findOperator.
  rewrite (find_same _ (fun operator => String.eqb (operatorSymbol operator)
                                          (operatorSymbol o))).
  - destruct o; reflexivity.
  - intros operator. apply includes_between_spaces;
      auto using printable_lacks_space, operatorSymbol_printable.
Qed.

(** Characters passed over after a separator. *)
Lemma splitFrom_skip (sep piece t rest : string) :
  JsText.splitFrom sep (String.length t) piece (t +:+ rest)
  = JsText.splitFrom sep O piece rest.
Proof.
  induction t as [|x t IH]; [destruct rest; reflexivity|]. exact IH.
Qed.

(** A string without the separator is one piece. *)
Lemma splitFrom_absent (sep piece v : string) :
  Js.includes sep v = false -> JsText.splitFrom sep O piece v = [piece +:+ v].
Proof.
  revert piece. induction v as [|x v IH]; intros piece H.
  - simpl. rewrite append_empty_r. reflexivity.
  - change (Js.includes sep (String x v))
      with (Js.startsWith sep (String x v) || Js.includes sep v) in H.
    apply orb_false_iff in H as [Hstart Hrest].
    change (JsText.splitFrom sep O piece (String x v))
      with (if Js.startsWith sep (String x v)
            then piece :: JsText.splitFrom sep (String.length sep - 1) EmptyString v
            else JsText.splitFrom sep O (piece +:+ String x EmptyString) v).
    rewrite Hstart, (IH _ Hrest), append_assoc. reflexivity.
Qed.

(** A word without the separator, followed by a space, is passed by. *)
Lemma splitFrom_word (sep piece p rest : string) :
  lacks " " sep = true -> Js.includes sep p = false ->
  JsText.splitFrom sep O piece (p +:+ String " " rest)
  = JsText.splitFrom sep O (piece +:+ p) (String " " rest).
Proof.
  intros Hsep. revert piece. induction p as [|x p IH]; intros piece H.
  - rewrite append_empty_r. reflexivity.
  - change (Js.includes sep (String x p))
      with (Js.startsWith sep (String x p) || Js.includes sep p) in H.
    apply orb_false_iff in H as [Hstart Hrest].
    change (JsText.splitFrom sep O piece (String x (p +:+ String " " rest))
            = JsText.splitFrom sep O (piece +:+ String x p) (String " " rest)).
    change (JsText.splitFrom sep O piece (String x (p +:+ String " " rest)))
      with (if Js.startsWith sep (String x (p +:+ String " " rest))
            then piece :: JsText.splitFrom sep (String.length sep - 1) EmptyString
                            (p +:+ String " " rest)
            else JsText.splitFrom sep O (piece +:+ String x EmptyString)
                   (p +:+ String " " rest)).
    destruct (Js.startsWith sep (String x (p +:+ String " " rest))) eqn:E.
    + rewrite (startsWith_before " " sep (String x p) rest Hsep E) in Hstart.
      discriminate.
    + rewrite (IH _ Hrest), append_assoc. reflexivity.
Qed.

(** The pieces of a clause of three words. *)
Lemma splitBy_clause (sym propName value : string) :
  printable sym = true -> sym <> EmptyString ->
  Js.includes sym propName = false -> Js.includes sym value = false ->
  JsText.splitBy sym (propName +:+ " " +:+ sym +:+ " " +:+ value)
  = [propName +:+ " "; " " +:+ value].
Proof.
  intros Hsym Hne Hp Hv. unfold JsText.splitBy.
  change (propName +:+ " " +:+ sym +:+ " " +:+ value)
    with (propName +:+ String " " (sym +:+ String " " value)).
  rewrite (splitFrom_word sym EmptyString propName _
             (printable_lacks_space _ Hsym) Hp).
  change (EmptyString +:+ propName) with propName.
  destruct sym as [|c t]; [congruence|].
  apply printable_cons in Hsym as (_ & Hc & _).
  change (JsText.splitFrom (String c t) O propName
            (String " " (String c t +:+ String " " value)))
    with (if Js.startsWith (String c t) (String " " (String c t +:+ String " " value))
          then propName :: JsText.splitFrom (String c t) (String.length (String c t) - 1)
                             EmptyString (String c t +:+ String " " value)
          else JsText.splitFrom (String c t) O (propName +:+ " ")
                 (String c t +:+ String " " value)).
  assert (Hspace : Js.startsWith (String c t)
                     (String " " (String c t +:+ String " " value)) = false)
    by (simpl; rewrite Hc; reflexivity).
  rewrite Hspace.
  change (JsText.splitFrom (String c t) O (propName +:+ " ")
            (String c t +:+ String " " value))
    with (if Js.startsWith (String c t) (String c t +:+ String " " value)
          then (propName +:+ " ")
               :: JsText.splitFrom (String c t) (String.length (String c t) - 1)
                    EmptyString (t +:+ String " " value)
          else JsText.splitFrom (String c t) O
                 ((propName +:+ " ") +:+ String c EmptyString)
                 (t +:+ String " " value)).
  rewrite startsWith_append.
  replace (String.length (String c t) - 1)%nat with (String.length t)
    by (simpl; lia).
  rewrite splitFrom_skip.
  change (JsText.splitFrom (String c t) O EmptyString (String " " value))
    with (if Js.startsWith (String c t) (String " " value)
          then EmptyString
               :: JsText.splitFrom (String c t) (String.length (String c t) - 1)
                    EmptyString value
          else JsText.splitFrom (String c t) O (String " " EmptyString) value).
  assert (Hspace' : Js.startsWith (String c t) (String " " value) = false)
    by (simpl; rewrite Hc; reflexivity).
  rewrite Hspace', (splitFrom_absent _ _ _ Hv). reflexivity.
Qed.

Lemma trimEnd_printable (s : string) : printable s = true -> JsText.trimEnd s = s.
Proof.
  induction s as [|x s IH]; intros H; [reflexivity|].
  apply printable_cons in H as (Hx & _ & Hs). simpl. rewrite (IH Hs), Hx.
  destruct s; reflexivity.
Qed.

Lemma trimEnd_word (s : string) :
  printable s = true -> JsText.trimEnd (s +:+ " ") = s.
Proof.
  induction s as [|x s IH]; intros H; [reflexivity|].
  apply printable_cons in H as (Hx & _ & Hs).
  change (JsText.trimEnd (String x (s +:+ " ")) = String x s).
  simpl. rewrite (IH Hs), Hx. destruct s; reflexivity.
Qed.

(** Trimming the two pieces of a clause gives the two words. *)
Lemma trim_words (s : string) :
  printable s = true ->
  JsText.trim (s +:+ " ") = s /\ JsText.trim (" " +:+ s) = s.
Proof.
  intros H. unfold JsText.trim. split.
  - destruct s as [|x s]; [reflexivity|].
    pose proof (printable_cons _ _ H) as (Hx & _ & _).
    change (Js.skipWhiteSpace (String x s +:+ " "))
      with (if Js.isWhiteSpace x then Js.skipWhiteSpace (s +:+ " ")
            else String x s +:+ " ").
    rewrite Hx. apply trimEnd_word. exact H.
  - change (Js.skipWhiteSpace (" " +:+ s)) with (Js.skipWhiteSpace s).
    destruct s as [|x s]; [reflexivity|].
    pose proof (printable_cons _ _ H) as (Hx & _ & _).
    simpl Js.skipWhiteSpace. rewrite Hx. apply trimEnd_printable. exact H.
Qed.

(** The key and the value that [where] makes of a clause of three words. *)
Lemma where_clause_key (c : ManifestSdk.Client) (o : WhereOperator)
    (propName value : string) :
  printable propName = true -> printable value = true ->
  Js.includes (operatorSymbol o) propName = false ->
  Js.includes (operatorSymbol o) value = false ->
  ManifestSdk.where_ c (propName +:+ " " +:+ operatorSymbol o +:+ " " +:+ value)
  = ManifestSdk.Returns
      (ManifestSdk.withQueryParams c
         (assign (propName +:+ whereOperatorKeySuffix o) (Some value)
            (ManifestSdk.queryParams c))).
Proof.
  intros Hp Hv Hnp Hnv. unfold ManifestSdk.where_.
  rewrite (findOperator_of_clause o propName value Hp Hv).
  rewrite (splitBy_clause (operatorSymbol o) propName value
             (operatorSymbol_printable o)) by (destruct o; auto; discriminate).
  simpl map. rewrite (proj1 (trim_words propName Hp)), (proj2 (trim_words value Hv)).
  reflexivity.
Qed.

(** X27: what the SDK's [where] makes of a clause [property operator
    value] whose property and value are words of printable characters that
    do not include the symbol of the operator: the value is stored under
    the name of the property followed by the suffix of the operator, and
    the other parameters of the client are kept. A clause without any
    space, like [age=10], throws. *)
Theorem where_builds_suffixed_key (c : ManifestSdk.Client) (o : WhereOperator)
    (propName value : string) :
  (printable propName = true -> printable value = true ->
   Js.includes (operatorSymbol o) propName = false ->
   Js.includes (operatorSymbol o) value = false ->
   exists c',
     ManifestSdk.where_ c (propName +:+ " " +:+ operatorSymbol o +:+ " " +:+ value)
     = ManifestSdk.Returns c' /\
     entry (propName +:+ whereOperatorKeySuffix o) (ManifestSdk.queryParams c')
     = Some (Some value) /\
     (forall key, key <> propName +:+ whereOperatorKeySuffix o ->
        entry key (ManifestSdk.queryParams c') = entry key (ManifestSdk.queryParams c)) /\
     ManifestSdk.slug c' = ManifestSdk.slug c) /\
  (forall whereClause, lacks " " whereClause = true ->
     exists message, ManifestSdk.where_ c whereClause = ManifestSdk.Error message).
Proof.
  split.
  - intros Hp Hv Hnp Hnv. eexists. split; [apply where_clause_key; assumption|].
    simpl. split; [apply entry_assign_eq|]. split; [|reflexivity].
    intros key Hkey. apply entry_assign_ne. congruence.
  - intros whereClause Hlacks. unfold ManifestSdk.where_.
    assert (Hnone : ManifestSdk.findOperator whereClause = None).
    { unfold ManifestSdk.findOperator.
      rewrite (find_same _ (fun _ => false)); [reflexivity|].
      intros operator. apply (includes_lacks " "). exact Hlacks. }
    rewrite Hnone. eexists. reflexivity.
Qed.

Lemma searchParams_assign (key value : string) (q : list (string * option string)) :
  In (key, value) (ManifestSdk.searchParams (assign key (Some value) q)).
Proof.
  induction q as [|[k [v|]] q IH]; simpl.
  - left. reflexivity.
  - destruct (String.eqb_spec k key) as [->|Hne]; simpl; [left; reflexivity|].
    right. exact IH.
  - destruct (String.eqb_spec k key) as [->|Hne]; simpl; [left; reflexivity|].
    exact IH.
Qed.

(** X28: a where clause of the SDK reaches the server as the filter it
    states. For a clause [property operator value] of printable words, the
    property including no operator suffix, [where] stores the value under
    a key that [find] sends in the query string, and [filterQuery] reads
    that key back as the property and the operator of the clause. *)
Theorem where_round_trip (c : ManifestSdk.Client) (o : WhereOperator)
    (propName value : string) :
  printable propName = true -> printable value = true ->
  Js.includes (operatorSymbol o) propName = false ->
  Js.includes (operatorSymbol o) value = false ->
  (forall t, In t WhereKeySuffix_values -> Js.includes t propName = false) ->
  exists c' key suffix,
    ManifestSdk.where_ c (propName +:+ " " +:+ operatorSymbol o +:+ " " +:+ value)
    = ManifestSdk.Returns c' /\
    In (key, value) (snd (ManifestSdk.find c' [])) /\
    CrudService.findSuffix key = Some suffix /\
    Js.removeFirst suffix key = propName /\
    getRecordKeyByValue suffix = Some o.
Proof.
  intros Hp Hv Hnp Hnv Hno.
  destruct (built_key_decodes o propName Hno) as (Hsuffix & Hprop & Hkey).
  eexists. exists (propName +:+ whereOperatorKeySuffix o), (whereOperatorKeySuffix o).
  split; [apply where_clause_key; assumption|].
  split; [apply searchParams_assign|]. auto.
Qed.

(* ===================================================================== *)
(** ** Numbers and lists in the query string *)
(* ===================================================================== *)

Lemma digits_from (d : Decimal.uint) (acc : positive) :
  Js.digits (Some (Z.pos acc)) (DecimalString.NilEmpty.string_of_uint d)
  = Some (Z.pos (Pos.of_uint_acc d acc)).
Proof.
  revert acc. induction d; intros acc; simpl; [reflexivity|..];
    rewrite <- IHd; f_equal; f_equal;
    match goal with
    | |- context [Z.of_nat (nat_of_ascii ?c)] =>
        let v := eval vm_compute in (Z.of_nat (nat_of_ascii c)) in
        change (Z.of_nat (nat_of_ascii c)) with v
    end; lia.
Qed.

Lemma digits_from_zero (d : Decimal.uint) :
  Js.digits (Some 0) (DecimalString.NilEmpty.string_of_uint d)
  = Some (Z.of_N (Pos.of_uint d)).
Proof.
  induction d; simpl; try reflexivity; try exact IHd;
    (etransitivity; [|apply digits_from]); reflexivity.
Qed.

(** Reading the digits of a positive number gives the number. *)
Lemma digits_of_positive (p : positive) :
  Js.digits None (DecimalString.NilZero.string_of_uint (Pos.to_uint p))
  = Some (Z.pos p).
Proof.
  assert (H : forall d, Js.digits None (DecimalString.NilZero.string_of_uint d)
                        = Some (Z.of_N (Pos.of_uint d))).
  { intros d. destruct d; try reflexivity;
      (etransitivity; [|apply digits_from_zero || apply digits_from]); reflexivity. }
  rewrite H, DecimalPos.Unsigned.of_to. reflexivity.
Qed.

Lemma parseInt_digits (d : Decimal.uint) :
  Js.parseInt (DecimalString.NilZero.string_of_uint d)
  = Js.digits None (DecimalString.NilZero.string_of_uint d).
Proof. destruct d; reflexivity. Qed.

(** X29: a safe integer (from -(2^53 - 1) to 2^53 - 1) that is printed
    into the query string, as the SDK prints a page number, is read back by
    [parseInt] as the same integer; so the current page of the list read is
    the page that the SDK sends, when that is not zero. *)
Theorem page_number_round_trip (n : Z) :
  JsText.isSafeInteger n = true ->
  Js.parseInt (JsText.numberToString n) = Some n /\
  (n <> 0 ->
   Js.orDefault (Js.parseInt (toStringU (Some (QString (JsText.numberToString n))))) 1
   = n) /\
  (forall c, entry "page" (snd (ManifestSdk.find c [("page", Some n)]))
             = Some (JsText.numberToString n)).
Proof.
  intros _.
  assert (Hparse : Js.parseInt (JsText.numberToString n) = Some n).
  { unfold JsText.numberToString. destruct n as [|p|p]; [reflexivity| |].
    - simpl Z.to_int. simpl DecimalString.NilZero.string_of_int.
      rewrite parseInt_digits. apply digits_of_positive.
    - simpl Z.to_int. simpl DecimalString.NilZero.string_of_int.
      change (Z.opp <$> Js.digits None
                (DecimalString.NilZero.string_of_uint (Pos.to_uint p))
              = Some (Z.neg p)).
      rewrite digits_of_positive. reflexivity. }
  split; [exact Hparse|]. split.
  - intros Hn. simpl toStringU. rewrite Hparse. simpl.
    destruct (Z.eqb_spec n 0); [contradiction|reflexivity].
  - intros c. unfold ManifestSdk.find, ManifestSdk.findParams. simpl.
    induction (ManifestSdk.queryParams c) as [|[k [v|]] q IH]; simpl.
    + reflexivity.
    + destruct (String.eqb k "page") eqn:E; simpl; rewrite E; [reflexivity|exact IH].
    + destruct (String.eqb k "page") eqn:E; simpl; [rewrite E; reflexivity|exact IH].
Qed.

Lemma split_never_empty (sep : ascii) (s : string) : Js.split sep s <> [].
Proof.
  induction s as [|c s IH]; simpl; [discriminate|].
  destruct (Ascii.eqb c sep); [discriminate|].
  destruct (Js.split sep s); discriminate.
Qed.

(** Splitting after a piece without the separator. *)
Lemma split_after_piece (r s : string) :
  Js.includes "," r = false ->
  Js.split "," (r +:+ s)
  = match Js.split "," s with
    | w :: ws => (r +:+ w) :: ws
    | [] => [r]
    end.
Proof.
  induction r as [|c r IH]; intros Hr.
  - change (EmptyString +:+ s) with s.
    destruct (Js.split "," s) eqn:E; [destruct (split_never_empty _ _ E)|reflexivity].
  - change (Js.includes "," (String c r))
      with ((if Ascii.eqb "," c then true else false) || Js.includes "," r) in Hr.
    apply orb_false_iff in Hr as [Hc Hr].
    change (Js.split "," (String c (r +:+ s))
            = match Js.split "," s with
              | w :: ws => String c (r +:+ w) :: ws
              | [] => [String c r]
              end).
    change (Js.split "," (String c (r +:+ s)))
      with (if Ascii.eqb c "," then EmptyString :: Js.split "," (r +:+ s)
            else match Js.split "," (r +:+ s) with
                 | [] => [String c EmptyString]
                 | w :: ws => String c w :: ws
                 end).
    rewrite Ascii.eqb_sym.
    destruct (Ascii.eqb "," c); [discriminate|].
    rewrite (IH Hr). destruct (Js.split "," s) eqn:E; [|reflexivity].
    destruct (split_never_empty _ _ E).
Qed.

Lemma split_join (relations : list string) :
  relations <> [] ->
  (forall r, In r relations -> Js.includes "," r = false) ->
  Js.split "," (Js.join "," relations) = relations.
Proof.
  induction relations as [|x l IH]; intros Hne Hfree; [congruence|].
  destruct l as [|y l].
  - simpl. rewrite <- (append_empty_r x) at 1.
    rewrite split_after_piece by (apply Hfree; left; reflexivity).
    simpl. rewrite append_empty_r. reflexivity.
  - change (Js.join "," (x :: y :: l)) with (x +:+ "," +:+ Js.join "," (y :: l)).
    rewrite split_after_piece by (apply Hfree; left; reflexivity).
    change (Js.split "," ("," +:+ Js.join "," (y :: l)))
      with (EmptyString :: Js.split "," (Js.join "," (y :: l))).
    rewrite IH; [rewrite append_empty_r; reflexivity|discriminate|].
    intros r Hr. apply Hfree. right. exact Hr.
Qed.

(** X30: the relations that the SDK's [with] puts into the query string,
    joined by commas, are the relations that the server requests when it
    splits the string again, provided there is at least one and none holds
    a comma. For no relation at all the server requests one relation of
    empty name. *)
Theorem with_round_trip (c : ManifestSdk.Client) (relations : list string) :
  (relations <> [] ->
   (forall r, In r relations -> Js.includes "," r = false) ->
   exists sent,
     entry "relations" (ManifestSdk.queryParams (ManifestSdk.with_ c relations))
     = Some (Some sent) /\
     Js.split "," (toString (QString sent)) = relations) /\
  (relations = [] ->
   exists sent,
     entry "relations" (ManifestSdk.queryParams (ManifestSdk.with_ c relations))
     = Some (Some sent) /\
     Js.split "," (toString (QString sent)) = [EmptyString]).
Proof.
  split.
  - intros Hne Hfree. exists (Js.join "," relations).
    split; [apply entry_assign_eq|]. apply split_join; assumption.
  - intros ->. exists EmptyString. split; [apply entry_assign_eq|reflexivity].
Qed.

(* ===================================================================== *)
(** ** The properties on the sample application *)
(* ===================================================================== *)

(** Loading the requested owner of the cats keeps the query's conditions. *)
Lemma loadRelations_keeps_conditions_witness :
  exists query',
    Sample.loadRelations SampleMore.app 2 SampleMore.catQuery
      (Sample.metadataOf Sample.cat) (relationships Sample.cat)
      (Some ["owner"]) "entity" = Some (Ok query') /\
    (wheres query' = wheres SampleMore.catQuery /\
     parameters query' = parameters SampleMore.catQuery /\
     orderBys query' = orderBys SampleMore.catQuery /\
     mainAlias query' = mainAlias SampleMore.catQuery /\
     (exists cols, selects query' = selects SampleMore.catQuery ++ cols) /\
     (exists joined, joins query' = joins SampleMore.catQuery ++ joined)).
Proof.
  eexists.
  refine ((fun H => conj H (loadRelations_keeps_conditions _ _ _ _ _ _ _ _ _ _ H)) _).
  vm_compute. reflexivity.
Defined.

(** The columns of the owner that are added to the query of the cats. *)
Lemma loadRelations_hides_hidden_witness :
  exists query',
    Sample.loadRelations SampleMore.app 2 SampleMore.catQuery
      (Sample.metadataOf Sample.cat) (relationships Sample.cat)
      (Some ["owner"]) "entity" = Some (Ok query') /\
    forall c, In c (selects query') ->
      In c (selects SampleMore.catQuery) \/
      exists property alias' name entityManifest,
        In (property, alias') (joins query') /\
        Sample.getEntityManifestByClassName SampleMore.app name = Ok entityManifest /\
        (c = CrudService.column alias' "id" \/
         exists prop, In prop (properties entityManifest) /\
                      c = CrudService.column alias' (prop_name prop) /\
                      prop_hidden prop = false /\ prop_name prop <> "password").
Proof.
  eexists.
  refine ((fun H => conj H (loadRelations_hides_hidden _ _ _ _ _ _ _ _ _ _ H)) _).
  vm_compute. reflexivity.
Defined.

(** Cats are read without their owner when it is not requested. *)
Lemma loadRelations_nothing_to_load_witness :
  Sample.loadRelations SampleMore.app 1 SampleMore.catQuery
    (Sample.metadataOf Sample.cat) (relationships Sample.cat) None "entity"
  = Some (Ok SampleMore.catQuery).
Proof.
  apply (loadRelations_nothing_to_load (Json := string)).
  intros relationMetadata [<-|[]]. eexists.
  split; [reflexivity|]. split; reflexivity.
Defined.

(** Cats whose manifest declares no owner cannot be read. *)
Lemma loadRelations_needs_every_manifest_witness :
  Sample.loadRelations SampleMore.app 1 SampleMore.catQuery
    (Sample.metadataOf Sample.cat) [] None "entity"
  <> Some (Ok SampleMore.catQuery).
Proof.
  apply (loadRelations_needs_every_manifest (Json := string) _ _ _ _ _ _ _ _ _ _
           {| propertyName := "owner"; inverseTargetName := "User" |}).
  - left. reflexivity.
  - reflexivity.
Defined.

(** Cats ordered by age, then by a property that does not exist. *)
Lemma applyOrdering_cases_witness :
  (exists order,
     CrudService.applyOrdering "cats" Sample.cat
       (Some [("orderBy", QString "age"); ("order", QString "DESC")])
       SampleMore.catQuery
     = Ok (QB.orderBy (CrudService.column "entity" "age") order SampleMore.catQuery) /\
     order = DESC) /\
  (exists message,
     CrudService.applyOrdering "cats" Sample.cat
       (Some [("orderBy", QString "weight")]) SampleMore.catQuery
     = Throw (BadRequest message)).
Proof.
  split.
  - destruct (proj1 (proj2 (proj2 (applyOrdering_cases "cats" Sample.cat
                (Some [("orderBy", QString "age"); ("order", QString "DESC")])
                SampleMore.catQuery)) "age" eq_refl ltac:(discriminate)))
      as (order & Horder & Hdesc & _).
    + eexists. split; [right; left; reflexivity|]. split; reflexivity.
    + exists order. split; [exact Horder|]. apply Hdesc. reflexivity.
  - apply (proj2 (proj2 (proj2 (applyOrdering_cases "cats" Sample.cat
                (Some [("orderBy", QString "weight")])
                SampleMore.catQuery)) "weight" eq_refl ltac:(discriminate))).
    intros prop [<-|[<-|[]]]; discriminate.
Defined.

(** A filter on the age of the cats leaves the selection alone. *)
Lemma filterQuery_keeps_shape_witness :
  exists query',
    CrudService.filterQuery Sample.JSON_parse Sample.camelize SampleMore.catQuery
      (Some [("age_gt", QString "3")]) Sample.cat = Ok query' /\
    (selects query' = selects SampleMore.catQuery /\
     joins query' = joins SampleMore.catQuery /\
     orderBys query' = orderBys SampleMore.catQuery /\
     mainAlias query' = mainAlias SampleMore.catQuery).
Proof.
  eexists.
  refine ((fun H => conj H (filterQuery_keeps_shape _ _ _ _ _ _ H)) _).
  vm_compute. reflexivity.
Defined.

(** Pagination parameters filter nothing. *)
Lemma filterQuery_reserved_only_witness :
  CrudService.filterQuery Sample.JSON_parse Sample.camelize SampleMore.catQuery
    (Some [("page", QString "2"); ("perPage", QString "5")]) Sample.cat
  = Ok SampleMore.catQuery.
Proof.
  apply filterQuery_reserved_only.
  intros key value [[= <- <-]|[[= <- <-]|[]]]; vm_compute; tauto.
Defined.

(** A filter without operator suffix is refused. *)
Lemma filterQuery_needs_suffix_witness :
  exists e,
    CrudService.filterQuery Sample.JSON_parse Sample.camelize SampleMore.catQuery
      (Some [("page", QString "2"); ("age", QString "3")]) Sample.cat = Throw e.
Proof.
  apply (filterQuery_needs_suffix _ _ _ _ _ "age" (QString "3")).
  - right. left. reflexivity.
  - vm_compute. intuition discriminate.
  - vm_compute. reflexivity.
Defined.

(** The toys that squeak are asked for with the value 1. *)
Lemma filterEntry_boolean_witness :
  exists query',
    CrudService.filterEntry Sample.JSON_parse Sample.camelize SampleMore.toy
      (QB.createQueryBuilder "entity") ("squeaky_eq", QString "true") = Ok query' /\
    parameters query' !! "value" = Some (PValue (QString "1")).
Proof.
  eexists.
  refine ((fun H => conj H (filterEntry_boolean Sample.JSON_parse Sample.camelize
                              SampleMore.toy _ _ "squeaky_eq" (QString "true")
                              "_eq" Equal
                              {| prop_name := "squeaky"; prop_type := Boolean;
                                 prop_hidden := false |} _ _ _ _ _ H)) _).
  - vm_compute. reflexivity.
  - vm_compute. reflexivity.
  - discriminate.
  - vm_compute. reflexivity.
  - reflexivity.
  - vm_compute. reflexivity.
Defined.

(** The query for cat 7 with its owner. *)
Lemma findOne_only_id_condition_witness :
  exists query,
    SampleMore.findOneQuery 2 "cats" 7 (Some [("age_gt", QString "3")]) false
    = Some (Ok query) /\
    exists entityManifest,
      Sample.getEntityManifest SampleMore.app "cats" false = Ok entityManifest /\
      wheres query = ["entity.id = :id"] /\
      parameters query = {[ "id" := PJson (SampleMore.numberValue 7) ]} /\
      orderBys query = [] /\
      exists cols,
        selects query
        = CrudService.getVisibleProps (properties entityManifest) "entity" false
          ++ cols.
Proof.
  eexists.
  refine ((fun H => conj H (findOne_only_id_condition _ _ _ _ _ _ _ _ _ _ _ H)) _).
  vm_compute. reflexivity.
Defined.

(** One cat and the list of cats, both with the owner. *)
Lemma findOne_hydrates_like_findAll_witness :
  exists one a,
    SampleMore.findOneQuery 2 "cats" 7 (Some [("relations", QString "owner")]) false
    = Some (Ok one) /\
    Sample.findAll SampleMore.app 2 "cats" (Some [("relations", QString "owner")]) false
    = Some (Ok a) /\
    selects (query a) = selects one /\ joins (query a) = joins one.
Proof.
  do 2 eexists.
  split; [vm_compute; reflexivity|]. split; [vm_compute; reflexivity|].
  refine (findOne_hydrates_like_findAll Sample.JSON_parse Sample.camelize
            (Sample.getEntityManifest SampleMore.app)
            (Sample.getEntityManifestByClassName SampleMore.app)
            (Sample.getEntityMetadata SampleMore.app)
            Sample.DEFAULT_RESULTS_PER_PAGE SampleMore.numberValue
            2%nat "cats" 7 [("relations", QString "owner")] false _ _ _ _);
    vm_compute; reflexivity.
Defined.

(** The select options of the cats. *)
Lemma findSelectOptions_asks_for_all_witness :
  exists options,
    SampleMore.findSelectOptions 2 SampleMore.db "cats" None = Some (Ok options) /\
    exists a page entityManifest,
      Sample.findAll SampleMore.app 2 "cats"
        (Some (CrudServiceRead.selectOptionsParams None)) false = Some (Ok a) /\
      resultsPerPage a = -1 /\
      currentPage a
      = Js.orDefault (Js.parseInt (toStringU (None ≫= param "page"))) 1 /\
      SampleMore.paginate SampleMore.db a = Ok page /\
      Sample.getEntityManifest SampleMore.app "cats" false = Ok entityManifest /\
      options = map (fun item => {| option_id := item !! "id";
                                    option_label := item !! mainProp entityManifest |})
                    page.
Proof.
  eexists.
  refine ((fun H => conj H (findSelectOptions_asks_for_all _ _ _ _ _ _ _ _ _ _ _ _ _ H)) _).
  vm_compute. reflexivity.
Defined.

(** The settings do not exist yet: reading them creates them empty. *)
Lemma single_findOne_cases_witness :
  SampleMore.singleFindOne 2 SampleMore.db "settings" true
  = Some (fst (Sample.save SampleMore.db "settings" ∅), Ok (Some ∅)).
Proof.
  refine (proj1 (proj2 (single_findOne_cases Sample.camelize
                          (Sample.getEntityManifest SampleMore.app)
                          (Sample.getEntityManifestByClassName SampleMore.app)
                          (Sample.getEntityMetadata SampleMore.app)
                          SampleMore.numberValue SampleMore.getOne
                          (Sample.getEntityRepository SampleMore.app) Sample.save
                          SampleMore.isReqUserAdmin 2%nat SampleMore.db "settings"
                          true true eq_refl))
            _ (fst (Sample.save SampleMore.db "settings" ∅)) (Ok ∅) _ _ _ _).
  - vm_compute. reflexivity.
  - vm_compute. reflexivity.
  - reflexivity.
  - reflexivity.
Defined.

(** A new admin is stored with the hash of the password. *)
Lemma store_hashes_password_witness :
  exists newItem,
    SampleMore.candidate SampleMore.db "admins" SampleMore.bob
    = Ok (SampleMore.admin, newItem, ∅) /\
    newItem !! "password" = Some "sha3:pw".
Proof.
  exists (<["password" := "sha3:pw"]> SampleMore.bob).
  split; [vm_compute; reflexivity|].
  refine (eq_trans
            (proj1 (store_hashes_password (Sample.getEntityRepository SampleMore.app)
                      (Sample.getEntityManifest SampleMore.app)
                      Sample.fetchRelationItemsFromDto Sample.SHA3 Sample.isTruthy
                      (fun dto => dto) SampleMore.db "admins" SampleMore.bob
                      SampleMore.admin (<["password" := "sha3:pw"]> SampleMore.bob)
                      ∅ _) _ _) _);
    vm_compute; reflexivity.
Defined.

(** An admin updated without a password is saved without one. *)
Lemma update_password_rule_witness :
  exists updatedItem,
    SampleMore.updated SampleMore.db "admins" 1 SampleMore.newEmail
    = Ok (SampleMore.admin, updatedItem, ∅) /\
    updatedItem !! "password" = None.
Proof.
  exists (base.delete "password" (SampleMore.newEmail ∪ SampleMore.ann)).
  assert (H : SampleMore.updated SampleMore.db "admins" 1 SampleMore.newEmail
              = Ok (SampleMore.admin,
                    base.delete "password" (SampleMore.newEmail ∪ SampleMore.ann), ∅))
    by (vm_compute; reflexivity).
  split; [exact H|].
  destruct (update_password_rule _ _ _ _ _ _ _ _ _ _ _ _ _ _ H)
    as (table & item & _ & _ & _ & Hnone & _).
  apply Hnone; vm_compute; reflexivity.
Defined.

(** There is no cat 9 to update. *)
Lemma update_missing_item_witness :
  SampleMore.update SampleMore.db "cats" 9 SampleMore.newAge
  = (SampleMore.db, Throw (NotFoundException "Item not found")).
Proof.
  refine (proj2 (update_missing_item Sample.related
                   (Sample.getEntityRepository SampleMore.app)
                   (Sample.getEntityManifest SampleMore.app)
                   Sample.fetchRelationItemsFromDto Sample.validate Sample.SHA3
                   Sample.isTruthy (fun dto => dto) Sample.save
                   SampleMore.db "cats" 9 SampleMore.newAge _) Sample.cat ∅ _ _ _);
    vm_compute; reflexivity.
Defined.

(** Cat 1 is saved with its age once the merged item passes validation. *)
Lemma update_validates_before_saving_witness :
  SampleMore.update SampleMore.db "cats" 1 SampleMore.newAge
  = Sample.save SampleMore.db "cats" (∅ ∪ (SampleMore.newAge ∪ Sample.tom)).
Proof.
  refine (proj1 (proj2 (update_validates_before_saving Sample.related
                          (Sample.getEntityRepository SampleMore.app)
                          (Sample.getEntityManifest SampleMore.app)
                          Sample.fetchRelationItemsFromDto Sample.validate
                          Sample.SHA3 Sample.isTruthy (fun dto => dto) Sample.save
                          SampleMore.db "cats" 1 SampleMore.newAge Sample.cat
                          (SampleMore.newAge ∪ Sample.tom) ∅ _)) _);
    vm_compute; reflexivity.
Defined.

(** There is no cat 9 to delete. *)
Lemma delete_missing_item_witness :
  SampleMore.delete SampleMore.db "cats" 9
  = (SampleMore.db, Throw (NotFoundException "Item not found")).
Proof.
  apply (delete_missing_item Sample.related (Sample.getEntityRepository SampleMore.app)
           (Sample.getEntityManifest SampleMore.app) SampleMore.db "cats" 9 Sample.cat);
    vm_compute; reflexivity.
Defined.

(** The sample database is not empty: it has an admin and a cat. *)
Lemma isDbEmpty_all_tables_empty_witness :
  exists empty,
    SampleMore.isDbEmpty SampleMore.db [Sample.cat; Sample.owner] = Ok empty /\
    (empty = true <->
     forall entityManifest id,
       In entityManifest ([Sample.cat; Sample.owner] ++ [SampleMore.admin]) ->
       (SampleMore.db !! slug entityManifest ≫= fun table => table !! id) = None).
Proof.
  apply isDbEmpty_all_tables_empty.
  intros entityManifest [<-|[<-|[<-|[]]]]; reflexivity.
Defined.

(** The columns of the cats: [age] comes from the property, [id] from the
    base entity. *)
Lemma entitySchema_columns_witness :
  columns (EntityLoaderService.entitySchema (RelationOptions := unit) ∅ ∅
             (fun _ => tt) Sample.cat) !! "createdAt"
  = (∅ : gmap string EntitySchemaColumnOptions) !! "createdAt".
Proof.
  apply (proj1 (entitySchema_columns (RelationOptions := unit) ∅ ∅ (fun _ => tt)
                  Sample.cat "createdAt")).
  intros prop [<-|[<-|[]]]; discriminate.
Defined.

(** A property declared twice: the second declaration gives the column. *)
Lemma entitySchema_last_property_wins_witness :
  exists col,
    columns (EntityLoaderService.entitySchema (RelationOptions := unit) ∅ ∅
               (fun _ => tt) SampleMore.twice) !! "x" = Some col /\
    col_type col = propTypeColumnTypes Number /\
    col_name col = Some "x" /\
    col_primary col = None /\ col_unique col = None.
Proof.
  apply (entitySchema_last_property_wins (RelationOptions := unit) ∅ ∅ (fun _ => tt)
           SampleMore.twice
           [ {| prop_name := "x"; prop_type := String_; prop_hidden := false |} ]
           {| prop_name := "x"; prop_type := Number; prop_hidden := false |} []).
  - reflexivity.
  - intros other [].
Defined.

(** [where('age >= 10')] on the cats. *)
Lemma where_builds_suffixed_key_witness :
  exists c',
    ManifestSdk.where_ SampleMore.client "age >= 10" = ManifestSdk.Returns c' /\
    entry "age_gte" (ManifestSdk.queryParams c') = Some (Some "10") /\
    (forall key, key <> "age_gte" ->
       entry key (ManifestSdk.queryParams c')
       = entry key (ManifestSdk.queryParams SampleMore.client)) /\
    ManifestSdk.slug c' = ManifestSdk.slug SampleMore.client.
Proof.
  apply (proj1 (where_builds_suffixed_key SampleMore.client GreaterThanOrEqual
                  "age" "10")); reflexivity.
Defined.

(** [where('age >= 10')] is read by the server as [age] and [>=]. *)
Lemma where_round_trip_witness :
  exists c' key suffix,
    ManifestSdk.where_ SampleMore.client "age >= 10" = ManifestSdk.Returns c' /\
    In (key, "10") (snd (ManifestSdk.find c' [])) /\
    CrudService.findSuffix key = Some suffix /\
    Js.removeFirst suffix key = "age" /\
    getRecordKeyByValue suffix = Some GreaterThanOrEqual.
Proof.
  apply (where_round_trip SampleMore.client GreaterThanOrEqual "age" "10");
    try reflexivity.
  intros t Ht. apply In_WhereKeySuffix_values in Ht.
  repeat (destruct Ht as [Ht|Ht]); subst t; reflexivity.
Defined.

(** The filter [age_gt=3] on the cats. *)
Lemma filterEntry_of_suffixed_key_witness :
  exists query' bound,
    CrudService.filterEntry Sample.JSON_parse Sample.camelize Sample.cat
      SampleMore.catQuery ("age" +:+ whereOperatorKeySuffix GreaterThan, QString "3")
    = Ok query' /\
    wheres query'
    = [CrudService.column "entity" "age" +:+ " " +:+ operatorSymbol GreaterThan
       +:+ " :value"] /\
    parameters query' !! "value" = Some (PValue bound).
Proof.
  apply (filterEntry_of_suffixed_key Sample.JSON_parse Sample.camelize Sample.cat
           SampleMore.catQuery GreaterThan "age" (QString "3")
           {| prop_name := "age"; prop_type := Number; prop_hidden := false |}).
  - intros t Ht. apply In_WhereKeySuffix_values in Ht.
    repeat (destruct Ht as [Ht|Ht]); subst t; reflexivity.
  - right. left. reflexivity.
  - reflexivity.
  - reflexivity.
  - intros relationship [<-|[]]. discriminate.
  - discriminate.
Defined.

(** [with(['owner', 'owner.company'])] requests these two relations. *)
Lemma with_round_trip_witness :
  exists sent,
    entry "relations"
      (ManifestSdk.queryParams
         (ManifestSdk.with_ SampleMore.client ["owner"; "owner.company"]))
    = Some (Some sent) /\
    Js.split "," (toString (QString sent)) = ["owner"; "owner.company"].
Proof.
  apply (proj1 (with_round_trip SampleMore.client ["owner"; "owner.company"])).
  - discriminate.
  - intros r [<-|[<-|[]]]; reflexivity.
Defined.

(** Page 3 is read back as page 3. *)
Lemma page_number_round_trip_witness :
  Js.parseInt (JsText.numberToString 3) = Some 3 /\
  Js.orDefault (Js.parseInt (toStringU (Some (QString (JsText.numberToString 3))))) 1
  = 3 /\
  entry "page" (snd (ManifestSdk.find SampleMore.client [("page", Some 3)]))
  = Some (JsText.numberToString 3).
Proof.
  assert (Hsafe : JsText.isSafeInteger 3 = true) by (vm_compute; reflexivity).
  destruct (page_number_round_trip 3 Hsafe) as (Hparse & Hpage & Hsent).
  split; [exact Hparse|]. split; [apply Hpage; discriminate|apply Hsent].
Defined.
